(** * The WooCommerce REST client of the fence calculator

    A shallow embedding of [src/services/woocommerce.api.js]: URL
    resolution ([buildWooCommerceUrl]), the endpoint-format cascade
    ([woocommerceRequest]) and the mock-data generator
    ([generateMockData] and the functions it dispatches to); then of the
    calculator component that loads its fence types through the client,
    and of the product utilities ([filterProducts],
    [getUniqueAttributeValues]).

    JavaScript values are a small tagged union, objects are association
    lists kept in property-enumeration order, and the effects of the
    module (the network, the clock read by [new Date()], the console,
    thrown errors) are threaded through a state-and-exception monad over
    a [World].  Strings are sequences of ASCII characters.  Numbers are
    the values the module computes with: [NaN], the two infinities, and
    the integers, rounded to a double where an operation produces one
    (beyond 2^53 not every integer is a double). *)

From Stdlib Require Import ZArith List String Ascii DecimalString DecimalPos Bool
  Sorting.Sorted Lia.
Import ListNotations.
Local Open Scope string_scope.
Local Open Scope Z_scope.

(** ** JavaScript values *)

Module Js.

Inductive Num : Type :=
| NaN
| Int (z : Z)
| Inf (negative : bool).

#[warnings="-register-all"]
Inductive Val : Type :=
| VUndefined
| VNull
| VBool (b : bool)
| VNum (n : Num)
| VStr (s : string)
| VArr (items : list Val)
| VObj (props : list (string * Val)).

(** An object is the list of its own enumerable properties, in the order
    [Object.keys] reports them. *)
Definition Obj : Type := list (string * Val).

(** A thrown value: an [Error] with its constructor name and message. *)
Record Error : Type := mkError { err_name : string; err_message : string }.

(** Strict equality [===] of two numbers. *)
Definition num_eqb (a b : Num) : bool :=
  match a, b with
  | Int x, Int y => x =? y
  | Inf s, Inf t => Bool.eqb s t
  | _, _ => false
  end.

(** *** Integers as doubles *)

(** Up to [2^53] every integer is a double. *)
Definition safe_bound : Z := 9007199254740992.

(** A positive integer above [2^53], rounded to 53 significant bits:
    to the nearest, and to the even one of two that are as near. *)
Definition round_to_53_bits (m : Z) : Z :=
  let k := Z.log2 m - 52 in
  let q := Z.shiftr m k in
  let r := m - Z.shiftl q k in
  let half := Z.shiftl 1 (k - 1) in
  let q' :=
    if r <? half then q
    else if half <? r then q + 1
    else if Z.even q then q else q + 1 in
  Z.shiftl q' k.

(** The double nearest to the integer [z]; from [2^1024] on, an infinity. *)
Definition to_double (z : Z) : Num :=
  if Z.abs z <=? safe_bound then Int z
  else
    let m := round_to_53_bits (Z.abs z) in
    if Z.shiftl 1 1024 <=? m then Inf (z <? 0)
    else Int (Z.sgn z * m).

(** [a + b]. *)
Definition num_add (a b : Num) : Num :=
  match a, b with
  | Int x, Int y => to_double (x + y)
  | Inf s, Int _ | Int _, Inf s => Inf s
  | Inf s, Inf t => if Bool.eqb s t then Inf s else NaN
  | _, _ => NaN
  end.

(** *** Numbers as strings *)

(** An integer in decimal. *)
Definition show_Z (z : Z) : string := NilZero.string_of_int (Z.to_int z).

Definition rounds_to (c v : Z) : bool :=
  match to_double c with
  | Int x => x =? v
  | _ => false
  end.

(** The decimal with the fewest significant digits that rounds to the
    double [v], a positive integer of [digits] digits; of two with as
    few digits the one nearer to [v], and the even one when they are as
    near.  The search starts at [n] significant digits. *)
Fixpoint shortest_decimal (fuel : nat) (n v digits : Z) : Z :=
  match fuel with
  | O => v
  | S fuel' =>
      let p := 10 ^ (digits - n) in
      let below := (v / p) * p in
      let above := below + p in
      match rounds_to below v, rounds_to above v with
      | true, true =>
          if v - below <? above - v then below
          else if above - v <? v - below then above
          else if Z.even (v / p) then below else above
      | true, false => below
      | false, true => above
      | false, false => shortest_decimal fuel' (n + 1) v digits
      end
  end.

Fixpoint strip_zeros (reversed : string) : string :=
  match reversed with
  | String "0" rest => strip_zeros rest
  | _ => reversed
  end.

Fixpoint reverse (s : string) : string :=
  match s with
  | EmptyString => EmptyString
  | String c rest => reverse rest ++ String c EmptyString
  end.

(** [String(v)] for a double [v] that is a positive integer above
    [2^53]: the digits of the shortest decimal, followed by zeros below
    [10^21] and in exponent notation from there on. *)
Definition show_large (v : Z) : string :=
  let digits := Z.of_nat (String.length (show_Z v)) in
  let c := show_Z (shortest_decimal (Z.to_nat digits) 1 v digits) in
  let k := Z.of_nat (String.length c) in
  if k <=? 21 then c
  else
    match reverse (strip_zeros (reverse c)) with
    | String d EmptyString => String d EmptyString ++ "e+" ++ show_Z (k - 1)
    | String d rest => String d EmptyString ++ "." ++ rest ++ "e+" ++ show_Z (k - 1)
    | EmptyString => c
    end.

(** [String(n)]. *)
Definition show_num (n : Num) : string :=
  match n with
  | NaN => "NaN"
  | Inf false => "Infinity"
  | Inf true => "-Infinity"
  | Int z =>
      if Z.abs z <=? safe_bound then show_Z z
      else match to_double z with
           | Int v => (if v <? 0 then "-" else "") ++ show_large (Z.abs v)
           | _ => if z <? 0 then "-Infinity" else "Infinity"
           end
  end.

(** [ToBoolean]. *)
Definition truthy (v : Val) : bool :=
  match v with
  | VUndefined | VNull => false
  | VBool b => b
  | VNum NaN => false
  | VNum (Int z) => negb (z =? 0)
  | VNum (Inf _) => true
  | VStr s => negb (s =? "")%string
  | VArr _ | VObj _ => true
  end.

Definition nullish (v : Val) : bool :=
  match v with
  | VUndefined | VNull => true
  | _ => false
  end.

(** [ToString], as a template literal or [URLSearchParams.append] applies it. *)
Fixpoint ToString (v : Val) : string :=
  match v with
  | VUndefined => "undefined"
  | VNull => "null"
  | VBool true => "true"
  | VBool false => "false"
  | VNum n => show_num n
  | VStr s => s
  | VArr items =>
      String.concat ","
        (map (fun x => match x with
                       | VUndefined | VNull => ""
                       | _ => ToString x
                       end) items)
  | VObj _ => "[object Object]"
  end.

(** Strict equality [===] of a value with a string. *)
Definition strict_eq_str (v : Val) (s : string) : bool :=
  match v with
  | VStr t => (t =? s)%string
  | _ => false
  end.

(** *** Strings *)

(** [s.includes(sub)]. *)
Fixpoint includes (sub s : string) : bool :=
  if String.prefix sub s then true
  else match s with
       | EmptyString => false
       | String _ rest => includes sub rest
       end.

Definition startsWith (pre s : string) : bool := String.prefix pre s.

Definition lower_ascii (c : ascii) : ascii :=
  let n := nat_of_ascii c in
  if ((65 <=? n) && (n <=? 90))%nat then ascii_of_nat (n + 32) else c.

(** [s.toLowerCase()]. *)
Fixpoint toLowerCase (s : string) : string :=
  match s with
  | EmptyString => EmptyString
  | String c rest => String (lower_ascii c) (toLowerCase rest)
  end.

Fixpoint drop (n : nat) (s : string) : string :=
  match n, s with
  | O, _ => s
  | S _, EmptyString => EmptyString
  | S m, String _ rest => drop m rest
  end.

(** [s.replace(pat, by)] with a string pattern: the first occurrence only. *)
Fixpoint replace_first (pat by_ s : string) : string :=
  if String.prefix pat s then by_ ++ drop (String.length pat) s
  else match s with
       | EmptyString => EmptyString
       | String c rest => String c (replace_first pat by_ rest)
       end.

(** [s.split(sep)] for a one-character separator. *)
Fixpoint split_on (sep : ascii) (s : string) : list string :=
  match s with
  | EmptyString => [EmptyString]
  | String c rest =>
      if Ascii.eqb c sep then EmptyString :: split_on sep rest
      else match split_on sep rest with
           | [] => [String c EmptyString]
           | seg :: segs => String c seg :: segs
           end
  end.

(** [arr.pop()] on a list of strings: the last element, if any. *)
Definition pop (l : list string) : Val :=
  match rev l with
  | [] => VUndefined
  | x :: _ => VStr x
  end.

Definition is_digit (c : ascii) : bool :=
  let n := nat_of_ascii c in ((48 <=? n) && (n <=? 57))%nat.

(** The regular expression [/products\/\d+/] tested against [s]. *)
Fixpoint test_products_id (s : string) : bool :=
  (if String.prefix "products/" s
   then match drop 9 s with
        | String c _ => is_digit c
        | EmptyString => false
        end
   else false)
  || match s with
     | EmptyString => false
     | String _ rest => test_products_id rest
     end.

(** *** [parseInt] with no radix argument

    The digits denote an integer, and the result is the double nearest
    to it. *)

Definition is_space (c : ascii) : bool :=
  let n := nat_of_ascii c in
  ((9 <=? n) && (n <=? 13) || (n =? 32))%nat.

Fixpoint trim_start (s : string) : string :=
  match s with
  | String c rest => if is_space c then trim_start rest else s
  | EmptyString => EmptyString
  end.

Definition digit_value (c : ascii) : option Z :=
  let n := nat_of_ascii c in
  if ((48 <=? n) && (n <=? 57))%nat then Some (Z.of_nat n - 48)
  else if ((97 <=? n) && (n <=? 122))%nat then Some (Z.of_nat n - 87)
  else if ((65 <=? n) && (n <=? 90))%nat then Some (Z.of_nat n - 55)
  else None.

(** The longest prefix of radix-[r] digits, read most significant first;
    [None] when that prefix is empty. *)
Fixpoint read_digits (r : Z) (acc : option Z) (s : string) : option Z :=
  match s with
  | EmptyString => acc
  | String c rest =>
      match digit_value c with
      | Some d =>
          if d <? r
          then read_digits r (Some (match acc with
                                    | Some a => a * r + d
                                    | None => d
                                    end)) rest
          else acc
      | None => acc
      end
  end.

Definition parseInt_string (input : string) : Num :=
  let s := trim_start input in
  let '(sign, s) :=
    match s with
    | String "-" rest => (-1, rest)
    | String "+" rest => (1, rest)
    | _ => (1, s)
    end in
  let '(radix, s) :=
    match s with
    | String "0" (String "x" rest) => (16, rest)
    | String "0" (String "X" rest) => (16, rest)
    | _ => (10, s)
    end in
  match read_digits radix None s with
  | Some m => to_double (sign * m)
  | None => NaN
  end.

Definition parseInt (v : Val) : Num := parseInt_string (ToString v).

(** *** Objects *)

(** A property key that is an array index: the canonical decimal form of
    an integer below 2^32 - 1.  Such keys are enumerated first, in
    ascending order, whatever the order they were defined in. *)
Fixpoint all_digits (s : string) : bool :=
  match s with
  | EmptyString => true
  | String c rest => is_digit c && all_digits rest
  end.

Definition array_index (k : string) : option Z :=
  match k with
  | EmptyString => None
  | String "0" EmptyString => Some 0
  | String "0" _ => None
  | _ =>
      if all_digits k
      then match read_digits 10 None k with
           | Some n => if n <? 4294967295 then Some n else None
           | None => None
           end
      else None
  end.

(** [key_before k k']: a new key [k] is enumerated before the existing key [k']. *)
Definition key_before (k k' : string) : bool :=
  match array_index k, array_index k' with
  | Some n, Some n' => n <? n'
  | Some _, None => true
  | None, _ => false
  end.

(** [o.k], for a key that [Object.prototype] does not define. *)
Fixpoint get (k : string) (o : Obj) : Val :=
  match o with
  | [] => VUndefined
  | (k', v) :: rest => if (k =? k')%string then v else get k rest
  end.

(** Own-property lookup. *)
Fixpoint lookup (k : string) (o : Obj) : option Val :=
  match o with
  | [] => None
  | (k', v) :: rest => if (k =? k')%string then Some v else lookup k rest
  end.

(** Defining or overwriting the property [k]: an existing property keeps
    its place, a new one goes where enumeration order puts it. *)
Fixpoint set (k : string) (v : Val) (o : Obj) : Obj :=
  match o with
  | [] => [(k, v)]
  | (k', v') :: rest =>
      if (k =? k')%string then (k, v) :: rest
      else if key_before k k' then (k, v) :: (k', v') :: rest
      else (k', v') :: set k v rest
  end.

(** The property definitions [defs], applied in order on top of [o]:
    what [{ ...o-literal, k1: v1, ... }] and [{ ..., ...defs }] do. *)
Definition define (o : Obj) (defs : list (string * Val)) : Obj :=
  fold_left (fun acc kv => set (fst kv) (snd kv) acc) defs o.

(** An object literal. *)
Definition literal (defs : list (string * Val)) : Obj := define [] defs.

End Js.

(** ** The world outside the module *)

Module Effects.
Import Js.

Inductive Completion (A : Type) : Type :=
| Normal (a : A)
| Throw (e : Error).
Arguments Normal {A} a.
Arguments Throw {A} e.

(** A [URL] object: what the platform's parser made of the string it was
    given, and the query entries in order.  The string [url.toString()]
    yields is represented by the object it serialises. *)
Record URL : Type := mkURL {
  hostname : string;
  href : string;
  searchParams : list (string * string)
}.

(** One call of [fetch(url, fetchOptions)].  [call_body] is the value
    whose JSON text is the request body. *)
Record FetchCall : Type := mkCall {
  call_url : URL;
  call_method : string;
  call_headers : list (string * string);
  call_body : option Val;
  call_timeout : Z
}.

(** A response: its status line and what [response.json()] will do. *)
Record Response : Type := mkResponse {
  status : Z;
  statusText : string;
  json : Completion Val
}.

Definition ok (r : Response) : bool := (200 <=? status r) && (status r <=? 299).

(** What awaiting a [fetch] ends in: a rejection (network fault, abort on
    time-out) or a response. *)
Inductive FetchResult : Type :=
| Rejected (e : Error)
| Responded (r : Response).

Inductive LogArg : Type :=
| ArgNone
| ArgVal (v : Val)
| ArgErr (e : Error).

Record LogLine : Type := mkLog {
  level : string;
  message : string;
  arg : LogArg
}.

(** The state threaded through the module's effects.  [clock n] is the
    ISO string the [n]-th [new Date().toISOString()] reads; [network n c]
    is how the [n]-th [fetch], the call [c], ends; [fetched] and
    [console] record what the module did, oldest first. *)
Record World : Type := mkWorld {
  clock : nat -> string;
  network : nat -> FetchCall -> FetchResult;
  ticks : nat;
  fetched : list FetchCall;
  console : list LogLine
}.

Definition M (A : Type) : Type := World -> Completion A * World.

Definition ret {A} (a : A) : M A := fun w => (Normal a, w).

Definition throw {A} (e : Error) : M A := fun w => (Throw e, w).

Definition bind {A B} (m : M A) (k : A -> M B) : M B :=
  fun w =>
    match m w with
    | (Normal a, w') => k a w'
    | (Throw e, w') => (Throw e, w')
    end.

(** [try { m } catch (error) { handler error }]. *)
Definition try_catch {A} (m : M A) (handler : Error -> M A) : M A :=
  fun w =>
    match m w with
    | (Normal a, w') => (Normal a, w')
    | (Throw e, w') => handler e w'
    end.

Definition lift {A} (c : Completion A) : M A := fun w => (c, w).

Declare Scope js_scope.
Delimit Scope js_scope with js.
Notation "x <- m ;; k" := (bind m (fun x => k))
  (at level 100, m at next level, right associativity) : js_scope.
Notation "m ;; k" := (bind m (fun _ => k))
  (at level 100, right associativity) : js_scope.
Local Open Scope js_scope.

(** [new Date().toISOString()]. *)
Definition new_Date_toISOString : M string :=
  fun w =>
    (Normal (clock w (ticks w)),
     mkWorld (clock w) (network w) (S (ticks w)) (fetched w) (console w)).

(** [await fetch(url, fetchOptions)]. *)
Definition fetch (c : FetchCall) : M Response :=
  fun w =>
    let w' := mkWorld (clock w) (network w) (ticks w) (fetched w ++ [c])%list (console w) in
    match network w (List.length (fetched w)) c with
    | Rejected e => (Throw e, w')
    | Responded r => (Normal r, w')
    end.

Definition console_log (l : LogLine) : M unit :=
  fun w =>
    (Normal tt,
     mkWorld (clock w) (network w) (ticks w) (fetched w) (console w ++ [l])%list).

(** [arr.map(f)] for an effectful [f]. *)
Fixpoint mapM {A B} (f : A -> M B) (l : list A) : M (list B) :=
  match l with
  | [] => ret []
  | x :: rest => y <- f x ;; ys <- mapM f rest ;; ret (y :: ys)
  end.

End Effects.

(** ** The mock-data generator *)

Module Mock.
Import Js Effects.
Local Open Scope js_scope.

Record CategoryRef : Type := mkCat {
  cat_id : Z;
  cat_name : string;
  cat_slug : string
}.

Record Attribute : Type := mkAttr {
  attr_id : Z;
  attr_name : string;
  attr_position : Z;
  attr_visible : bool;
  attr_variation : bool;
  attr_options : list string
}.

(** An entry of the in-memory list [baseProducts]. *)
Record BaseProduct : Type := mkBase {
  bp_id : Z;
  bp_name : string;
  bp_price : string;
  bp_categories : list CategoryRef;
  bp_attributes : list Attribute
}.

Definition num (z : Z) : Val := VNum (Int z).

Definition category_val (c : CategoryRef) : Val :=
  VObj (literal [("id", num (cat_id c)); ("name", VStr (cat_name c));
                 ("slug", VStr (cat_slug c))]).

Definition attribute_val (a : Attribute) : Val :=
  VObj (literal [("id", num (attr_id a)); ("name", VStr (attr_name a));
                 ("position", num (attr_position a));
                 ("visible", VBool (attr_visible a));
                 ("variation", VBool (attr_variation a));
                 ("options", VArr (map VStr (attr_options a)))]).

Definition category_record (id : Z) (name slug : string) (count : Z) : Val :=
  VObj (literal [("id", num id); ("name", VStr name); ("slug", VStr slug);
                 ("count", num count)]).

Definition generateMockCategories : Val :=
  VArr [
    category_record 53 "Vinyl Fence" "vinyl-fence" 15;
    category_record 49 "Aluminum Fence" "aluminum-fence" 10;
    category_record 439 "Wood Fence" "wood-fence" 12;
    category_record 296 "Chain Link Fence" "chain-link-fence" 8;
    category_record 289 "Vinyl Panels" "vinyl-panels" 6;
    category_record 290 "Vinyl Gates" "vinyl-gates" 4;
    category_record 291 "Vinyl Posts" "vinyl-posts" 3;
    category_record 292 "Aluminum Panels" "aluminum-panels" 5;
    category_record 293 "Aluminum Posts" "aluminum-posts" 3;
    category_record 295 "Aluminum Gates" "aluminum-gates" 4;
    category_record 297 "Chain Link Fabric" "chain-link-fabric" 4;
    category_record 298 "Chain Link Gates" "chain-link-gates" 3;
    category_record 299 "Chain Link Posts" "chain-link-posts" 3;
    category_record 300 "Wood Posts" "wood-posts" 3;
    category_record 301 "Wood Panels" "wood-panels" 5;
    category_record 302 "Wood Gates" "wood-gates" 4
  ].

(** The object [template] of [generateMockProduct], given the four
    timestamps its literal reads, in evaluation order. *)
Definition template (productId : Num) (d1 d2 d3 d4 : string) : Obj :=
  let id := show_num productId in
  literal [
    ("id", VNum productId);
    ("name", VStr ("Mock Product " ++ id));
    ("slug", VStr ("mock-product-" ++ id));
    ("permalink", VStr ("https://example.com/product/mock-product-" ++ id));
    ("date_created", VStr d1);
    ("date_modified", VStr d2);
    ("type", VStr "simple");
    ("status", VStr "publish");
    ("featured", VBool false);
    ("catalog_visibility", VStr "visible");
    ("description", VStr "This is a mock product description.");
    ("short_description", VStr "Mock product short description.");
    ("sku", VStr ("SKU-" ++ id));
    ("price", VStr "99.99");
    ("regular_price", VStr "99.99");
    ("sale_price", VStr "");
    ("on_sale", VBool false);
    ("purchasable", VBool true);
    ("total_sales", num 0);
    ("virtual", VBool false);
    ("downloadable", VBool false);
    ("downloads", VArr []);
    ("download_limit", num (-1));
    ("download_expiry", num (-1));
    ("external_url", VStr "");
    ("button_text", VStr "");
    ("tax_status", VStr "taxable");
    ("tax_class", VStr "");
    ("manage_stock", VBool false);
    ("stock_quantity", VNull);
    ("stock_status", VStr "instock");
    ("backorders", VStr "no");
    ("backorders_allowed", VBool false);
    ("backordered", VBool false);
    ("sold_individually", VBool false);
    ("weight", VStr "");
    ("dimensions", VObj (literal [("length", VStr ""); ("width", VStr "");
                                  ("height", VStr "")]));
    ("shipping_required", VBool true);
    ("shipping_taxable", VBool true);
    ("shipping_class", VStr "");
    ("shipping_class_id", num 0);
    ("reviews_allowed", VBool true);
    ("average_rating", VStr "0.00");
    ("rating_count", num 0);
    ("related_ids", VArr []);
    ("upsell_ids", VArr []);
    ("cross_sell_ids", VArr []);
    ("parent_id", num 0);
    ("purchase_note", VStr "");
    ("categories", VArr []);
    ("tags", VArr []);
    ("images", VArr [
       VObj (literal [
         ("id", VNum (num_add (Int 1000) productId));
         ("date_created", VStr d3);
         ("date_modified", VStr d4);
         ("src", VStr ("https://example.com/wp-content/uploads/mock-product-"
                       ++ id ++ ".jpg"));
         ("name", VStr ("Mock Product " ++ id));
         ("alt", VStr ("Mock Product " ++ id))])]);
    ("attributes", VArr []);
    ("default_attributes", VArr []);
    ("variations", VArr []);
    ("grouped_products", VArr []);
    ("menu_order", num 0);
    ("meta_data", VArr []);
    ("_links", VObj (literal [
       ("self", VArr [VObj (literal [
          ("href", VStr ("https://example.com/wp-json/wc/v3/products/" ++ id))])]);
       ("collection", VArr [VObj (literal [
          ("href", VStr "https://example.com/wp-json/wc/v3/products")])])]))
  ].

Definition vinyl_panel_overrides : list (string * Val) := [
  ("name", VStr "Vinyl Privacy Panel");
  ("price", VStr "89.99");
  ("regular_price", VStr "89.99");
  ("categories", VArr (map category_val [
     mkCat 53 "Vinyl Fence" "vinyl-fence";
     mkCat 289 "Vinyl Panels" "vinyl-panels"]));
  ("attributes", VArr (map attribute_val [
     mkAttr 1 "Width" 0 true false ["6 ft"; "8 ft"];
     mkAttr 2 "Height" 1 true false ["4 ft"; "6 ft"; "8 ft"];
     mkAttr 3 "Color" 2 true false ["White"; "Almond"]]));
  ("images", VArr [
     VObj (literal [
       ("id", num 101);
       ("src", VStr "https://example.com/vinyl-privacy.jpg");
       ("name", VStr "Vinyl Privacy Panel");
       ("alt", VStr "Vinyl Privacy Panel")])]);
  ("description", VStr "Our premium vinyl privacy panels are constructed with durable, low-maintenance materials that won't fade, crack, or peel. These panels provide complete privacy while maintaining a clean, attractive appearance.");
  ("short_description", VStr "Durable, low-maintenance vinyl privacy fence panels.")
].

Definition vinyl_gate_overrides : list (string * Val) := [
  ("name", VStr "Vinyl Gate");
  ("price", VStr "219.99");
  ("regular_price", VStr "219.99");
  ("categories", VArr (map category_val [
     mkCat 53 "Vinyl Fence" "vinyl-fence";
     mkCat 290 "Vinyl Gates" "vinyl-gates"]));
  ("attributes", VArr (map attribute_val [
     mkAttr 1 "Width" 0 true true ["3 ft"; "4 ft"; "5 ft"; "6 ft"];
     mkAttr 2 "Height" 1 true true ["4 ft"; "6 ft"];
     mkAttr 3 "Style" 2 true true ["Privacy"; "Picket"]]));
  ("images", VArr [
     VObj (literal [
       ("id", num 104);
       ("src", VStr "https://example.com/vinyl-gate.jpg");
       ("name", VStr "Vinyl Gate");
       ("alt", VStr "Vinyl Gate")])]);
  ("description", VStr "Our vinyl gates match perfectly with our vinyl fence panels for a consistent, elegant look. All hardware included for easy installation.");
  ("short_description", VStr "High-quality vinyl gate to match your vinyl fence.")
].

Definition default_overrides (productId : Num) : list (string * Val) := [
  ("name", VStr ("Mock Product " ++ show_num productId));
  ("fallback", VBool true);
  ("description", VStr "This is a fallback product because the requested product could not be found.");
  ("attributes", VArr (map attribute_val [
     mkAttr 1 "Width" 0 true false ["6 ft"; "8 ft"];
     mkAttr 2 "Height" 1 true false ["4 ft"; "6 ft"]]))
].

Definition generateMockProduct (productId : Num) : M Val :=
  d1 <- new_Date_toISOString ;;
  d2 <- new_Date_toISOString ;;
  d3 <- new_Date_toISOString ;;
  d4 <- new_Date_toISOString ;;
  let template := template productId d1 d2 d3 d4 in
  if num_eqb productId (Int 101)
  then ret (VObj (define template vinyl_panel_overrides))
  else if num_eqb productId (Int 104)
  then ret (VObj (define template vinyl_gate_overrides))
  else ret (VObj (define template (default_overrides productId))).

Definition baseProducts : list BaseProduct := [
  mkBase 101 "Vinyl Privacy Panel" "89.99"
    [mkCat 53 "Vinyl Fence" "vinyl-fence"; mkCat 289 "Vinyl Panels" "vinyl-panels"]
    [mkAttr 1 "Width" 0 true false ["6 ft"; "8 ft"];
     mkAttr 2 "Height" 1 true false ["4 ft"; "6 ft"; "8 ft"];
     mkAttr 3 "Color" 2 true false ["White"; "Almond"]];
  mkBase 102 "Vinyl Picket Panel" "79.99"
    [mkCat 53 "Vinyl Fence" "vinyl-fence"; mkCat 289 "Vinyl Panels" "vinyl-panels"]
    [mkAttr 1 "Width" 0 true false ["6 ft"; "8 ft"];
     mkAttr 2 "Height" 1 true false ["3 ft"; "4 ft"];
     mkAttr 3 "Color" 2 true false ["White"; "Almond"]];
  mkBase 103 "Vinyl Post" "45.99"
    [mkCat 53 "Vinyl Fence" "vinyl-fence"; mkCat 291 "Vinyl Posts" "vinyl-posts"]
    [mkAttr 2 "Height" 0 true false ["4 ft"; "5 ft"; "6 ft"; "8 ft"];
     mkAttr 3 "Color" 1 true false ["White"; "Almond"]];
  mkBase 104 "Vinyl Gate" "219.99"
    [mkCat 53 "Vinyl Fence" "vinyl-fence"; mkCat 290 "Vinyl Gates" "vinyl-gates"]
    [mkAttr 1 "Width" 0 true true ["3 ft"; "4 ft"; "5 ft"; "6 ft"];
     mkAttr 2 "Height" 1 true true ["4 ft"; "6 ft"];
     mkAttr 3 "Style" 2 true true ["Privacy"; "Picket"]]
].

(** The predicate of the category filter. *)
Definition category_matches (categoryFilter : Val) (product : BaseProduct) : bool :=
  existsb (fun cat => num_eqb (Int (cat_id cat)) (parseInt categoryFilter)
                      || strict_eq_str categoryFilter (cat_slug cat))
          (bp_categories product).

(** The search filter; [searchFilter.toLowerCase] exists on strings only. *)
Definition search_filter (searchFilter : Val) (products : list BaseProduct)
  : Completion (list BaseProduct) :=
  if truthy searchFilter
  then match searchFilter with
       | VStr s =>
           let searchLower := toLowerCase s in
           Normal (filter (fun product =>
                             includes searchLower (toLowerCase (bp_name product)))
                          products)
       | _ => Throw (mkError "TypeError" "searchFilter.toLowerCase is not a function")
       end
  else Normal products.

Definition generateMockProducts (endpoint : string) (params : Obj) : M Val :=
  let categoryFilter := get "category" params in
  let searchFilter := get "search" params in
  let filteredProducts :=
    if truthy categoryFilter
    then filter (category_matches categoryFilter) baseProducts
    else baseProducts in
  filteredProducts <- lift (search_filter searchFilter filteredProducts) ;;
  products <- mapM (fun product => generateMockProduct (Int (bp_id product)))
                   filteredProducts ;;
  ret (VArr products).

Definition generateMockData (endpoint : string) (params : Obj) : M Val :=
  if includes "products" endpoint
  then
    if includes "categories" endpoint
    then ret generateMockCategories
    else if test_products_id endpoint
    then
      let id := parseInt (pop (split_on "/" endpoint)) in
      generateMockProduct id
    else generateMockProducts endpoint params
  else ret (VArr []).

End Mock.

(** ** Configuration, URL resolution and the request cascade *)

Module Client.
Import Js Effects Mock.
Local Open Scope js_scope.

Record Settings : Type := mkSettings {
  USE_MOCK_DATA : bool;
  REQUEST_TIMEOUT : Z;
  MAX_RETRIES : Z;
  RETRY_DELAY : Z;
  DEBUG_MODE : bool;
  SHOW_FALLBACK_WARNINGS : bool;
  LOG_LEVEL : string
}.

Definition API_SETTINGS : Settings := {|
  USE_MOCK_DATA := true;
  REQUEST_TIMEOUT := 15000;
  MAX_RETRIES := 3;
  RETRY_DELAY := 1000;
  DEBUG_MODE := true;
  SHOW_FALLBACK_WARNINGS := true;
  LOG_LEVEL := "debug"
|}.

(** The three variables of [process.env] the module reads. *)
Record ProcessEnv : Type := mkEnv {
  REACT_APP_WOOCOMMERCE_URL : option string;
  REACT_APP_WOOCOMMERCE_CONSUMER_KEY : option string;
  REACT_APP_WOOCOMMERCE_CONSUMER_SECRET : option string
}.

(** [x || d] for an environment variable [x]. *)
Definition or_default (x : option string) (d : string) : string :=
  match x with
  | Some s => if (s =? "")%string then d else s
  | None => d
  end.

Definition primaryDomain (env : ProcessEnv) : string :=
  or_default (REACT_APP_WOOCOMMERCE_URL env) "https://example.com".

Record Config : Type := mkConfig {
  endpointFormats : list string;
  alternativeDomains : list string;
  consumerKey : string;
  consumerSecret : string
}.

Section Api.

(** The platform's [new URL(s)]: the parsed URL, or [None] where the
    constructor throws its [TypeError]. *)
Variable newURL : string -> option URL.

Definition getAlternativeUrls (url : string) : list string :=
  if (url =? "")%string then []
  else match newURL url with
       | Some urlObj =>
           if startsWith "www." (hostname urlObj)
           then [replace_first "www." "" url]
           else [replace_first "://" "://www." url]
       | None => []
       end.

Definition API_CONFIG (env : ProcessEnv) : Config := {|
  endpointFormats := [
    primaryDomain env ++ "/wp-json/wc/v3";
    primaryDomain env ++ "/index.php/wp-json/wc/v3";
    primaryDomain env ++ "/wp-json/wc/v3"
  ];
  alternativeDomains := getAlternativeUrls (primaryDomain env);
  consumerKey := or_default (REACT_APP_WOOCOMMERCE_CONSUMER_KEY env) "";
  consumerSecret := or_default (REACT_APP_WOOCOMMERCE_CONSUMER_SECRET env) ""
|}.

(** [formats[i]]: [undefined] outside the array. *)
Definition format_at (formats : list string) (i : Z) : Val :=
  if i <? 0 then VUndefined
  else match nth_error formats (Z.to_nat i) with
       | Some s => VStr s
       | None => VUndefined
       end.

(** [a || b]. *)
Definition or_else (a b : Val) : Val := if truthy a then a else b.

(** [url.searchParams.append(key, value)]. *)
Definition append (url : URL) (key value : string) : URL :=
  mkURL (hostname url) (href url) (searchParams url ++ [(key, value)])%list.

(** The merged parameter object [allParams]. *)
Definition allParams (cfg : Config) (params : Obj) : Obj :=
  literal ([("consumer_key", VStr (consumerKey cfg));
            ("consumer_secret", VStr (consumerSecret cfg))] ++ params)%list.

Definition buildWooCommerceUrl (cfg : Config) (endpoint : string) (params : Obj)
    (formatIndex : Z) : Completion URL :=
  let endpointFormat :=
    or_else (format_at (endpointFormats cfg) formatIndex)
            (format_at (endpointFormats cfg) 0) in
  match newURL (ToString endpointFormat ++ "/" ++ endpoint) with
  | None => Throw (mkError "TypeError" "Invalid URL")
  | Some url =>
      let allParams := allParams cfg params in
      Normal
        (fold_left
           (fun url key =>
              if negb (nullish (get key allParams))
              then append url key (ToString (get key allParams))
              else url)
           (map fst allParams) url)
  end.

Definition fetchOptions (url : URL) (method : string) (data : Val) : FetchCall := {|
  call_url := url;
  call_method := method;
  call_headers := [("Content-Type", "application/json");
                   ("Accept", "application/json")];
  call_body :=
    if truthy data && ((method =? "POST")%string || (method =? "PUT")%string)
    then Some data else None;
  call_timeout := REQUEST_TIMEOUT API_SETTINGS
|}.

Definition when (b : bool) (m : M unit) : M unit := if b then m else ret tt.

(** The [for] loop of [woocommerceRequest], from index [i] with
    [remaining] iterations left before [i] reaches the number of formats. *)
Fixpoint cascade (cfg : Config) (endpoint : string) (params : Obj)
    (method : string) (data : Val) (useMockData : Val)
    (remaining : nat) (i : nat) : M Val :=
  match remaining with
  | O => ret VUndefined
  | S remaining' =>
      url <- lift (buildWooCommerceUrl cfg endpoint params (Z.of_nat i)) ;;
      try_catch
        (response <- fetch (fetchOptions url method data) ;;
         if negb (ok response)
         then throw (mkError "Error"
                       ("API Error: " ++ show_Z (status response) ++ " "
                        ++ statusText response))
         else
           responseData <- lift (json response) ;;
           when (DEBUG_MODE API_SETTINGS
                 && (LOG_LEVEL API_SETTINGS =? "debug")%string)
             (console_log (mkLog "debug" "[WooCommerce API] Response:"
                             (ArgVal responseData))) ;;
           ret responseData)
        (fun error =>
           when (DEBUG_MODE API_SETTINGS)
             (console_log (mkLog "error" "[WooCommerce API] Error:"
                             (ArgErr error))) ;;
           if Z.of_nat i <? Z.of_nat (List.length (endpointFormats cfg)) - 1
           then cascade cfg endpoint params method data useMockData
                        remaining' (S i)
           else if truthy useMockData
           then
             when (SHOW_FALLBACK_WARNINGS API_SETTINGS)
               (console_log (mkLog "warn"
                               ("[WooCommerce API] Using mock data for " ++ endpoint)
                               ArgNone)) ;;
             generateMockData endpoint params
           else throw error)
  end.

Definition woocommerceRequest (cfg : Config) (endpoint : string) (params : Obj)
    (method : string) (data : Val) (options : Obj) : M Val :=
  let useMockData :=
    match get "useMockData" options with
    | VUndefined => VBool (USE_MOCK_DATA API_SETTINGS)
    | v => v
    end in
  when (DEBUG_MODE API_SETTINGS && (LOG_LEVEL API_SETTINGS =? "debug")%string)
    (console_log (mkLog "debug" ("[WooCommerce API] " ++ method ++ " " ++ endpoint)
                    (ArgVal (VObj params)))) ;;
  cascade cfg endpoint params method data useMockData
          (List.length (endpointFormats cfg)) 0.

(** A parameter declared [data = {}]: the default stands in for
    [undefined], and for nothing else. *)
Definition default_object (v : Val) : Val :=
  match v with
  | VUndefined => VObj []
  | _ => v
  end.

(** The client object [api]: its four verbs. *)
Definition api_get (cfg : Config) (endpoint : string) (params : Obj) : M Val :=
  woocommerceRequest cfg endpoint params "GET" VNull [].

Definition api_post (cfg : Config) (endpoint : string) (data : Val) : M Val :=
  woocommerceRequest cfg endpoint [] "POST" (default_object data) [].

Definition api_put (cfg : Config) (endpoint : string) (data : Val) : M Val :=
  woocommerceRequest cfg endpoint [] "PUT" (default_object data) [].

Definition api_delete (cfg : Config) (endpoint : string) (params : Obj) : M Val :=
  woocommerceRequest cfg endpoint params "DELETE" VNull [].

End Api.
End Client.

(** ** Vocabulary of the properties *)

Module Obs.
Import Js Effects Mock Client.

(** [v.k] for a value [v]. *)
Definition field (k : string) (v : Val) : Val :=
  match v with
  | VObj o => get k o
  | _ => VUndefined
  end.

(** The [options] of the first attribute of [product] named [name]. *)
Definition attribute_options (name : string) (product : Val) : option Val :=
  match field "attributes" product with
  | VArr attrs =>
      match find (fun a => strict_eq_str (field "name" a) name) attrs with
      | Some a => Some (field "options" a)
      | None => None
      end
  | _ => None
  end.

Definition is_date_key (k : string) : bool :=
  ((k =? "date_created") || (k =? "date_modified"))%string.

(** A value with every [date_created] and [date_modified] property removed. *)
Fixpoint strip_dates (v : Val) : Val :=
  match v with
  | VArr items => VArr (map strip_dates items)
  | VObj props =>
      VObj ((fix strip_props (ps : list (string * Val)) : list (string * Val) :=
               match ps with
               | [] => []
               | (k, x) :: rest =>
                   if is_date_key k then strip_props rest
                   else (k, strip_dates x) :: strip_props rest
               end) props)
  | _ => v
  end.

Definition map_completion {A B} (f : A -> B) (c : Completion A) : Completion B :=
  match c with
  | Normal a => Normal (f a)
  | Throw e => Throw e
  end.

(** The world after [n] more readings of the clock. *)
Definition advance (n : nat) (w : World) : World :=
  mkWorld (clock w) (network w) (n + ticks w) (fetched w) (console w).

(** The product [generateMockProduct] returns when its four readings of
    the clock are [d1] to [d4]. *)
Definition product_at (productId : Num) (d1 d2 d3 d4 : string) : Val :=
  let template := template productId d1 d2 d3 d4 in
  if num_eqb productId (Int 101)
  then VObj (define template vinyl_panel_overrides)
  else if num_eqb productId (Int 104)
  then VObj (define template vinyl_gate_overrides)
  else VObj (define template (default_overrides productId)).

(** The products [generateMockProducts] expands the entries [l] to, when
    the clock [clk] has been read [t] times before. *)
Fixpoint products_from (l : list BaseProduct) (clk : nat -> string) (t : nat)
  : list Val :=
  match l with
  | [] => []
  | product :: rest =>
      product_at (Int (bp_id product))
                 (clk t) (clk (1 + t)%nat) (clk (2 + t)%nat) (clk (3 + t)%nat)
      :: products_from rest clk (4 + t)%nat
  end.

(** [s] contains [sub] as a substring. *)
Definition contains (sub s : string) : Prop :=
  exists pre post, s = pre ++ sub ++ post.

(** An object in enumeration order: no key occurs twice, and no key
    stands after one it is enumerated before. *)
Fixpoint ordered (o : Obj) : Prop :=
  match o with
  | [] => True
  | (k, _) :: rest =>
      (forall k', In k' (map fst rest) -> k' <> k /\ key_before k' k = false)
      /\ ordered rest
  end.

(** The query-string entries of a parameter object: one per property
    whose value is neither [undefined] nor [null]. *)
Definition query_entries (o : Obj) : list (string * string) :=
  flat_map (fun kv => if nullish (snd kv) then []
                      else [(fst kv, ToString (snd kv))]) o.

(** The value a list of property definitions gives the key [k]: the last
    one wins. *)
Definition defined_as (k : string) (defs : list (string * Val)) : option Val :=
  lookup k (rev defs).

(** The credentials overlaid by the query parameters. *)
Definition merged (cfg : Config) (params : Obj) (k : string) : option Val :=
  match defined_as k params with
  | Some v => Some v
  | None => lookup k [("consumer_key", VStr (consumerKey cfg));
                      ("consumer_secret", VStr (consumerSecret cfg))]
  end.

(** The template the index [i] selects among [formats]: the one at [i]
    when there is one, otherwise the first. *)
Definition template_at (formats : list string) (i : Z) : string :=
  if (0 <=? i) && (i <? Z.of_nat (List.length formats))
  then nth (Z.to_nat i) formats ""
  else nth 0 formats "".

(** How the [try] block of one cascade iteration completes, given how
    the [fetch] ended. *)
Definition try_outcome (r : FetchResult) : Completion Val :=
  match r with
  | Rejected e => Throw e
  | Responded resp =>
      if ok resp then json resp
      else Throw (mkError "Error"
                    ("API Error: " ++ show_Z (status resp) ++ " " ++ statusText resp))
  end.

(** A 2xx response whose body does not parse as JSON. *)
Definition decode_failure (r : FetchResult) (e : Error) : Prop :=
  exists resp, r = Responded resp /\ ok resp = true /\ json resp = Throw e.

Section Attempts.
Variable newURL : string -> option URL.
Variables (cfg : Config) (endpoint : string) (params : Obj)
          (method : string) (data : Val).

(** The [fetch] call the cascade issues for template [i], when its URL resolves. *)
Definition attempt_call (i : nat) : option FetchCall :=
  match buildWooCommerceUrl newURL cfg endpoint params (Z.of_nat i) with
  | Normal url => Some (fetchOptions url method data)
  | Throw _ => None
  end.

(** How the attempt against template [i] ends when it is the [ordinal]-th
    [fetch] made on the network [net]; [None] when its URL does not resolve. *)
Definition attempt_result_at (net : nat -> FetchCall -> FetchResult)
    (ordinal i : nat) : option FetchResult :=
  match attempt_call i with
  | Some c => Some (net ordinal c)
  | None => None
  end.

(** In the world [w], a request started now makes its attempt against
    template [i] as the [i]-th [fetch] from here. *)
Definition attempt_result (w : World) (i : nat) : option FetchResult :=
  attempt_result_at (network w) (List.length (fetched w) + i)%nat i.

Definition attempt_fails (w : World) (i : nat) (e : Error) : Prop :=
  exists r, attempt_result w i = Some r /\ try_outcome r = Throw e.

Definition attempt_succeeds (w : World) (i : nat) (body : Val) : Prop :=
  exists r, attempt_result w i = Some r /\ try_outcome r = Normal body.

(** The calls of the attempts against the [n] templates from index [i] on. *)
Definition attempt_calls (i n : nat) : list FetchCall :=
  flat_map (fun j => match attempt_call j with
                     | Some c => [c]
                     | None => []
                     end) (seq i n).

End Attempts.

(** A [search] parameter the search filter can lower-case: none, a falsy
    value, or a string. *)
Definition search_usable (params : Obj) : Prop :=
  truthy (get "search" params) = false \/ exists s, get "search" params = VStr s.

(** The option [useMockData] as [woocommerceRequest] destructures it. *)
Definition useMockData_of (options : Obj) : Val :=
  match get "useMockData" options with
  | VUndefined => VBool (USE_MOCK_DATA API_SETTINGS)
  | v => v
  end.

Definition error_line (e : Error) : LogLine :=
  mkLog "error" "[WooCommerce API] Error:" (ArgErr e).

Definition response_line (v : Val) : LogLine :=
  mkLog "debug" "[WooCommerce API] Response:" (ArgVal v).

Definition request_line (method endpoint : string) (params : Obj) : LogLine :=
  mkLog "debug" ("[WooCommerce API] " ++ method ++ " " ++ endpoint)
        (ArgVal (VObj params)).

Definition mock_line (endpoint : string) : LogLine :=
  mkLog "warn" ("[WooCommerce API] Using mock data for " ++ endpoint) ArgNone.

(** The world with one more call in its trace and one more line on its console. *)
Definition record (c : FetchCall) (l : LogLine) (w : World) : World :=
  mkWorld (clock w) (network w) (ticks w)
          (fetched w ++ [c])%list (console w ++ [l])%list.

Definition logged (l : LogLine) (w : World) : World :=
  mkWorld (clock w) (network w) (ticks w) (fetched w) (console w ++ [l])%list.

(** [w'] is [w] later in a request: same clock and network, no reading
    of the clock since, and a trace grown by [calls]. *)
Definition later_by (calls : list FetchCall) (w w' : World) : Prop :=
  clock w' = clock w /\ network w' = network w /\ ticks w' = ticks w
  /\ fetched w' = (fetched w ++ calls)%list.

(** A URL constructor for examples: it takes a string with a scheme
    separator as it stands, its host being what lies between [://] and
    the next [/], and finds no query in it.  On absolute URLs made of a
    plain host and path this is what the platform's constructor does. *)
Fixpoint after_scheme (s : string) : option string :=
  if String.prefix "://" s then Some (drop 3 s)
  else match s with
       | EmptyString => None
       | String _ rest => after_scheme rest
       end.

Fixpoint until_slash (s : string) : string :=
  match s with
  | EmptyString => EmptyString
  | String c rest => if Ascii.eqb c "/" then EmptyString else String c (until_slash rest)
  end.

Definition plain_URL (s : string) : option URL :=
  match after_scheme s with
  | Some rest => Some (mkURL (until_slash rest) s [])
  | None => None
  end.

(** No variable of the environment set: the defaults apply. *)
Definition env_unset : ProcessEnv := mkEnv None None None.

Definition env_shop : ProcessEnv :=
  mkEnv (Some "https://shop.example.org") (Some "ck_1") (Some "cs_2").

(** A clock that advances by a second at each reading, within a minute. *)
Definition ticking_clock (n : nat) : string :=
  let s := Z.of_nat (n mod 60) in
  "2024-01-01T00:00:" ++ (if s <? 10 then "0" else "") ++ show_Z s ++ ".000Z".

(** A fresh world over a network. *)
Definition world_over (net : nat -> FetchCall -> FetchResult) : World :=
  mkWorld ticking_clock net 0 [] [].

Definition failed_to_fetch : Error := mkError "TypeError" "Failed to fetch".

(** Every [fetch] is rejected. *)
Definition net_down : nat -> FetchCall -> FetchResult :=
  fun _ _ => Rejected failed_to_fetch.

(** The first [k] fetches answer [200 OK] with a body that is not JSON,
    the next answers [200 OK] with the body [v]. *)
Definition net_garbled_then (k : nat) (v : Val) : nat -> FetchCall -> FetchResult :=
  fun n _ =>
    if (n <? k)%nat
    then Responded (mkResponse 200 "OK"
                      (Throw (mkError "SyntaxError" "Unexpected token < in JSON")))
    else Responded (mkResponse 200 "OK" (Normal v)).

(** The first [k] fetches answer [503], the next answers [200 OK] with [v]. *)
Definition net_unavailable_then (k : nat) (v : Val) : nat -> FetchCall -> FetchResult :=
  fun n _ =>
    if (n <? k)%nat
    then Responded (mkResponse 503 "Service Unavailable" (Normal VNull))
    else Responded (mkResponse 200 "OK" (Normal v)).

End Obs.

(** ** Further vocabulary *)

Module Terms.
Import Js Effects Mock Client Obs.

(** The keys of an object, in enumeration order. *)
Definition object_keys (v : Val) : list string :=
  match v with
  | VObj o => map fst o
  | _ => []
  end.

(** A line [woocommerceRequest] writes once the loop has started. *)
Definition cascade_line (endpoint : string) (l : LogLine) : Prop :=
  (exists e, l = error_line e) \/ (exists v, l = response_line v)
  \/ l = mock_line endpoint.

(** Parameters given as an object whose keys are neither array indices
    nor the names of the credentials. *)
Definition plain_params (params : Obj) : Prop :=
  NoDup (map fst params)
  /\ forall k, In k (map fst params) ->
               array_index k = None
               /\ k <> "consumer_key" /\ k <> "consumer_secret".

Definition is_letter (c : ascii) : bool :=
  let n := nat_of_ascii c in
  ((65 <=? n) && (n <=? 90) || (97 <=? n) && (n <=? 122))%nat.

Fixpoint all_letters (s : string) : bool :=
  match s with
  | EmptyString => true
  | String c rest => is_letter c && all_letters rest
  end.

(** The calls made between the world [w] and the later world [w']. *)
Definition new_calls (w w' : World) : list FetchCall :=
  skipn (List.length (fetched w)) (fetched w').

(** The lines logged between the world [w] and the later world [w']. *)
Definition new_lines (w w' : World) : list LogLine :=
  skipn (List.length (console w)) (console w').

(** A domain without a scheme, which the URL constructor rejects. *)
Definition env_no_scheme : ProcessEnv := mkEnv (Some "shop.example.org") None None.

End Terms.

(** ** The calculator component *)

Module Calculator.
Import Js Effects Mock Client.
Local Open Scope js_scope.

(** The state the hooks of [FenceCalculator] hold. *)
Record State : Type := mkState {
  activeStep : Z;
  loading : bool;
  error : Val;
  fenceTypes : Val;
  selectedFenceType : Val;
  fenceSections : Val;
  quoteDetails : Val
}.

Definition steps : list string :=
  ["Select Fence Type"; "Configure Sections"; "Review Quote"].

(** The values [useState] is given. *)
Definition initialState : State :=
  mkState 0 false VNull (VArr []) (VStr "") (VArr []) VNull.

Definition setActiveStep (f : Z -> Z) (s : State) : State :=
  mkState (f (activeStep s)) (loading s) (error s) (fenceTypes s)
          (selectedFenceType s) (fenceSections s) (quoteDetails s).

Definition setLoading (b : bool) (s : State) : State :=
  mkState (activeStep s) b (error s) (fenceTypes s)
          (selectedFenceType s) (fenceSections s) (quoteDetails s).

Definition setError (v : Val) (s : State) : State :=
  mkState (activeStep s) (loading s) v (fenceTypes s)
          (selectedFenceType s) (fenceSections s) (quoteDetails s).

Definition setFenceTypes (v : Val) (s : State) : State :=
  mkState (activeStep s) (loading s) (error s) v
          (selectedFenceType s) (fenceSections s) (quoteDetails s).

Definition setSelectedFenceType (v : Val) (s : State) : State :=
  mkState (activeStep s) (loading s) (error s) (fenceTypes s)
          v (fenceSections s) (quoteDetails s).

Definition setFenceSections (v : Val) (s : State) : State :=
  mkState (activeStep s) (loading s) (error s) (fenceTypes s)
          (selectedFenceType s) v (quoteDetails s).

Definition setQuoteDetails (v : Val) (s : State) : State :=
  mkState (activeStep s) (loading s) (error s) (fenceTypes s)
          (selectedFenceType s) (fenceSections s) v.

Definition not_a_function : Error := mkError "TypeError" "not a function".
Definition cannot_read : Error :=
  mkError "TypeError" "Cannot read properties of undefined".

(** [v.k], for a key that no prototype defines: it throws on [undefined]
    and [null], and is [undefined] on a value that is no object. *)
Definition prop (k : string) (v : Val) : Completion Val :=
  match v with
  | VUndefined | VNull => Throw cannot_read
  | VObj o => Normal (get k o)
  | _ => Normal VUndefined
  end.

(** [v.includes(x)] for a string [x]: a substring test on a string, a
    membership test on an array, and a [TypeError] on anything else. *)
Definition includes_call (v : Val) (x : string) : Completion bool :=
  match v with
  | VStr s => Normal (includes x s)
  | VArr items => Normal (existsb (fun item => strict_eq_str item x) items)
  | VUndefined | VNull => Throw cannot_read
  | _ => Throw not_a_function
  end.

Definition bind_c {A B} (c : Completion A) (k : A -> Completion B) : Completion B :=
  match c with
  | Normal a => k a
  | Throw e => Throw e
  end.

(** The predicate [loadFenceTypes] filters the categories with. *)
Definition isMainFenceType (cat : Val) : Completion bool :=
  bind_c (prop "name" cat) (fun name =>
  bind_c (includes_call name "Fence") (fun fence =>
  if negb fence then Normal false else
  bind_c (includes_call name "Post") (fun post =>
  if post then Normal false else
  bind_c (includes_call name "Panel") (fun panel =>
  if panel then Normal false else
  bind_c (includes_call name "Gate") (fun gate =>
  Normal (negb gate)))))).

(** [items.filter(f)] for a callback that can throw. *)
Fixpoint filter_c (f : Val -> Completion bool) (items : list Val)
  : Completion (list Val) :=
  match items with
  | [] => Normal []
  | x :: rest =>
      bind_c (f x) (fun keep =>
      bind_c (filter_c f rest) (fun kept =>
      Normal (if keep then x :: kept else kept)))
  end.

(** [v.filter(f)]: only an array has the method. *)
Definition filter_call (f : Val -> Completion bool) (v : Val) : Completion Val :=
  match v with
  | VArr items => bind_c (filter_c f items) (fun kept => Normal (VArr kept))
  | VUndefined | VNull => Throw cannot_read
  | _ => Throw not_a_function
  end.

Definition load_failed : string :=
  "Failed to load fence types. Please try again later.".

Section Component.
Variable newURL : string -> option URL.
Variable env : ProcessEnv.

(** The effect run when the component mounts.  The [catch] block cannot
    throw, so the [finally] block is what runs last. *)
Definition loadFenceTypes (s : State) : M State :=
  let s := setLoading true s in
  let s := setError VNull s in
  s <- try_catch
         (categories <- api_get newURL (API_CONFIG newURL env) "products/categories"
                          [("parent", num 0); ("per_page", num 20)] ;;
          mainFenceTypes <- lift (filter_call isMainFenceType categories) ;;
          ret (setFenceTypes mainFenceTypes s))
         (fun err =>
            console_log (mkLog "error" "Error loading fence types:" (ArgErr err)) ;;
            ret (setError (VStr load_failed) s)) ;;
  ret (setLoading false s).

End Component.

Definition handleFenceTypeChange (value : Val) (s : State) : State :=
  setSelectedFenceType value s.

Definition handleNext (s : State) : State :=
  setActiveStep (fun prevActiveStep => prevActiveStep + 1) s.

Definition handleBack (s : State) : State :=
  setActiveStep (fun prevActiveStep => prevActiveStep - 1) s.

Definition handleReset (s : State) : State :=
  setQuoteDetails VNull
    (setFenceSections (VArr [])
       (setSelectedFenceType (VStr "")
          (setActiveStep (fun _ => 0) s))).

(** What the user can do: press Back, press the button on the right, and
    pick a value in the fence type select. *)
Inductive Event : Type :=
| ClickBack
| ClickMain
| Select (value : Val).

Definition last_step : Z := Z.of_nat (List.length steps) - 1.

(** The handler an event reaches, going by what is rendered and what is
    disabled: nothing but the spinner while loading, the select in the
    content of step 0 only, Back disabled on step 0, and the other
    button, disabled on step 0 until a fence type is selected, starting
    over on the last step and going on otherwise. *)
Definition dispatch (ev : Event) (s : State) : option State :=
  if loading s then None
  else match ev with
       | ClickBack =>
           if activeStep s =? 0 then None else Some (handleBack s)
       | ClickMain =>
           if (activeStep s =? 0) && negb (truthy (selectedFenceType s)) then None
           else if activeStep s =? last_step then Some (handleReset s)
           else Some (handleNext s)
       | Select value =>
           if activeStep s =? 0 then Some (handleFenceTypeChange value s)
           else None
       end.

(** The states the component can be in: those reached from the initial
    one by the events that reach a handler and by runs of the effect. *)
Inductive reachable (newURL : string -> option URL) (env : ProcessEnv)
  : State -> Prop :=
| reach_initial : reachable newURL env initialState
| reach_event (s s' : State) (ev : Event) :
    reachable newURL env s -> dispatch ev s = Some s' -> reachable newURL env s'
| reach_loading (s : State) :
    reachable newURL env s ->
    reachable newURL env (setError VNull (setLoading true s))
| reach_loaded (s s' : State) (w w' : World) :
    reachable newURL env s ->
    loadFenceTypes newURL env s w = (Normal s', w') ->
    reachable newURL env s'.

(** The four main fence categories of the fallback list. *)
Definition main_categories : list Val := [
  category_record 53 "Vinyl Fence" "vinyl-fence" 15;
  category_record 49 "Aluminum Fence" "aluminum-fence" 10;
  category_record 439 "Wood Fence" "wood-fence" 12;
  category_record 296 "Chain Link Fence" "chain-link-fence" 8
].

End Calculator.

(** ** The product utilities *)

Module ProductUtils.
Import Js Effects Mock Client Calculator.

(** [parseInt(s, 10)]: as [parseInt], without the hexadecimal prefix. *)
Definition parseInt10 (input : string) : Num :=
  let s := trim_start input in
  let '(sign, s) :=
    match s with
    | String "-" rest => (-1, rest)
    | String "+" rest => (1, rest)
    | _ => (1, s)
    end in
  match read_digits 10 None s with
  | Some m => to_double (sign * m)
  | None => NaN
  end.

Definition is_undefined (v : Val) : bool :=
  match v with
  | VUndefined => true
  | _ => false
  end.

(** [v.toLowerCase()]: only a string has the method. *)
Definition toLowerCase_call (v : Val) : Completion string :=
  match v with
  | VStr s => Normal (toLowerCase s)
  | VUndefined | VNull => Throw cannot_read
  | _ => Throw not_a_function
  end.

(** [SameValueZero], the equality of [Array.prototype.includes] and of
    [Set].  Two objects are the same when they are one object; values
    here carry no identity, and objects are taken to be distinct. *)
Definition same_value_zero (x y : Val) : bool :=
  match x, y with
  | VUndefined, VUndefined => true
  | VNull, VNull => true
  | VBool a, VBool b => Bool.eqb a b
  | VNum NaN, VNum NaN => true
  | VNum (Int a), VNum (Int b) => a =? b
  | VNum (Inf a), VNum (Inf b) => Bool.eqb a b
  | VStr a, VStr b => (a =? b)%string
  | _, _ => false
  end.

(** [v.includes(x)] for any [x]. *)
Definition includes_value (v x : Val) : Completion bool :=
  match v with
  | VArr items => Normal (existsb (same_value_zero x) items)
  | VStr s => Normal (includes (ToString x) s)
  | VUndefined | VNull => Throw cannot_read
  | _ => Throw not_a_function
  end.

(** [items.some(f)]: it stops at the first element [f] accepts. *)
Fixpoint some_c (f : Val -> Completion bool) (items : list Val) : Completion bool :=
  match items with
  | [] => Normal false
  | x :: rest => bind_c (f x) (fun b => if b then Normal true else some_c f rest)
  end.

Definition some_call (f : Val -> Completion bool) (v : Val) : Completion bool :=
  match v with
  | VArr items => some_c f items
  | VUndefined | VNull => Throw cannot_read
  | _ => Throw not_a_function
  end.

(** [items.find(f)]: the first element [f] accepts, or [undefined]. *)
Fixpoint find_c (f : Val -> Completion bool) (items : list Val) : Completion Val :=
  match items with
  | [] => Normal VUndefined
  | x :: rest => bind_c (f x) (fun b => if b then Normal x else find_c f rest)
  end.

Definition find_call (f : Val -> Completion bool) (v : Val) : Completion Val :=
  match v with
  | VArr items => find_c f items
  | VUndefined | VNull => Throw cannot_read
  | _ => Throw not_a_function
  end.

(** [x && f(x)], as a truth value. *)
Definition and_then (x : Val) (f : Val -> Completion bool) : Completion bool :=
  if truthy x then f x else Normal false.

(** [v.k && v.k.toLowerCase().includes(term)]. *)
Definition text_includes (k : string) (v : Val) (term : string) : Completion bool :=
  bind_c (prop k v) (fun text =>
  and_then text (fun text =>
  bind_c (toLowerCase_call text) (fun lower => Normal (includes term lower)))).

(** The attribute named [upper] or [lower], as the filters look it up:
    [product.attributes && product.attributes.find(...)]. *)
Definition find_attribute (upper lower : string) (product : Val) : Completion Val :=
  bind_c (prop "attributes" product) (fun attributes =>
  if truthy attributes
  then find_call (fun attr =>
         bind_c (prop "name" attr) (fun name =>
         Normal (strict_eq_str name upper || strict_eq_str name lower)))
         attributes
  else Normal attributes).

(** One of the three attribute filters: [false] when the product is to
    be dropped. *)
Definition attribute_filter (upper lower : string) (wanted product : Val)
  : Completion bool :=
  bind_c (find_attribute upper lower product) (fun attr =>
  if negb (truthy attr) then Normal false
  else bind_c (prop "options" attr) (fun options =>
       includes_value options wanted)).

Notation "x <-- c ;; k" := (bind_c c (fun x => k))
  (at level 100, c at next level, right associativity) : js_scope.
Local Open Scope js_scope.

(** The callback of [product.categories.some] in the type filter. *)
Definition category_matches_type (typeFilter : string) (cat : Val)
  : Completion bool :=
  id <-- prop "id" cat ;;
  if match id with
     | VNum n => num_eqb n (parseInt10 typeFilter)
     | _ => false
     end
  then Normal true
  else
    slug <-- prop "slug" cat ;;
    bySlug <-- and_then slug (fun slug =>
                 lower <-- toLowerCase_call slug ;;
                 Normal (lower =? typeFilter)%string) ;;
    if bySlug then Normal true
    else text_includes "name" cat typeFilter.

(** The type filter: [true] when the product passes. *)
Definition type_filter (type product : Val) : Completion bool :=
  typeFilter <-- toLowerCase_call type ;;
  categories <-- prop "categories" product ;;
  matchesCategory <-- and_then categories
                        (some_call (category_matches_type typeFilter)) ;;
  matchesName <-- text_includes "name" product typeFilter ;;
  Normal (matchesCategory || matchesName).

(** The search filter, for a search term that is truthy. *)
Definition search_term_filter (search product : Val) : Completion bool :=
  searchTerm <-- toLowerCase_call search ;;
  matchesName <-- text_includes "name" product searchTerm ;;
  matchesDescription <-- text_includes "description" product searchTerm ;;
  matchesShortDescription <-- text_includes "short_description" product searchTerm ;;
  Normal (matchesName || matchesDescription || matchesShortDescription).

Section Utils.

(** The comparisons of the platform on floating-point numbers:
    [parseFloat(p) < bound], [parseFloat(p) > bound] and [x > 0]; and
    [values.sort(compare)] with the numeric comparison of
    [getUniqueAttributeValues]. *)
Variable price_below : Val -> Val -> bool.
Variable price_above : Val -> Val -> bool.
Variable above_zero : Val -> bool.
Variable numeric_sort : list Val -> Completion (list Val).

(** The price filter, when one of the bounds is set. *)
Definition price_filter (minPrice maxPrice product : Val) : Completion bool :=
  price <-- prop "price" product ;;
  let price := if truthy price then price else VStr "0" in
  if negb (is_undefined minPrice) && price_below price minPrice then Normal false
  else if negb (is_undefined maxPrice) && price_above price maxPrice
  then Normal false
  else Normal true.

(** [x.stock_status === 'instock' || (x.manage_stock && x.stock_quantity > 0)]. *)
Definition has_stock (x : Val) : Completion bool :=
  status <-- prop "stock_status" x ;;
  if strict_eq_str status "instock" then Normal true
  else
    manage <-- prop "manage_stock" x ;;
    if truthy manage
    then q <-- prop "stock_quantity" x ;; Normal (above_zero q)
    else Normal false.

(** The availability filter, for a truthy [inStock]. *)
Definition stock_filter (product : Val) : Completion bool :=
  hasStock <-- has_stock product ;;
  if negb hasStock then Normal false
  else
    type <-- prop "type" product ;;
    if strict_eq_str type "variable"
    then
      variations <-- prop "variations" product ;;
      if truthy variations then some_call has_stock variations
      else Normal true
    else Normal true.

(** A filter that applies when its key in [filters] is not [undefined]. *)
Definition when_set (v : Val) (f : Val -> Completion bool) : Completion bool :=
  if is_undefined v then Normal true else f v.

(** The filters in the order of the source, each tried only when those
    before it let the product pass. *)
Fixpoint all_pass (checks : list (unit -> Completion bool)) : Completion bool :=
  match checks with
  | [] => Normal true
  | check :: rest =>
      pass <-- check tt ;;
      if pass then all_pass rest else Normal false
  end.

(** The callback of [products.filter] in [filterProducts]. *)
Definition keeps (filters : Obj) (product : Val) : Completion bool :=
  all_pass [
    (fun _ => when_set (get "type" filters) (fun type => type_filter type product));
    (fun _ =>
       if is_undefined (get "minPrice" filters)
          && is_undefined (get "maxPrice" filters)
       then Normal true
       else price_filter (get "minPrice" filters) (get "maxPrice" filters) product);
    (fun _ => when_set (get "height" filters) (fun height =>
                attribute_filter "Height" "height" height product));
    (fun _ => when_set (get "width" filters) (fun width =>
                attribute_filter "Width" "width" width product));
    (fun _ => when_set (get "material" filters) (fun material =>
                attribute_filter "Material" "material" material product));
    (fun _ => when_set (get "search" filters) (fun search =>
                if truthy search then search_term_filter search product
                else Normal true));
    (fun _ => when_set (get "inStock" filters) (fun inStock =>
                if truthy inStock then stock_filter product else Normal true))
  ].

Definition filterProducts (products : Val) (filters : Obj) : Completion Val :=
  match products with
  | VArr items =>
      kept <-- filter_c (keeps filters) items ;;
      Normal (VArr kept)
  | _ => Normal (VArr [])
  end.

(** What one product contributes to [allValues]: the callback of
    [products.flatMap], its result flattened by one level. *)
Definition attribute_values (attributeName : string) (product : Val)
  : Completion (list Val) :=
  attr <-- find_attribute attributeName (toLowerCase attributeName) product ;;
  options <-- (if nullish attr then Normal VUndefined else prop "options" attr) ;;
  Normal (match (if truthy options then options else VArr []) with
          | VArr items => items
          | v => [v]
          end).

Fixpoint flat_map_c (f : Val -> Completion (list Val)) (items : list Val)
  : Completion (list Val) :=
  match items with
  | [] => Normal []
  | x :: rest =>
      here <-- f x ;;
      there <-- flat_map_c f rest ;;
      Normal (here ++ there)%list
  end.

(** [[...new Set(values)]]: the first occurrence of each value, in order. *)
Fixpoint dedupe (values : list Val) : list Val :=
  match values with
  | [] => []
  | x :: rest => x :: filter (fun y => negb (same_value_zero x y)) (dedupe rest)
  end.

(** The order of [values.sort()]: by the strings the values convert to. *)
Definition sort_before (x y : Val) : bool := (ToString x <=? ToString y)%string.

Fixpoint insert_sorted (x : Val) (sorted : list Val) : list Val :=
  match sorted with
  | [] => [x]
  | y :: rest =>
      if sort_before x y then x :: y :: rest else y :: insert_sorted x rest
  end.

(** [values.sort()]: a stable sort, with every [undefined] at the end. *)
Definition default_sort (values : list Val) : list Val :=
  (fold_right insert_sorted [] (filter (fun v => negb (is_undefined v)) values)
   ++ filter is_undefined values)%list.

Definition getUniqueAttributeValues (products : Val) (attributeName : string)
    (options : Obj) : Completion Val :=
  match products with
  | VArr items =>
      let numericSort :=
        match get "numericSort" options with
        | VUndefined => VBool false
        | v => v
        end in
      allValues <-- flat_map_c (attribute_values attributeName) items ;;
      let uniqueValues := dedupe allValues in
      if truthy numericSort
      then sorted <-- numeric_sort uniqueValues ;; Normal (VArr sorted)
      else Normal (VArr (default_sort uniqueValues))
  | _ => Normal (VArr [])
  end.

End Utils.

(** The filter keys [filterProducts] reads. *)
Definition filter_keys : list string :=
  ["type"; "minPrice"; "maxPrice"; "height"; "width"; "material"; "search";
   "inStock"].

(** Comparisons for examples: every price within every bound, nothing
    above zero, and a numeric sort that changes nothing. *)
Definition never (_ _ : Val) : bool := false.
Definition none_above_zero (_ : Val) : bool := false.
Definition keep_order (values : list Val) : Completion (list Val) := Normal values.

End ProductUtils.

(** ** Objects *)

Module JsFacts.
Import Js Obs.

Lemma get_lookup (k : string) (o : Obj) :
  get k o = match lookup k o with Some v => v | None => VUndefined end.
Proof.
  induction o as [|[k' v'] rest IH]; simpl; [reflexivity|].
  destruct (k =? k')%string; [reflexivity|exact IH].
Qed.

Lemma lookup_set (k k' : string) (v : Val) (o : Obj) :
  lookup k' (set k v o) = if (k' =? k)%string then Some v else lookup k' o.
Proof.
  induction o as [|[k0 v0] rest IH]; simpl.
  - reflexivity.
  - destruct (String.eqb_spec k k0) as [->|Hk].
    + simpl. destruct (k' =? k0)%string; reflexivity.
    + destruct (key_before k k0); simpl.
      * destruct (k' =? k)%string; reflexivity.
      * rewrite IH.
        destruct (String.eqb_spec k' k0) as [->|]; [|reflexivity].
        destruct (String.eqb_spec k0 k); [congruence|reflexivity].
Qed.

Lemma lookup_app (k : string) (a b : Obj) :
  lookup k (a ++ b)%list
  = match lookup k a with Some v => Some v | None => lookup k b end.
Proof.
  induction a as [|[k0 v0] rest IH]; simpl; [reflexivity|].
  destruct (k =? k0)%string; [reflexivity|exact IH].
Qed.

Lemma lookup_define (defs : list (string * Val)) :
  forall (o : Obj) (k : string),
    lookup k (define o defs)
    = match defined_as k defs with Some v => Some v | None => lookup k o end.
Proof.
  unfold define, defined_as.
  induction defs as [|[k0 v0] defs IH]; intros o k; simpl; [reflexivity|].
  rewrite IH, lookup_app, lookup_set. simpl.
  destruct (lookup k (rev defs)); [reflexivity|].
  destruct (k =? k0)%string; reflexivity.
Qed.

Lemma lookup_None_not_key (k : string) (o : Obj) :
  lookup k o = None <-> ~ In k (map fst o).
Proof.
  induction o as [|[k0 v0] rest IH]; simpl.
  - tauto.
  - destruct (String.eqb_spec k k0) as [->|Hk].
    + split; [discriminate|]. intros H. exfalso. apply H. now left.
    + rewrite IH. split.
      * intros H [E|E]; [congruence|contradiction].
      * intros H E. apply H. now right.
Qed.

Lemma lookup_Some_In (k : string) (v : Val) (o : Obj) :
  lookup k o = Some v -> In (k, v) o.
Proof.
  induction o as [|[k0 v0] rest IH]; simpl; [discriminate|].
  destruct (String.eqb_spec k k0) as [->|Hk].
  - intros [= ->]. now left.
  - intros H. right. now apply IH.
Qed.

Lemma defined_as_None (k : string) (defs : list (string * Val)) :
  defined_as k defs = None <-> ~ In k (map fst defs).
Proof.
  unfold defined_as. rewrite lookup_None_not_key, map_rev.
  split; intros H E; apply H; [apply in_rev in E|apply in_rev]; now try rewrite rev_involutive.
Qed.

Lemma defined_as_In (k : string) (v : Val) (defs : list (string * Val)) :
  defined_as k defs = Some v -> In (k, v) defs.
Proof.
  unfold defined_as. intros H. apply in_rev. now apply lookup_Some_In.
Qed.

(** *** Enumeration order is kept by every definition of a property *)

Lemma key_before_asym (k k' : string) :
  key_before k k' = true -> key_before k' k = false.
Proof.
  unfold key_before.
  destruct (array_index k), (array_index k'); try discriminate; try reflexivity.
  rewrite !Z.ltb_lt, Z.ltb_ge. lia.
Qed.

Lemma key_before_later (k k' k'' : string) :
  key_before k k' = true ->
  key_before k'' k' = false ->
  k'' <> k /\ key_before k'' k = false.
Proof.
  unfold key_before.
  destruct (array_index k) as [n|] eqn:Ek; [|discriminate].
  destruct (array_index k'') as [n''|] eqn:Ek''.
  - destruct (array_index k') as [n'|]; [|discriminate].
    rewrite Z.ltb_lt, !Z.ltb_ge. intros H1 H2. split; [|lia].
    intros ->. rewrite Ek in Ek''. injection Ek'' as ->. lia.
  - intros _ _. split; [|reflexivity]. intros ->. congruence.
Qed.

Lemma keys_set (k k' : string) (v : Val) (o : Obj) :
  In k' (map fst (set k v o)) -> k' = k \/ In k' (map fst o).
Proof.
  induction o as [|[k0 v0] rest IH]; simpl.
  - intros [E|[]]. now left.
  - destruct (k =? k0)%string; [|destruct (key_before k k0)]; simpl.
    + intros [E|E]; [now left|right; now right].
    + intros [E|[E|E]]; auto.
    + intros [E|E]; [right; now left|].
      destruct (IH E); auto.
Qed.

Lemma ordered_set (k : string) (v : Val) (o : Obj) :
  ordered o -> ordered (set k v o).
Proof.
  induction o as [|[k0 v0] rest IH]; simpl.
  - intros _. split; [intros ? []|exact I].
  - intros [Hhd Htl].
    destruct (String.eqb_spec k k0) as [->|Hk]; [simpl; now split|].
    destruct (key_before k k0) eqn:Hb; simpl.
    + split; [|now split].
      intros k' [<-|Hin].
      * split; [congruence|now apply key_before_asym].
      * apply key_before_later with (k' := k0); [exact Hb|now apply Hhd].
    + split; [|now apply IH].
      intros k' Hin. destruct (keys_set _ _ _ _ Hin) as [->|Hin'].
      * now split.
      * now apply Hhd.
Qed.

Lemma ordered_define (defs : list (string * Val)) :
  forall o : Obj, ordered o -> ordered (define o defs).
Proof.
  unfold define.
  induction defs as [|[k v] defs IH]; intros o Ho; simpl; [exact Ho|].
  apply IH. now apply ordered_set.
Qed.

Lemma ordered_literal (defs : list (string * Val)) : ordered (literal defs).
Proof. apply ordered_define. exact I. Qed.

Lemma ordered_NoDup (o : Obj) : ordered o -> NoDup (map fst o).
Proof.
  induction o as [|[k v] rest IH]; simpl; intros H.
  - constructor.
  - destruct H as [Hhd Htl]. constructor; [|now apply IH].
    intros Hin. now destruct (Hhd k Hin).
Qed.

Lemma ordered_In_lookup (o : Obj) (k : string) (v : Val) :
  ordered o -> In (k, v) o -> lookup k o = Some v.
Proof.
  induction o as [|[k0 v0] rest IH]; simpl; intros Ho Hin; [contradiction|].
  destruct Ho as [Hhd Htl].
  destruct Hin as [[= -> ->]|Hin].
  - now rewrite String.eqb_refl.
  - destruct (String.eqb_spec k k0) as [->|Hk]; [|now apply IH].
    exfalso. assert (In k0 (map fst rest)) as Hk0
      by (change k0 with (fst (k0, v)); now apply in_map).
    now destruct (Hhd k0 Hk0).
Qed.

(** The entries of [query_entries o] are the properties of [o] that are
    neither [undefined] nor [null], stringified. *)
Lemma In_query_entries (o : Obj) (k s : string) :
  In (k, s) (query_entries o)
  <-> exists v, In (k, v) o /\ nullish v = false /\ s = ToString v.
Proof.
  unfold query_entries. rewrite in_flat_map. split.
  - intros [[k0 v0] [Hin Hs]]. simpl in Hs.
    destruct (nullish v0) eqn:Hn; [contradiction|].
    destruct Hs as [[= <- <-]|[]]. now exists v0.
  - intros [v [Hin [Hn ->]]]. exists (k, v). split; [exact Hin|].
    simpl. rewrite Hn. now left.
Qed.

Lemma keys_query_entries (o : Obj) (k : string) :
  In k (map fst (query_entries o)) -> In k (map fst o).
Proof.
  intros H. apply in_map_iff in H. destruct H as [[k0 s] [<- Hin]].
  apply In_query_entries in Hin. destruct Hin as [v [Hin _]].
  change (fst (k0, s)) with (fst (k0, v)). now apply in_map.
Qed.

Lemma NoDup_query_entries (o : Obj) :
  NoDup (map fst o) -> NoDup (map fst (query_entries o)).
Proof.
  induction o as [|[k v] rest IH]; simpl; intros H.
  - constructor.
  - inversion H as [|? ? Hnot Hrest]; subst.
    unfold query_entries in *. simpl.
    destruct (nullish v); simpl; [now apply IH|].
    constructor; [|now apply IH].
    intros Hin. apply Hnot. now apply keys_query_entries.
Qed.

End JsFacts.

(** ** The mock-data generator: what it returns *)

Module MockFacts.
Import Js Effects Mock Obs.

Lemma prefix_app (a s : string) :
  String.prefix a s = true <-> exists post, s = a ++ post.
Proof.
  revert s. induction a as [|c a IH]; intros s.
  - split; [intros _; now exists s|intros _; destruct s; reflexivity].
  - destruct s as [|d s]; simpl; [split; [discriminate|intros [? [=]]]|].
    destruct (ascii_dec c d) as [<-|Hcd].
    + rewrite IH. split; intros [post E]; exists post; congruence.
    + split; [discriminate|]. intros [post [= E _]]. congruence.
Qed.

Lemma includes_eq (sub s : string) :
  includes sub s
  = String.prefix sub s
    || match s with
       | EmptyString => false
       | String _ rest => includes sub rest
       end.
Proof. destruct s; cbn [includes]; destruct (String.prefix sub _); reflexivity. Qed.

(** [includes] decides the substring relation. *)
Lemma includes_contains (sub s : string) :
  includes sub s = true <-> contains sub s.
Proof.
  unfold contains. induction s as [|c s IH]; rewrite includes_eq.
  - destruct (String.prefix sub "") eqn:Hp; cbn [orb].
    + split; [intros _|reflexivity].
      apply prefix_app in Hp. destruct Hp as [post E]. now exists "", post.
    + split; [discriminate|]. intros [pre [post E]].
      destruct pre; [|discriminate].
      assert (String.prefix sub "" = true) by (apply prefix_app; now exists post).
      congruence.
  - destruct (String.prefix sub (String c s)) eqn:Hp; cbn [orb].
    + split; [intros _|reflexivity].
      apply prefix_app in Hp. destruct Hp as [post E]. now exists "", post.
    + rewrite IH. split.
      * intros [pre [post E]]. exists (String c pre), post. simpl. now rewrite E.
      * intros [pre [post E]]. destruct pre as [|d pre].
        -- assert (String.prefix sub (String c s) = true)
             by (apply prefix_app; now exists post).
           congruence.
        -- injection E as _ E. now exists pre, post.
Qed.

Lemma num_eqb_neq (a : Num) (z : Z) : a <> Int z -> num_eqb a (Int z) = false.
Proof.
  destruct a as [|x|s]; simpl; [reflexivity| |reflexivity].
  intros H. apply Z.eqb_neq. congruence.
Qed.

(** The text and the image id a product takes from its number are left
    as they stand while the rest of the product is computed. *)
Ltac keep_number_text productId :=
  cbv zeta; unfold template, default_overrides;
  generalize (show_num productId), (num_add (Int 1000) productId);
  intros ? ?.

(** [generateMockProduct] reads the clock four times and always returns. *)
Lemma generateMockProduct_run (productId : Num) (w : World) :
  generateMockProduct productId w
  = (Normal (product_at productId
               (clock w (ticks w)) (clock w (1 + ticks w)%nat)
               (clock w (2 + ticks w)%nat) (clock w (3 + ticks w)%nat)),
     advance 4 w).
Proof.
  cbv [generateMockProduct product_at bind new_Date_toISOString ret
       clock ticks network fetched console].
  destruct w as [clk net t tr con].
  destruct (num_eqb productId (Int 101)); [reflexivity|].
  destruct (num_eqb productId (Int 104)); reflexivity.
Qed.

Lemma mapM_products_run (l : list BaseProduct) :
  forall w : World,
    mapM (fun product => generateMockProduct (Int (bp_id product))) l w
    = (Normal (products_from l (clock w) (ticks w)),
       advance (4 * List.length l) w).
Proof.
  induction l as [|p l IH]; intros w.
  - destruct w; reflexivity.
  - cbn [mapM]. unfold bind at 1. rewrite generateMockProduct_run.
    unfold bind at 1. rewrite IH. unfold ret.
    destruct w as [clk net t tr con].
    cbn [products_from clock ticks]. f_equal.
    unfold advance. cbn [clock network ticks fetched console List.length].
    f_equal. lia.
Qed.

(** What [generateMockProducts] does, step by step. *)
Lemma generateMockProducts_run (endpoint : string) (params : Obj) (w : World) :
  generateMockProducts endpoint params w
  = match search_filter (get "search" params)
            (if truthy (get "category" params)
             then filter (category_matches (get "category" params)) baseProducts
             else baseProducts) with
    | Normal l => (Normal (VArr (products_from l (clock w) (ticks w))),
                   advance (4 * List.length l) w)
    | Throw e => (Throw e, w)
    end.
Proof.
  unfold generateMockProducts, bind at 1, lift.
  destruct (search_filter _ _) as [l|e]; [|reflexivity].
  unfold bind. rewrite mapM_products_run. reflexivity.
Qed.

(** The timestamps are the only part of a product the clock decides. *)
Lemma strip_dates_product_at (productId : Num) (d1 d2 d3 d4 : string) :
  strip_dates (product_at productId d1 d2 d3 d4)
  = strip_dates (product_at productId "" "" "" "").
Proof.
  unfold product_at. keep_number_text productId.
  destruct (num_eqb productId (Int 101)); [vm_compute; reflexivity|].
  destruct (num_eqb productId (Int 104)); vm_compute; reflexivity.
Qed.

Lemma strip_dates_products_from (l : list BaseProduct) (clk clk' : nat -> string) :
  forall t t' : nat,
    map strip_dates (products_from l clk t)
    = map strip_dates (products_from l clk' t').
Proof.
  induction l as [|p l IH]; intros t t'; [reflexivity|].
  cbn [products_from map].
  rewrite (strip_dates_product_at _ (clk t)), (strip_dates_product_at _ (clk' t')).
  f_equal. apply IH.
Qed.

Lemma products_from_same_readings (l : list BaseProduct) (clk clk' : nat -> string) :
  forall t t' : nat,
    (forall n : nat, clk (n + t)%nat = clk' (n + t')%nat) ->
    products_from l clk t = products_from l clk' t'.
Proof.
  induction l as [|p l IH]; intros t t' H; [reflexivity|].
  cbn [products_from].
  rewrite (H 0%nat : clk t = clk' t'),
          (H 1%nat : clk (1 + t)%nat = clk' (1 + t')%nat),
          (H 2%nat : clk (2 + t)%nat = clk' (2 + t')%nat),
          (H 3%nat : clk (3 + t)%nat = clk' (3 + t')%nat).
  f_equal. apply IH. intros n.
  replace (n + (4 + t))%nat with ((n + 4) + t)%nat by lia.
  replace (n + (4 + t'))%nat with ((n + 4) + t')%nat by lia.
  apply H.
Qed.

Lemma search_filter_usable (params : Obj) (products : list BaseProduct) :
  search_usable params ->
  exists l, search_filter (get "search" params) products = Normal l.
Proof.
  unfold search_filter. intros [H|[s H]]; rewrite H; [now eexists|].
  destruct (truthy (VStr s)); now eexists.
Qed.

(** The generator returns a value whenever the search filter can run. *)
Lemma generateMockData_returns (endpoint : string) (params : Obj) (w : World) :
  search_usable params ->
  exists v w', generateMockData endpoint params w = (Normal v, w').
Proof.
  intros H. unfold generateMockData.
  destruct (includes "products" endpoint); [|now do 2 eexists].
  destruct (includes "categories" endpoint); [now do 2 eexists|].
  destruct (test_products_id endpoint).
  - rewrite generateMockProduct_run. now do 2 eexists.
  - rewrite generateMockProducts_run.
    destruct (search_filter_usable params
                (if truthy (get "category" params)
                 then filter (category_matches (get "category" params)) baseProducts
                 else baseProducts) H) as [l ->].
    now do 2 eexists.
Qed.

End MockFacts.

(** ** Properties of the mock-data generator *)

Module Synthesis.
Import Js Effects Mock Obs MockFacts.

(** C9.  For every endpoint string that does not contain the substring
    "products", and every parameter object, [generateMockData] returns the
    empty array, and touches nothing. *)
Theorem no_products_empty_array (endpoint : string) (params : Obj) (w : World) :
  ~ contains "products" endpoint ->
  generateMockData endpoint params w = (Normal (VArr []), w).
Proof.
  intros H. unfold generateMockData.
  destruct (includes "products" endpoint) eqn:E; [|reflexivity].
  exfalso. apply H. now apply includes_contains.
Qed.

(** C6.  The single product synthesized for id 101 is named "Vinyl Privacy
    Panel" and its "Width" attribute has the options "6 ft" and "8 ft",
    whether [generateMockProduct] is called directly or reached through the
    path "products/101"; for every id without an override, that is every id
    other than 101 and 104, the product carries [fallback: true] and a
    non-empty attribute list, as it does for the path "products/999". *)
Theorem single_product_synthesis (params : Obj) (w : World) :
  (exists p,
      generateMockProduct (Int 101) w = (Normal p, advance 4 w)
      /\ generateMockData "products/101" params w = (Normal p, advance 4 w)
      /\ field "name" p = VStr "Vinyl Privacy Panel"
      /\ attribute_options "Width" p = Some (VArr [VStr "6 ft"; VStr "8 ft"]))
  /\ (forall productId : Num,
         productId <> Int 101 -> productId <> Int 104 ->
         exists p a rest,
           generateMockProduct productId w = (Normal p, advance 4 w)
           /\ field "fallback" p = VBool true
           /\ field "attributes" p = VArr (a :: rest))
  /\ (exists p a rest,
         generateMockData "products/999" params w = (Normal p, advance 4 w)
         /\ field "fallback" p = VBool true
         /\ field "attributes" p = VArr (a :: rest)).
Proof.
  split; [|split].
  - eexists. split; [apply generateMockProduct_run|].
    split; [apply (generateMockProduct_run (Int 101))|].
    split; vm_compute; reflexivity.
  - intros productId H101 H104.
    do 3 eexists. split; [apply generateMockProduct_run|].
    unfold product_at.
    rewrite (num_eqb_neq _ _ H101), (num_eqb_neq _ _ H104).
    keep_number_text productId.
    split; vm_compute; reflexivity.
  - do 3 eexists. split; [apply (generateMockProduct_run (Int 999))|].
    split; vm_compute; reflexivity.
Qed.

(** C5, as the code has it.  Two runs of [generateMockData] on the same
    endpoint and parameters complete alike once the [date_created] and
    [date_modified] properties are left out; they complete identically
    when the clock gives both the same readings, and, whatever the clock,
    for every endpoint that names the categories or is no product path. *)
Theorem synthesis_same_up_to_timestamps
    (endpoint : string) (params : Obj) (w1 w2 : World) :
  map_completion strip_dates (fst (generateMockData endpoint params w1))
  = map_completion strip_dates (fst (generateMockData endpoint params w2))
  /\ ((forall n : nat, clock w1 (n + ticks w1)%nat = clock w2 (n + ticks w2)%nat) ->
      fst (generateMockData endpoint params w1)
      = fst (generateMockData endpoint params w2))
  /\ (includes "categories" endpoint = true \/ includes "products" endpoint = false ->
      fst (generateMockData endpoint params w1)
      = fst (generateMockData endpoint params w2)).
Proof.
  unfold generateMockData.
  destruct (includes "products" endpoint); [|repeat split; reflexivity].
  destruct (includes "categories" endpoint); [repeat split; reflexivity|].
  destruct (test_products_id endpoint).
  - rewrite !generateMockProduct_run. cbn [fst map_completion].
    split; [|split].
    + rewrite (strip_dates_product_at _ (clock w1 _)),
              (strip_dates_product_at _ (clock w2 _)).
      reflexivity.
    + intros H.
      rewrite (H 0%nat : clock w1 (ticks w1) = clock w2 (ticks w2)),
              (H 1%nat), (H 2%nat), (H 3%nat).
      reflexivity.
    + intros [H|H]; discriminate.
  - rewrite !generateMockProducts_run.
    destruct (search_filter _ _) as [l|e]; cbn [fst map_completion];
      [|repeat split; reflexivity].
    split; [|split].
    + cbn [strip_dates].
      rewrite (strip_dates_products_from l (clock w1) (clock w2) (ticks w1) (ticks w2)).
      reflexivity.
    + intros H.
      rewrite (products_from_same_readings l (clock w1) (clock w2) _ _ H).
      reflexivity.
    + intros [H|H]; discriminate.
Qed.

(** C3, on the code.  For the path "products" with [category: "53"] the
    generator returns the expansions of all four base products; those of
    102 and 103 come from the default branch of [generateMockProduct]:
    flagged as fallback, named "Mock Product ...", and with an empty
    category list, so no category of theirs has id 53 or slug vinyl-fence. *)
Theorem collection_category_53_output (w : World) :
  exists p101 p102 p103 p104,
    generateMockData "products" [("category", VStr "53")] w
    = (Normal (VArr [p101; p102; p103; p104]), advance 16 w)
    /\ field "id" p102 = num 102
    /\ field "name" p102 = VStr "Mock Product 102"
    /\ field "categories" p102 = VArr []
    /\ field "fallback" p102 = VBool true
    /\ field "id" p103 = num 103
    /\ field "name" p103 = VStr "Mock Product 103"
    /\ field "categories" p103 = VArr []
    /\ field "fallback" p103 = VBool true.
Proof.
  do 4 eexists. split.
  - change (generateMockData "products" [("category", VStr "53")] w)
      with (generateMockProducts "products" [("category", VStr "53")] w).
    rewrite generateMockProducts_run.
    change (search_filter _ _) with (Normal baseProducts : Completion _).
    cbv beta iota. reflexivity.
  - repeat split; vm_compute; reflexivity.
Qed.

(** For the path "products" with [search: "gate"] the generator returns
    the expansion of the one base product whose name contains "gate",
    and that expansion is named "Vinyl Gate". *)
Lemma collection_search_gate_output (w : World) :
  exists p104,
    generateMockData "products" [("search", VStr "gate")] w
    = (Normal (VArr [p104]), advance 4 w)
    /\ field "id" p104 = num 104
    /\ field "name" p104 = VStr "Vinyl Gate"
    /\ includes "gate" (toLowerCase "Vinyl Gate") = true.
Proof.
  eexists. split.
  - change (generateMockData "products" [("search", VStr "gate")] w)
      with (generateMockProducts "products" [("search", VStr "gate")] w).
    rewrite generateMockProducts_run.
    change (search_filter _ _)
      with (Normal (filter (fun p => (bp_id p =? 104)) baseProducts) : Completion _).
    cbv beta iota. reflexivity.
  - repeat split; vm_compute; reflexivity.
Qed.

End Synthesis.

(** ** URL resolution *)

Module UrlFacts.
Import Js Effects Mock Client Obs JsFacts.

Section Resolution.
Variable newURL : string -> option URL.

Lemma append_all (o : Obj) (l : list (string * Val)) :
  forall url : URL,
    (forall k v, In (k, v) l -> get k o = v) ->
    fold_left (fun url key =>
                 if negb (nullish (get key o))
                 then append url key (ToString (get key o))
                 else url)
              (map fst l) url
    = mkURL (hostname url) (href url) (searchParams url ++ query_entries l)%list.
Proof.
  induction l as [|[k v] l IH]; intros url H.
  - unfold query_entries. cbn [flat_map map fold_left]. rewrite app_nil_r. now destruct url.
  - cbn [map fst fold_left]. rewrite (H k v (or_introl eq_refl)).
    rewrite IH by (intros k' v' Hin; apply H; now right).
    unfold query_entries. cbn [flat_map fst snd].
    destruct (nullish v); cbn [negb append hostname href searchParams app].
    + reflexivity.
    + now rewrite <- app_assoc.
Qed.

Lemma ordered_allParams (cfg : Config) (params : Obj) :
  ordered (allParams cfg params).
Proof. apply ordered_literal. Qed.

(** [buildWooCommerceUrl], in one step. *)
Lemma buildWooCommerceUrl_run (cfg : Config) (endpoint : string) (params : Obj)
    (formatIndex : Z) :
  buildWooCommerceUrl newURL cfg endpoint params formatIndex
  = match newURL (ToString (or_else (format_at (endpointFormats cfg) formatIndex)
                                    (format_at (endpointFormats cfg) 0))
                  ++ "/" ++ endpoint) with
    | None => Throw (mkError "TypeError" "Invalid URL")
    | Some url =>
        Normal (mkURL (hostname url) (href url)
                      (searchParams url ++ query_entries (allParams cfg params))%list)
    end.
Proof.
  unfold buildWooCommerceUrl.
  destruct (newURL _) as [url|]; [|reflexivity].
  f_equal. apply append_all. intros k v Hin.
  rewrite get_lookup.
  now rewrite (ordered_In_lookup _ _ _ (ordered_allParams cfg params) Hin).
Qed.

(** The merged parameter object holds, for each key, the value the query
    parameters give it, and the credential of that name otherwise. *)
Lemma lookup_allParams (cfg : Config) (params : Obj) (k : string) :
  lookup k (allParams cfg params) = merged cfg params k.
Proof.
  unfold allParams, literal, merged.
  change (define [] ([("consumer_key", VStr (consumerKey cfg));
                      ("consumer_secret", VStr (consumerSecret cfg))] ++ params)%list)
    with (define [("consumer_key", VStr (consumerKey cfg));
                  ("consumer_secret", VStr (consumerSecret cfg))] params).
  apply lookup_define.
Qed.

Lemma In_allParams (cfg : Config) (params : Obj) (k : string) (v : Val) :
  In (k, v) (allParams cfg params) <-> merged cfg params k = Some v.
Proof.
  rewrite <- lookup_allParams. split.
  - apply ordered_In_lookup, ordered_allParams.
  - apply lookup_Some_In.
Qed.

Lemma append_not_empty (d s : string) :
  s <> "" -> ((d ++ s) =? "")%string = false.
Proof.
  intros H. destruct d; simpl; [|reflexivity].
  destruct s; [congruence|reflexivity].
Qed.

(** With the three formats of [API_CONFIG], the index selects the
    template at that index, and the first one when there is none. *)
Lemma API_CONFIG_template (env : ProcessEnv) (i : Z) :
  ToString (or_else (format_at (endpointFormats (API_CONFIG newURL env)) i)
                    (format_at (endpointFormats (API_CONFIG newURL env)) 0))
  = template_at (endpointFormats (API_CONFIG newURL env)) i.
Proof.
  unfold template_at, format_at, or_else.
  cbn [API_CONFIG endpointFormats List.length].
  destruct (Z.ltb_spec i 0) as [Hneg|Hpos].
  - replace (0 <=? i) with false by (symmetry; apply Z.leb_gt; lia).
    cbn. rewrite ?append_not_empty by discriminate. reflexivity.
  - replace (0 <=? i) with true by (symmetry; apply Z.leb_le; lia).
    destruct (Z.ltb_spec i (Z.of_nat 3)) as [Hlt|Hge]; cbn [andb].
    + assert (Z.to_nat i = 0 \/ Z.to_nat i = 1 \/ Z.to_nat i = 2)%nat
        as [-> | [-> | ->]] by lia;
        cbn; rewrite ?append_not_empty by discriminate; reflexivity.
    + destruct (Z.to_nat i) as [|[|[|n]]] eqn:E; try lia.
      cbn. destruct n; reflexivity.
Qed.

End Resolution.
End UrlFacts.

(** ** The request cascade, step by step *)

Module CascadeFacts.
Import Js Effects Mock Client Obs JsFacts MockFacts UrlFacts.
Local Open Scope js_scope.
Section Cascade.
Variable newURL : string -> option URL.

(** The [catch] block, run in the world [w] the failed [try] left. *)
Lemma catch_run (cfg : Config) (endpoint : string) (params : Obj)
    (method : string) (data useMockData : Val) (r i : nat) (e : Error) (w : World) :
  (when (DEBUG_MODE API_SETTINGS) (console_log (error_line e)) ;;
   if Z.of_nat i <? Z.of_nat (List.length (endpointFormats cfg)) - 1
   then cascade newURL cfg endpoint params method data useMockData r (S i)
   else if truthy useMockData
   then
     when (SHOW_FALLBACK_WARNINGS API_SETTINGS) (console_log (mock_line endpoint)) ;;
     generateMockData endpoint params
   else throw e) w
  = if Z.of_nat i <? Z.of_nat (List.length (endpointFormats cfg)) - 1
    then cascade newURL cfg endpoint params method data useMockData r (S i)
                 (logged (error_line e) w)
    else if truthy useMockData
    then generateMockData endpoint params
           (logged (mock_line endpoint) (logged (error_line e) w))
    else (Throw e, logged (error_line e) w).
Proof.
  unfold bind at 1.
  change (when (DEBUG_MODE API_SETTINGS) (console_log (error_line e)) w)
    with (Normal tt, logged (error_line e) w).
  cbv iota.
  destruct (Z.of_nat i <? _); [reflexivity|].
  destruct (truthy useMockData); reflexivity.
Qed.

Lemma cascade_failure (cfg : Config) (endpoint : string) (params : Obj)
    (method : string) (data useMockData : Val) (r i : nat) (w : World)
    (c : FetchCall) (e : Error) :
  attempt_call newURL cfg endpoint params method data i = Some c ->
  try_outcome (network w (List.length (fetched w)) c) = Throw e ->
  cascade newURL cfg endpoint params method data useMockData (S r) i w
  = if Z.of_nat i <? Z.of_nat (List.length (endpointFormats cfg)) - 1
    then cascade newURL cfg endpoint params method data useMockData r (S i)
                 (record c (error_line e) w)
    else if truthy useMockData
    then generateMockData endpoint params
           (logged (mock_line endpoint) (record c (error_line e) w))
    else (Throw e, record c (error_line e) w).
Proof.
  unfold attempt_call. intros Hc Hout.
  cbn [cascade]. unfold bind at 1, lift.
  destruct (buildWooCommerceUrl _ _ _ _ _) as [url|]; [|discriminate].
  injection Hc as <-.
  unfold try_catch, bind at 1, fetch.
  destruct (network w _ _) as [e0|resp]; cbn [try_outcome] in Hout.
  - injection Hout as ->. apply catch_run.
  - destruct (ok resp); cbn [negb].
    + unfold bind at 1, lift. rewrite Hout. apply catch_run.
    + injection Hout as <-. apply catch_run.
Qed.

Lemma cascade_success (cfg : Config) (endpoint : string) (params : Obj)
    (method : string) (data useMockData : Val) (r i : nat) (w : World)
    (c : FetchCall) (body : Val) :
  attempt_call newURL cfg endpoint params method data i = Some c ->
  try_outcome (network w (List.length (fetched w)) c) = Normal body ->
  cascade newURL cfg endpoint params method data useMockData (S r) i w
  = (Normal body, record c (response_line body) w).
Proof.
  unfold attempt_call. intros Hc Hout.
  cbn [cascade]. unfold bind at 1, lift.
  destruct (buildWooCommerceUrl _ _ _ _ _) as [url|]; [|discriminate].
  injection Hc as <-.
  unfold try_catch, bind at 1, fetch.
  destruct (network w _ _) as [e0|resp]; cbn [try_outcome] in Hout; [discriminate|].
  destruct (ok resp); cbn [negb]; [|discriminate].
  unfold bind at 1, lift. rewrite Hout. reflexivity.
Qed.

Lemma cascade_unresolved (cfg : Config) (endpoint : string) (params : Obj)
    (method : string) (data useMockData : Val) (r i : nat) (w : World) (e : Error) :
  buildWooCommerceUrl newURL cfg endpoint params (Z.of_nat i) = Throw e ->
  cascade newURL cfg endpoint params method data useMockData (S r) i w = (Throw e, w).
Proof.
  intros Hb. cbn [cascade]. unfold bind at 1, lift. now rewrite Hb.
Qed.


Lemma woocommerceRequest_run (cfg : Config) (endpoint : string) (params : Obj)
    (method : string) (data : Val) (options : Obj) (w : World) :
  woocommerceRequest newURL cfg endpoint params method data options w
  = cascade newURL cfg endpoint params method data (useMockData_of options)
            (List.length (endpointFormats cfg)) 0
            (logged (request_line method endpoint params) w).
Proof. reflexivity. Qed.

Lemma attempt_calls_step (cfg : Config) (endpoint : string) (params : Obj)
    (method : string) (data : Val) (i n : nat) (c : FetchCall) :
  attempt_call newURL cfg endpoint params method data i = Some c ->
  attempt_calls newURL cfg endpoint params method data i (S n)
  = c :: attempt_calls newURL cfg endpoint params method data (S i) n.
Proof.
  intros H. unfold attempt_calls. cbn [seq flat_map]. now rewrite H.
Qed.

Lemma attempt_calls_snoc (cfg : Config) (endpoint : string) (params : Obj)
    (method : string) (data : Val) (i n : nat) (c : FetchCall) :
  attempt_call newURL cfg endpoint params method data (i + n) = Some c ->
  attempt_calls newURL cfg endpoint params method data i (S n)
  = (attempt_calls newURL cfg endpoint params method data i n ++ [c])%list.
Proof.
  intros H. unfold attempt_calls.
  rewrite seq_S, flat_map_app. cbn [flat_map]. now rewrite H.
Qed.

Lemma later_by_refl (w : World) : later_by [] w w.
Proof. unfold later_by. now rewrite app_nil_r. Qed.

Lemma later_by_length (calls : list FetchCall) (w w' : World) :
  later_by calls w w' ->
  List.length (fetched w') = (List.length (fetched w) + List.length calls)%nat.
Proof. intros (_ & _ & _ & ->). apply length_app. Qed.

(** A run of [k] failed attempts, none against the last template, leaves
    the loop where it would have started had it begun [k] templates on. *)
Lemma cascade_skips_failures (cfg : Config) (endpoint : string) (params : Obj)
    (method : string) (data useMockData : Val) (r : nat) :
  forall (k i : nat) (w : World),
    (forall j, (j < k)%nat ->
       exists rj e,
         attempt_result_at newURL cfg endpoint params method data
           (network w) (List.length (fetched w) + j) (i + j) = Some rj
         /\ try_outcome rj = Throw e) ->
    (i + k < List.length (endpointFormats cfg))%nat ->
    exists w',
      later_by (attempt_calls newURL cfg endpoint params method data i k) w w'
      /\ List.length (attempt_calls newURL cfg endpoint params method data i k) = k
      /\ cascade newURL cfg endpoint params method data useMockData (k + r) i w
         = cascade newURL cfg endpoint params method data useMockData r (i + k)%nat w'.
Proof.
  induction k as [|k IH]; intros i w Hfail Hlen.
  - exists w. rewrite Nat.add_0_r. repeat split. apply later_by_refl.
  - destruct (Hfail 0%nat ltac:(lia)) as (r0 & e & Hr0 & He).
    unfold attempt_result_at in Hr0. rewrite !Nat.add_0_r in Hr0.
    destruct (attempt_call newURL cfg endpoint params method data i) as [c|] eqn:Hc;
      [|discriminate].
    injection Hr0 as <-.
    cbn [Nat.add]. rewrite (cascade_failure _ _ _ _ _ _ _ _ _ c e Hc He).
    replace (Z.of_nat i <? Z.of_nat (List.length (endpointFormats cfg)) - 1)
      with true by (symmetry; apply Z.ltb_lt; lia).
    destruct (IH (S i) (record c (error_line e) w)) as (w' & Hlater & Hn & Hrun).
    + intros j Hj. destruct (Hfail (S j) ltac:(lia)) as (rj & ej & Hrj & Hej).
      exists rj, ej. split; [|exact Hej].
      cbn [record network fetched]. rewrite length_app. cbn [List.length].
      replace (List.length (fetched w) + 1 + j)%nat
        with (List.length (fetched w) + S j)%nat by lia.
      replace (S i + j)%nat with (i + S j)%nat by lia. exact Hrj.
    + lia.
    + exists w'. rewrite (attempt_calls_step _ _ _ _ _ _ _ _ Hc).
      replace (i + S k)%nat with (S i + k)%nat by lia.
      split; [|split; [cbn [List.length]; now rewrite Hn|exact Hrun]].
      destruct Hlater as (H1 & H2 & H3 & H4).
      unfold later_by. rewrite H1, H2, H3, H4. cbn [record clock network ticks fetched].
      now rewrite <- app_assoc.
Qed.

Lemma generateMockData_keeps_trace (endpoint : string) (params : Obj) (w : World) :
  exists n, snd (generateMockData endpoint params w) = advance n w.
Proof.
  unfold generateMockData.
  destruct (includes "products" endpoint); [|exists 0%nat; now destruct w].
  destruct (includes "categories" endpoint); [exists 0%nat; now destruct w|].
  destruct (test_products_id endpoint).
  - rewrite generateMockProduct_run. now exists 4%nat.
  - rewrite generateMockProducts_run.
    destruct (search_filter _ _) as [l|e]; [now eexists|exists 0%nat; now destruct w].
Qed.

(** The loop only ever adds to the trace. *)
Lemma cascade_trace_grows (cfg : Config) (endpoint : string) (params : Obj)
    (method : string) (data useMockData : Val) :
  forall (r i : nat) (w : World),
    exists extra,
      fetched (snd (cascade newURL cfg endpoint params method data useMockData r i w))
      = (fetched w ++ extra)%list.
Proof.
  induction r as [|r IH]; intros i w.
  - exists []. now rewrite app_nil_r.
  - destruct (attempt_call newURL cfg endpoint params method data i) as [c|] eqn:Hc.
    + destruct (try_outcome (network w (List.length (fetched w)) c)) as [body|e] eqn:Ho.
      * rewrite (cascade_success _ _ _ _ _ _ _ _ _ c body Hc Ho). now exists [c].
      * rewrite (cascade_failure _ _ _ _ _ _ _ _ _ c e Hc Ho).
        destruct (Z.of_nat i <? _).
        -- destruct (IH (S i) (record c (error_line e) w)) as [extra ->].
           exists (c :: extra). cbn [record fetched]. now rewrite <- app_assoc.
        -- destruct (truthy useMockData); [|now exists [c]].
           destruct (generateMockData_keeps_trace endpoint params
                       (logged (mock_line endpoint) (record c (error_line e) w)))
             as [n ->].
           now exists [c].
    + unfold attempt_call in Hc.
      destruct (buildWooCommerceUrl newURL cfg endpoint params (Z.of_nat i))
        as [url|e] eqn:Hb; [discriminate|].
      rewrite (cascade_unresolved cfg _ _ _ _ useMockData r _ w e Hb).
      exists []. now rewrite app_nil_r.
Qed.

(** An iteration whose URL resolves issues its call first. *)
Lemma cascade_first_call (cfg : Config) (endpoint : string) (params : Obj)
    (method : string) (data useMockData : Val) (r i : nat) (w : World) (c : FetchCall) :
  attempt_call newURL cfg endpoint params method data i = Some c ->
  exists extra,
    fetched (snd (cascade newURL cfg endpoint params method data useMockData (S r) i w))
    = (fetched w ++ c :: extra)%list.
Proof.
  intros Hc.
  destruct (try_outcome (network w (List.length (fetched w)) c)) as [body|e] eqn:Ho.
  - rewrite (cascade_success _ _ _ _ _ _ _ _ _ c body Hc Ho). now exists [].
  - rewrite (cascade_failure _ _ _ _ _ _ _ _ _ c e Hc Ho).
    destruct (Z.of_nat i <? _).
    + destruct (cascade_trace_grows cfg endpoint params method data useMockData
                  r (S i) (record c (error_line e) w)) as [extra ->].
      exists extra. cbn [record fetched]. now rewrite <- app_assoc.
    + destruct (truthy useMockData); [|now exists []].
      destruct (generateMockData_keeps_trace endpoint params
                  (logged (mock_line endpoint) (record c (error_line e) w)))
        as [n ->].
      now exists [].
Qed.

Lemma decode_failure_outcome (r : FetchResult) (e : Error) :
  decode_failure r e -> try_outcome r = Throw e.
Proof. intros (resp & -> & Hok & Hjson). cbn. now rewrite Hok. Qed.

(** The loop reads its configuration through the formats and the
    credentials only. *)
Lemma buildWooCommerceUrl_same (cfg1 cfg2 : Config) (endpoint : string)
    (params : Obj) (i : Z) :
  endpointFormats cfg1 = endpointFormats cfg2 ->
  consumerKey cfg1 = consumerKey cfg2 ->
  consumerSecret cfg1 = consumerSecret cfg2 ->
  buildWooCommerceUrl newURL cfg1 endpoint params i
  = buildWooCommerceUrl newURL cfg2 endpoint params i.
Proof.
  intros Hf Hk Hs. unfold buildWooCommerceUrl, allParams.
  now rewrite Hf, Hk, Hs.
Qed.

Lemma cascade_same (cfg1 cfg2 : Config) (endpoint : string) (params : Obj)
    (method : string) (data useMockData : Val) :
  endpointFormats cfg1 = endpointFormats cfg2 ->
  consumerKey cfg1 = consumerKey cfg2 ->
  consumerSecret cfg1 = consumerSecret cfg2 ->
  forall (r i : nat) (w : World),
    cascade newURL cfg1 endpoint params method data useMockData r i w
    = cascade newURL cfg2 endpoint params method data useMockData r i w.
Proof.
  intros Hf Hk Hs.
  assert (forall i, attempt_call newURL cfg1 endpoint params method data i
                    = attempt_call newURL cfg2 endpoint params method data i) as Hcall
    by (intros i; unfold attempt_call;
        now rewrite (buildWooCommerceUrl_same cfg1 cfg2 _ _ _ Hf Hk Hs)).
  induction r as [|r IH]; intros i w; [reflexivity|].
  destruct (attempt_call newURL cfg2 endpoint params method data i) as [c|] eqn:Hc.
  - destruct (try_outcome (network w (List.length (fetched w)) c)) as [body|e] eqn:Ho.
    + rewrite (cascade_success cfg1 _ _ _ _ _ _ _ _ c body (eq_trans (Hcall i) Hc) Ho).
      now rewrite (cascade_success cfg2 _ _ _ _ _ _ _ _ c body Hc Ho).
    + rewrite (cascade_failure cfg1 _ _ _ _ _ _ _ _ c e (eq_trans (Hcall i) Hc) Ho).
      rewrite (cascade_failure cfg2 _ _ _ _ _ _ _ _ c e Hc Ho).
      rewrite Hf. destruct (Z.of_nat i <? _); [apply IH|reflexivity].
  - unfold attempt_call in Hc.
    destruct (buildWooCommerceUrl newURL cfg2 endpoint params (Z.of_nat i))
      as [url|e] eqn:Hb; [discriminate|].
    rewrite (cascade_unresolved cfg2 _ _ _ _ _ _ _ _ e Hb).
    apply cascade_unresolved.
    now rewrite (buildWooCommerceUrl_same cfg1 cfg2 _ _ _ Hf Hk Hs).
Qed.

End Cascade.
End CascadeFacts.

(** ** Properties of URL resolution and of the request cascade *)

Module Request.
Import Js Effects Mock Client Obs JsFacts MockFacts UrlFacts CascadeFacts.

Section Properties.
Variable newURL : string -> option URL.

(** A parameter the merged object holds with a value that is neither
    [undefined] nor [null] is a query entry of the URL built. *)
Lemma merged_entry (cfg : Config) (endpoint : string) (params : Obj) (i : Z)
    (u : URL) (k : string) (v : Val) :
  buildWooCommerceUrl newURL cfg endpoint params i = Normal u ->
  merged cfg params k = Some v ->
  nullish v = false ->
  In (k, ToString v) (searchParams u).
Proof.
  rewrite buildWooCommerceUrl_run.
  destruct (newURL _) as [url|]; [|discriminate].
  intros [= <-] Hm Hn. cbn [searchParams].
  apply in_or_app. right. apply In_query_entries.
  exists v. split; [now apply In_allParams|now split].
Qed.

Lemma or_default_unset (x : option string) :
  x = None \/ x = Some "" -> or_default x "" = "".
Proof. intros [->| ->]; reflexivity. Qed.


(** C7, as the code has it.  Whenever the query parameters do not set
    [consumer_key] or [consumer_secret] to [undefined] or [null], the URL
    built has both keys among its query entries; and a credential that is
    not configured appears with the empty string as its value, unless the
    query parameters define that key themselves. *)
Theorem credentials_in_url (env : ProcessEnv) (endpoint : string) (params : Obj)
    (i : Z) (u : URL) :
  buildWooCommerceUrl newURL (API_CONFIG newURL env) endpoint params i = Normal u ->
  (forall k v, k = "consumer_key" \/ k = "consumer_secret" ->
               In (k, v) params -> nullish v = false) ->
  In "consumer_key" (map fst (searchParams u))
  /\ In "consumer_secret" (map fst (searchParams u))
  /\ (REACT_APP_WOOCOMMERCE_CONSUMER_KEY env = None
      \/ REACT_APP_WOOCOMMERCE_CONSUMER_KEY env = Some "" ->
      ~ In "consumer_key" (map fst params) ->
      In ("consumer_key", "") (searchParams u))
  /\ (REACT_APP_WOOCOMMERCE_CONSUMER_SECRET env = None
      \/ REACT_APP_WOOCOMMERCE_CONSUMER_SECRET env = Some "" ->
      ~ In "consumer_secret" (map fst params) ->
      In ("consumer_secret", "") (searchParams u)).
Proof.
  intros Hu Hparams.
  assert (forall k, k = "consumer_key" \/ k = "consumer_secret" ->
                    In k (map fst (searchParams u))) as Hkey.
  { intros k Hk.
    assert (exists v, merged (API_CONFIG newURL env) params k = Some v
                      /\ nullish v = false) as (v & Hm & Hn).
    { unfold merged.
      destruct (defined_as k params) as [v|] eqn:Hd.
      - exists v. split; [reflexivity|].
        apply (Hparams k v Hk). now apply defined_as_In.
      - destruct Hk as [-> | ->]; eexists; split; reflexivity. }
    change k with (fst (k, ToString v)). apply in_map.
    exact (merged_entry _ _ _ _ _ _ _ Hu Hm Hn). }
  split; [apply Hkey; now left|].
  split; [apply Hkey; now right|].
  split; intros Henv Hnot.
  - apply (merged_entry _ _ _ _ _ _ (VStr "") Hu); [|reflexivity].
    unfold merged. apply defined_as_None in Hnot. rewrite Hnot.
    cbn. now rewrite (or_default_unset _ Henv).
  - apply (merged_entry _ _ _ _ _ _ (VStr "") Hu); [|reflexivity].
    unfold merged. apply defined_as_None in Hnot. rewrite Hnot.
    cbn. now rewrite (or_default_unset _ Henv).
Qed.

(** C10.  Two configurations with the same endpoint formats and the same
    credentials, whatever their alternative domains, build the same URL
    for every path, parameters and index, and answer every request alike:
    same completion, same trace of calls, same console. *)
Theorem alternative_domains_unused (cfg1 cfg2 : Config) :
  endpointFormats cfg1 = endpointFormats cfg2 ->
  consumerKey cfg1 = consumerKey cfg2 ->
  consumerSecret cfg1 = consumerSecret cfg2 ->
  (forall endpoint params i,
      buildWooCommerceUrl newURL cfg1 endpoint params i
      = buildWooCommerceUrl newURL cfg2 endpoint params i)
  /\ (forall endpoint params method data options w,
         woocommerceRequest newURL cfg1 endpoint params method data options w
         = woocommerceRequest newURL cfg2 endpoint params method data options w).
Proof.
  intros Hf Hk Hs. split.
  - intros. now apply buildWooCommerceUrl_same.
  - intros. rewrite !woocommerceRequest_run, Hf. now apply cascade_same.
Qed.

(** What a request does when its first [k] attempts fail and there is a
    template left: it goes on from template [k]. *)
Lemma request_skips_failures (cfg : Config) (endpoint : string) (params : Obj)
    (method : string) (data : Val) (options : Obj) (w : World) (k r : nat) :
  List.length (endpointFormats cfg) = (k + r)%nat ->
  (0 < r)%nat ->
  (forall j, (j < k)%nat ->
     exists e, attempt_fails newURL cfg endpoint params method data w j e) ->
  exists w',
    later_by (attempt_calls newURL cfg endpoint params method data 0 k) w w'
    /\ List.length (fetched w') = (List.length (fetched w) + k)%nat
    /\ woocommerceRequest newURL cfg endpoint params method data options w
       = cascade newURL cfg endpoint params method data (useMockData_of options)
                 r k w'.
Proof.
  intros Hlen Hr Hfail.
  rewrite woocommerceRequest_run, Hlen.
  destruct (cascade_skips_failures newURL cfg endpoint params method data
              (useMockData_of options) r k 0
              (logged (request_line method endpoint params) w))
    as (w' & Hlater & Hn & Hrun).
  - intros j Hj. destruct (Hfail j Hj) as (e & rj & Hrj & He). now exists rj, e.
  - lia.
  - exists w'. split; [|split; [|exact Hrun]].
    + destruct Hlater as (H1 & H2 & H3 & H4). now repeat split.
    + rewrite (later_by_length _ _ _ Hlater), Hn. reflexivity.
Qed.

(** C2.  If the attempts against the templates before index [i] fail and
    the attempt against template [i] succeeds, a 2xx response whose body
    parses to [body], then the request returns [body], and the calls it
    made are those against the templates [0] to [i], one each: no later
    template is attempted. *)
Theorem first_success_short_circuits (cfg : Config) (endpoint : string)
    (params : Obj) (method : string) (data : Val) (options : Obj) (w : World)
    (i : nat) (body : Val) :
  (i < List.length (endpointFormats cfg))%nat ->
  (forall j, (j < i)%nat ->
     exists e, attempt_fails newURL cfg endpoint params method data w j e) ->
  attempt_succeeds newURL cfg endpoint params method data w i body ->
  exists w',
    woocommerceRequest newURL cfg endpoint params method data options w
    = (Normal body, w')
    /\ fetched w'
       = (fetched w ++ attempt_calls newURL cfg endpoint params method data 0 (S i))%list
    /\ List.length (fetched w') = (List.length (fetched w) + S i)%nat.
Proof.
  intros Hi Hfail (ri & Hri & Hbody).
  destruct (request_skips_failures cfg endpoint params method data options w i
              (List.length (endpointFormats cfg) - i))
    as (w' & Hlater & Hn & Hrun); [lia|lia|exact Hfail|].
  destruct (List.length (endpointFormats cfg) - i)%nat as [|r] eqn:Hr; [lia|].
  unfold attempt_result, attempt_result_at in Hri.
  destruct (attempt_call newURL cfg endpoint params method data i) as [c|] eqn:Hc;
    [|discriminate].
  injection Hri as <-.
  destruct Hlater as (H1 & H2 & H3 & H4).
  rewrite <- H2, <- Hn in Hbody.
  rewrite Hrun, (cascade_success _ _ _ _ _ _ _ _ _ _ c body Hc Hbody).
  eexists. split; [reflexivity|]. cbn [record fetched].
  rewrite (attempt_calls_snoc _ _ _ _ _ _ 0 i c Hc), H4, <- app_assoc.
  split; [reflexivity|].
  rewrite H4, length_app in Hn.
  rewrite !length_app. cbn [List.length]. lia.
Qed.

(** The run of a request whose every attempt fails, [e] being the failure
    of the last: when the option [useMockData] is truthy, which it is by
    default, the request completes as [generateMockData] does on the
    original path and parameters, after the warning has been logged; for
    a categories path that is the fixed list of 16 categories.  When the
    option is falsy, the request rejects with [e]. *)
Lemma exhausted_cascade_run (cfg : Config) (endpoint : string) (params : Obj)
    (method : string) (data : Val) (options : Obj) (w : World)
    (m : nat) (e : Error) :
  List.length (endpointFormats cfg) = S m ->
  (forall j, (j < m)%nat ->
     exists ej, attempt_fails newURL cfg endpoint params method data w j ej) ->
  attempt_fails newURL cfg endpoint params method data w m e ->
  truthy (useMockData_of []) = true
  /\ (truthy (useMockData_of options) = true ->
      exists w1,
        later_by (attempt_calls newURL cfg endpoint params method data 0 (S m)) w w1
        /\ last (console w1) (mock_line "") = mock_line endpoint
        /\ woocommerceRequest newURL cfg endpoint params method data options w
           = generateMockData endpoint params w1
        /\ (search_usable params ->
            exists v w2,
              woocommerceRequest newURL cfg endpoint params method data options w
              = (Normal v, w2))
        /\ (includes "products" endpoint = true ->
            includes "categories" endpoint = true ->
            woocommerceRequest newURL cfg endpoint params method data options w
            = (Normal generateMockCategories, w1)
            /\ exists l, generateMockCategories = VArr l /\ List.length l = 16%nat))
  /\ (truthy (useMockData_of options) = false ->
      exists w1,
        later_by (attempt_calls newURL cfg endpoint params method data 0 (S m)) w w1
        /\ woocommerceRequest newURL cfg endpoint params method data options w
           = (Throw e, w1)).
Proof.
  intros Hlen Hfail (rm & Hrm & He).
  split; [reflexivity|].
  destruct (request_skips_failures cfg endpoint params method data options w m 1)
    as (w' & Hlater & Hn & Hrun); [lia|lia|exact Hfail|].
  unfold attempt_result, attempt_result_at in Hrm.
  destruct (attempt_call newURL cfg endpoint params method data m) as [c|] eqn:Hc;
    [|discriminate].
  injection Hrm as <-.
  destruct Hlater as (H1 & H2 & H3 & H4).
  rewrite <- H2, <- Hn in He.
  rewrite Hrun, (cascade_failure _ _ _ _ _ _ _ _ _ _ c e Hc He), Hlen.
  replace (Z.of_nat m <? Z.of_nat (S m) - 1) with false
    by (symmetry; apply Z.ltb_ge; lia).
  assert (forall l', later_by
            (attempt_calls newURL cfg endpoint params method data 0 (S m)) w
            (mkWorld (clock w') (network w') (ticks w') (fetched w' ++ [c])%list l'))
    as Hafter.
  { intros l'. unfold later_by. cbn [clock network ticks fetched].
    rewrite (attempt_calls_snoc _ _ _ _ _ _ 0 m c Hc), H4, <- app_assoc.
    now repeat split. }
  split; intros Hmock; rewrite Hmock.
  - exists (logged (mock_line endpoint) (record c (error_line e) w')).
    split; [apply Hafter|].
    split; [cbn [logged console]; apply last_last|].
    split; [reflexivity|].
    split.
    + intros Hsearch. now apply generateMockData_returns.
    + intros Hp Hc'. unfold generateMockData. rewrite Hp, Hc'.
      split; [reflexivity|]. eexists. split; reflexivity.
  - exists (record c (error_line e) w'). split; [apply Hafter|reflexivity].
Qed.

(** C1, on the code.  Every attempt has failed and the fallback is
    enabled, and still the request does not resolve: on a path of the
    product collection, a [search] parameter that is truthy and not a
    string, the number 5 say, makes [searchFilter.toLowerCase()] throw in
    [generateMockProducts], and the request rejects with that
    [TypeError], the warning about mock data being the last line it
    logged. *)
Theorem fallback_rejects_non_string_search (cfg : Config) (endpoint : string)
    (params : Obj) (method : string) (data : Val) (options : Obj) (w : World)
    (m : nat) (e : Error) :
  List.length (endpointFormats cfg) = S m ->
  (forall j, (j < m)%nat ->
     exists ej, attempt_fails newURL cfg endpoint params method data w j ej) ->
  attempt_fails newURL cfg endpoint params method data w m e ->
  truthy (useMockData_of options) = true ->
  includes "products" endpoint = true ->
  includes "categories" endpoint = false ->
  test_products_id endpoint = false ->
  truthy (get "search" params) = true ->
  (forall s, get "search" params <> VStr s) ->
  exists w1,
    woocommerceRequest newURL cfg endpoint params method data options w
    = (Throw (mkError "TypeError" "searchFilter.toLowerCase is not a function"), w1)
    /\ last (console w1) (mock_line "") = mock_line endpoint.
Proof.
  intros Hlen Hfail He Hmock Hp Hc Ht Hs Hstr.
  destruct (exhausted_cascade_run cfg endpoint params method data options w m e
              Hlen Hfail He) as (_ & Hon & _).
  destruct (Hon Hmock) as (w1 & _ & Hlast & Hrun & _).
  exists w1. split; [|exact Hlast].
  rewrite Hrun. unfold generateMockData. rewrite Hp, Hc, Ht.
  rewrite generateMockProducts_run. unfold search_filter. rewrite Hs.
  destruct (get "search" params) as [| |b|n|s|l|o];
    try reflexivity. now destruct (Hstr s).
Qed.

(** C4, as the code has it.  A 2xx response whose body fails to parse is
    handled as every other failure is: when it comes from an attempt that
    is not against the last template, the earlier attempts having failed,
    the request goes on and issues the call against the next template as
    its next [fetch]. *)
Theorem decode_failure_moves_on (cfg : Config) (endpoint : string)
    (params : Obj) (method : string) (data : Val) (options : Obj) (w : World)
    (i : nat) (r : FetchResult) (e : Error) (next : FetchCall) :
  (S i < List.length (endpointFormats cfg))%nat ->
  (forall j, (j < i)%nat ->
     exists ej, attempt_fails newURL cfg endpoint params method data w j ej) ->
  attempt_result newURL cfg endpoint params method data w i = Some r ->
  decode_failure r e ->
  attempt_call newURL cfg endpoint params method data (S i) = Some next ->
  nth_error
    (fetched (snd (woocommerceRequest newURL cfg endpoint params method data
                     options w)))
    (List.length (fetched w) + S i)
  = Some next.
Proof.
  intros Hi Hfail Hr Hdec Hnext.
  destruct (request_skips_failures cfg endpoint params method data options w (S i)
              (List.length (endpointFormats cfg) - S i))
    as (w' & Hlater & Hn & Hrun); [lia|lia| |].
  - intros j Hj. destruct (Nat.eq_dec j i) as [->|Hne].
    + exists e, r. split; [exact Hr|now apply decode_failure_outcome].
    + apply Hfail. lia.
  - destruct (List.length (endpointFormats cfg) - S i)%nat as [|r'] eqn:Hr'; [lia|].
    rewrite Hrun.
    destruct (cascade_first_call newURL cfg endpoint params method data
                (useMockData_of options) r' (S i) w' next Hnext) as [extra ->].
    rewrite nth_error_app2 by lia.
    rewrite Hn. replace (_ - _)%nat with 0%nat by lia. reflexivity.
Qed.

End Properties.
End Request.

(** ** The properties at work on concrete requests *)

Module Examples.
Import Js Effects Mock Client Obs JsFacts MockFacts.

Local Notation "'cfg0'" := (API_CONFIG plain_URL env_unset).
Local Notation "'cfg_shop'" := (API_CONFIG plain_URL env_shop).
Local Notation "'w_down'" := (world_over net_down).

(** Every [fetch] is rejected, and [api.get("products/categories", {})]
    resolves to the category list. *)
Lemma categories_fallback_resolves :
  List.length (endpointFormats cfg0) = 3%nat
  /\ (forall j, (j < 2)%nat ->
        exists ej, attempt_fails plain_URL cfg0 "products/categories" [] "GET" VNull
                     w_down j ej)
  /\ attempt_fails plain_URL cfg0 "products/categories" [] "GET" VNull w_down 2
       failed_to_fetch
  /\ exists w1,
       api_get plain_URL cfg0 "products/categories" [] w_down
       = (Normal generateMockCategories, w1).
Proof.
  assert (forall j, (j < 3)%nat ->
            attempt_fails plain_URL cfg0 "products/categories" [] "GET" VNull
              w_down j failed_to_fetch) as Hall.
  { intros j Hj. exists (Rejected failed_to_fetch).
    destruct j as [|[|[|j]]]; [split; vm_compute; reflexivity ..|exfalso; lia]. }
  assert (forall j, (j < 2)%nat ->
            exists ej, attempt_fails plain_URL cfg0 "products/categories" [] "GET"
                         VNull w_down j ej) as Hfirst.
  { intros j Hj. exists failed_to_fetch. apply Hall. lia. }
  split; [reflexivity|]. split; [exact Hfirst|]. split; [apply Hall; lia|].
  destruct (Request.exhausted_cascade_run plain_URL cfg0 "products/categories" []
              "GET" VNull [] w_down 2 failed_to_fetch eq_refl Hfirst
              (Hall 2%nat ltac:(lia)))
    as (_ & Hmock & _).
  destruct (Hmock eq_refl) as (w1 & _ & _ & _ & _ & Hcat).
  exists w1. exact (proj1 (Hcat eq_refl eq_refl)).
Defined.

(** C1 at the failing input: every [fetch] is rejected, the fallback is
    enabled, and [api.get("products", {search: 5})] rejects, with the
    [TypeError] of [generateMockProducts]. *)
Lemma fallback_rejects_on_numeric_search :
  (forall j, (j < 3)%nat ->
     attempt_fails plain_URL cfg0 "products" [("search", num 5)] "GET" VNull
       w_down j failed_to_fetch)
  /\ truthy (useMockData_of []) = true
  /\ fst (api_get plain_URL cfg0 "products" [("search", num 5)] w_down)
     = Throw (mkError "TypeError" "searchFilter.toLowerCase is not a function").
Proof.
  assert (forall j, (j < 3)%nat ->
            attempt_fails plain_URL cfg0 "products" [("search", num 5)] "GET" VNull
              w_down j failed_to_fetch) as Hall.
  { intros j Hj. exists (Rejected failed_to_fetch).
    destruct j as [|[|[|j]]]; [split; vm_compute; reflexivity ..|exfalso; lia]. }
  split; [exact Hall|]. split; [reflexivity|].
  destruct (Request.fallback_rejects_non_string_search plain_URL cfg0 "products"
              [("search", num 5)] "GET" VNull [] w_down 2 failed_to_fetch eq_refl
              (fun j Hj => ex_intro _ failed_to_fetch (Hall j ltac:(lia)))
              (Hall 2%nat ltac:(lia)) eq_refl eq_refl eq_refl eq_refl eq_refl
              ltac:(discriminate))
    as (w1 & Hrun & _).
  unfold api_get. now rewrite Hrun.
Defined.

(** C2: the first template answers 503, the second answers 200 with a
    JSON body; the request returns that body after two calls. *)
Lemma first_success_short_circuits_witness :
  (1 < List.length (endpointFormats cfg0))%nat
  /\ (forall j, (j < 1)%nat ->
        exists e, attempt_fails plain_URL cfg0 "products" [] "GET" VNull
                    (world_over (net_unavailable_then 1 generateMockCategories)) j e)
  /\ attempt_succeeds plain_URL cfg0 "products" [] "GET" VNull
       (world_over (net_unavailable_then 1 generateMockCategories)) 1
       generateMockCategories
  /\ exists w',
       api_get plain_URL cfg0 "products" []
         (world_over (net_unavailable_then 1 generateMockCategories))
       = (Normal generateMockCategories, w')
       /\ List.length (fetched w') = 2%nat.
Proof.
  assert (forall j, (j < 1)%nat ->
            exists e, attempt_fails plain_URL cfg0 "products" [] "GET" VNull
                        (world_over (net_unavailable_then 1 generateMockCategories))
                        j e) as Hfail.
  { intros j Hj. destruct j as [|j]; [|exfalso; lia].
    exists (mkError "Error" "API Error: 503 Service Unavailable").
    eexists. split; vm_compute; reflexivity. }
  assert (attempt_succeeds plain_URL cfg0 "products" [] "GET" VNull
            (world_over (net_unavailable_then 1 generateMockCategories)) 1
            generateMockCategories) as Hok.
  { eexists. split; vm_compute; reflexivity. }
  assert (1 < List.length (endpointFormats cfg0))%nat as Hlen by (cbn; lia).
  split; [exact Hlen|]. split; [exact Hfail|]. split; [exact Hok|].
  destruct (Request.first_success_short_circuits plain_URL cfg0 "products" []
              "GET" VNull []
              (world_over (net_unavailable_then 1 generateMockCategories))
              1 generateMockCategories Hlen Hfail Hok)
    as (w' & Hrun & _ & Hn).
  exists w'. split; [exact Hrun|exact Hn].
Defined.

(** C4, the claim as stated, refuted: the first template answers 200 with
    a body that is not JSON, and the request goes on to the second
    template, whose body it returns. *)
Lemma decode_failure_is_retried :
  (exists r e,
      attempt_result plain_URL cfg0 "products" [] "GET" VNull
        (world_over (net_garbled_then 1 (VArr []))) 0 = Some r
      /\ decode_failure r e)
  /\ fst (api_get plain_URL cfg0 "products" []
            (world_over (net_garbled_then 1 (VArr []))))
     = Normal (VArr [])
  /\ List.length
       (fetched (snd (api_get plain_URL cfg0 "products" []
                        (world_over (net_garbled_then 1 (VArr []))))))
     = 2%nat.
Proof.
  split; [|split; vm_compute; reflexivity].
  do 2 eexists. split; [vm_compute; reflexivity|].
  eexists. repeat split; reflexivity.
Qed.

(** C4: an unparsable 200 from the first template; the second [fetch] of
    the request is the call against the second template. *)
Lemma decode_failure_moves_on_witness :
  (1 < List.length (endpointFormats cfg0))%nat
  /\ attempt_result plain_URL cfg0 "products" [] "GET" VNull
       (world_over (net_garbled_then 1 (VArr []))) 0
     = Some (Responded (mkResponse 200 "OK"
               (Throw (mkError "SyntaxError" "Unexpected token < in JSON"))))
  /\ decode_failure
       (Responded (mkResponse 200 "OK"
          (Throw (mkError "SyntaxError" "Unexpected token < in JSON"))))
       (mkError "SyntaxError" "Unexpected token < in JSON")
  /\ nth_error
       (fetched (snd (api_get plain_URL cfg0 "products" []
                        (world_over (net_garbled_then 1 (VArr []))))))
       1
     = Some (fetchOptions
               (mkURL "example.com"
                      "https://example.com/index.php/wp-json/wc/v3/products"
                      [("consumer_key", ""); ("consumer_secret", "")])
               "GET" VNull).
Proof.
  assert (1 < List.length (endpointFormats cfg0))%nat as Hlen by (cbn; lia).
  assert (decode_failure
            (Responded (mkResponse 200 "OK"
               (Throw (mkError "SyntaxError" "Unexpected token < in JSON"))))
            (mkError "SyntaxError" "Unexpected token < in JSON")) as Hdec
    by (eexists; repeat split; reflexivity).
  split; [exact Hlen|]. split; [vm_compute; reflexivity|]. split; [exact Hdec|].
  apply (Request.decode_failure_moves_on plain_URL cfg0 "products" [] "GET" VNull
           [] (world_over (net_garbled_then 1 (VArr []))) 0
           (Responded (mkResponse 200 "OK"
              (Throw (mkError "SyntaxError" "Unexpected token < in JSON"))))
           (mkError "SyntaxError" "Unexpected token < in JSON") _ Hlen).
  - intros j Hj. exfalso. lia.
  - vm_compute. reflexivity.
  - exact Hdec.
  - vm_compute. reflexivity.
Defined.

(** C5, the claim as stated, refuted: two calls for "products/101", one
    after the other, return products that differ, in their timestamps. *)
Lemma timestamps_differ_between_calls :
  fst (generateMockData "products/101" [] w_down)
  <> fst (generateMockData "products/101" []
            (snd (generateMockData "products/101" [] w_down))).
Proof.
  intros H.
  apply (f_equal (map_completion (field "date_created"))) in H.
  vm_compute in H. discriminate.
Qed.

(** C5: two worlds whose clocks read the same, and a categories path. *)
Lemma synthesis_same_up_to_timestamps_witness :
  (forall n : nat,
      clock w_down (n + ticks w_down)%nat
      = clock (world_over (net_garbled_then 0 VNull))
              (n + ticks (world_over (net_garbled_then 0 VNull)))%nat)
  /\ (includes "categories" "products/categories" = true
      \/ includes "products" "products/categories" = false)
  /\ fst (generateMockData "products/categories" [] w_down)
     = fst (generateMockData "products/categories" []
              (world_over (net_garbled_then 0 VNull))).
Proof.
  split; [intros n; reflexivity|]. split; [left; reflexivity|].
  apply (proj1 (proj2 (Synthesis.synthesis_same_up_to_timestamps
                         "products/categories" [] w_down
                         (world_over (net_garbled_then 0 VNull))))).
  intros n. reflexivity.
Defined.

(** C6: the id 999 has no override. *)
Lemma single_product_synthesis_witness :
  Int 999 <> Int 101
  /\ Int 999 <> Int 104
  /\ exists p a rest,
       generateMockProduct (Int 999) w_down = (Normal p, advance 4 w_down)
       /\ field "fallback" p = VBool true
       /\ field "attributes" p = VArr (a :: rest).
Proof.
  split; [discriminate|]. split; [discriminate|].
  apply (proj1 (proj2 (Synthesis.single_product_synthesis [] w_down)));
    discriminate.
Defined.

(** C7, the claim as stated, refuted: a query parameter [consumer_key:
    null] leaves the URL without a [consumer_key] entry. *)
Lemma null_parameter_drops_credential :
  buildWooCommerceUrl plain_URL cfg_shop "products" [("consumer_key", VNull)] 0
  = Normal (mkURL "shop.example.org"
                  "https://shop.example.org/wp-json/wc/v3/products"
                  [("consumer_secret", "cs_2")])
  /\ ~ In "consumer_key" (map fst [("consumer_secret", "cs_2")]).
Proof.
  split; [vm_compute; reflexivity|].
  intros [H|[]]. discriminate.
Qed.

(** C7: the category request of the calculator, with no credentials
    configured. *)
Lemma credentials_in_url_witness :
  buildWooCommerceUrl plain_URL cfg0 "products/categories"
    [("parent", num 0); ("per_page", num 20)] 0
  = Normal (mkURL "example.com"
                  "https://example.com/wp-json/wc/v3/products/categories"
                  [("consumer_key", ""); ("consumer_secret", "");
                   ("parent", "0"); ("per_page", "20")])
  /\ (forall k v, k = "consumer_key" \/ k = "consumer_secret" ->
                  In (k, v) [("parent", num 0); ("per_page", num 20)] ->
                  nullish v = false)
  /\ In ("consumer_key", "")
        [("consumer_key", ""); ("consumer_secret", "");
         ("parent", "0"); ("per_page", "20")]
  /\ In ("consumer_secret", "")
        [("consumer_key", ""); ("consumer_secret", "");
         ("parent", "0"); ("per_page", "20")].
Proof.
  assert (buildWooCommerceUrl plain_URL cfg0 "products/categories"
            [("parent", num 0); ("per_page", num 20)] 0
          = Normal (mkURL "example.com"
                          "https://example.com/wp-json/wc/v3/products/categories"
                          [("consumer_key", ""); ("consumer_secret", "");
                           ("parent", "0"); ("per_page", "20")])) as Hu
    by (vm_compute; reflexivity).
  assert (forall k v, k = "consumer_key" \/ k = "consumer_secret" ->
                      In (k, v) [("parent", num 0); ("per_page", num 20)] ->
                      nullish v = false) as Hp.
  { intros k v [-> | ->] [H|[H|[]]]; discriminate. }
  split; [exact Hu|]. split; [exact Hp|].
  destruct (Request.credentials_in_url plain_URL env_unset _ _ _ _ Hu Hp)
    as (_ & _ & Hkey & Hsecret).
  split.
  - apply Hkey; [now left|]. intros [H|[H|[]]]; discriminate.
  - apply Hsecret; [now left|]. intros [H|[H|[]]]; discriminate.
Defined.



(** C9: the path "orders". *)
Lemma no_products_empty_array_witness :
  ~ contains "products" "orders"
  /\ generateMockData "orders" [("per_page", num 20)] w_down
     = (Normal (VArr []), w_down).
Proof.
  assert (~ contains "products" "orders") as H.
  { intros H. apply includes_contains in H. discriminate. }
  split; [exact H|].
  exact (Synthesis.no_products_empty_array "orders" [("per_page", num 20)] w_down H).
Defined.

(** C10: the default configuration and one with another alternative domain. *)
Lemma alternative_domains_unused_witness :
  endpointFormats cfg0
  = endpointFormats (mkConfig (endpointFormats cfg0) ["https://mirror.example.net"] "" "")
  /\ consumerKey cfg0 = ""
  /\ consumerSecret cfg0 = ""
  /\ alternativeDomains cfg0 <> ["https://mirror.example.net"]
  /\ api_get plain_URL cfg0 "products" [] w_down
     = api_get plain_URL
         (mkConfig (endpointFormats cfg0) ["https://mirror.example.net"] "" "")
         "products" [] w_down.
Proof.
  split; [reflexivity|]. split; [reflexivity|]. split; [reflexivity|].
  split; [intros H; vm_compute in H; discriminate|].
  apply (proj2 (Request.alternative_domains_unused plain_URL cfg0
                  (mkConfig (endpointFormats cfg0) ["https://mirror.example.net"] "" "")
                  eq_refl eq_refl eq_refl)).
Defined.

End Examples.

(** ** What a request does to the world *)

Module RunFacts.
Import Js Effects Mock Client Obs Terms JsFacts MockFacts UrlFacts CascadeFacts.

Lemma filter_length (A : Type) (f : A -> bool) (l : list A) :
  (List.length (filter f l) <= List.length l)%nat.
Proof.
  induction l as [|x l IH]; simpl; [lia|].
  destruct (f x); simpl; lia.
Qed.

Lemma search_filter_length (v : Val) (l l' : list BaseProduct) :
  search_filter v l = Normal l' -> (List.length l' <= List.length l)%nat.
Proof.
  unfold search_filter.
  destruct (truthy v); [|intros [= <-]; lia].
  destruct v; try discriminate.
  intros [= <-]. apply filter_length.
Qed.

(** The generator reads the clock, four times per product it builds, and
    does nothing else to the world. *)
Lemma generateMockData_effect (endpoint : string) (params : Obj) (w : World) :
  exists k, (k <= 4)%nat
            /\ snd (generateMockData endpoint params w) = advance (4 * k) w.
Proof.
  unfold generateMockData.
  destruct (includes "products" endpoint); [|exists 0%nat; split; [lia|now destruct w]].
  destruct (includes "categories" endpoint);
    [exists 0%nat; split; [lia|now destruct w]|].
  destruct (test_products_id endpoint).
  - rewrite generateMockProduct_run. exists 1%nat. split; [lia|reflexivity].
  - rewrite generateMockProducts_run.
    destruct (search_filter _ _) as [l|e] eqn:Hs;
      [|exists 0%nat; split; [lia|now destruct w]].
    exists (List.length l). split; [|reflexivity].
    apply search_filter_length in Hs.
    destruct (truthy (get "category" params)).
    + pose proof (filter_length _ (category_matches (get "category" params))
                    baseProducts) as Hf.
      change (List.length baseProducts) with 4%nat in Hf. lia.
    + exact Hs.
Qed.

Section Run.
Variable newURL : string -> option URL.

(** Where the loop leaves the world: some of the calls of the templates
    from [i] on, in order, the lines it logs, and the readings of the
    clock the generator made. *)
Lemma cascade_shape (cfg : Config) (endpoint : string) (params : Obj)
    (method : string) (data useMockData : Val) :
  forall (r i : nat) (w : World),
    exists n k lines,
      (n <= r)%nat /\ (k <= 4)%nat
      /\ snd (cascade newURL cfg endpoint params method data useMockData r i w)
         = mkWorld (clock w) (network w) (4 * k + ticks w)
             (fetched w ++ attempt_calls newURL cfg endpoint params method data i n)%list
             (console w ++ lines)%list
      /\ List.length (attempt_calls newURL cfg endpoint params method data i n) = n
      /\ Forall (cascade_line endpoint) lines.
Proof.
  induction r as [|r IH]; intros i w.
  - exists 0%nat, 0%nat, []. cbn [cascade ret snd attempt_calls seq flat_map].
    rewrite !app_nil_r. repeat split; try lia; [now destruct w|constructor].
  - destruct (attempt_call newURL cfg endpoint params method data i) as [c|] eqn:Hc.
    + destruct (try_outcome (network w (List.length (fetched w)) c)) as [body|e] eqn:Ho.
      * rewrite (cascade_success _ _ _ _ _ _ _ _ _ _ c body Hc Ho).
        exists 1%nat, 0%nat, [response_line body].
        unfold attempt_calls. cbn [seq flat_map]. rewrite Hc.
        repeat split; try lia.
        constructor; [|constructor]. right. left. now exists body.
      * rewrite (cascade_failure _ _ _ _ _ _ _ _ _ _ c e Hc Ho).
        destruct (Z.of_nat i <? _).
        -- destruct (IH (S i) (record c (error_line e) w))
             as (n & k & lines & Hn & Hk & -> & Hlen & Hlines).
           exists (S n), k, (error_line e :: lines).
           rewrite (attempt_calls_step _ _ _ _ _ _ _ _ _ Hc).
           unfold record. cbn [clock network ticks fetched console List.length].
           rewrite <- !app_assoc. cbn [app].
           repeat split; try lia.
           constructor; [|exact Hlines]. left. now exists e.
        -- destruct (truthy useMockData).
           ++ destruct (generateMockData_effect endpoint params
                          (logged (mock_line endpoint) (record c (error_line e) w)))
                as (k & Hk & ->).
              exists 1%nat, k, [error_line e; mock_line endpoint].
              unfold attempt_calls. cbn [seq flat_map]. rewrite Hc.
              unfold advance, logged, record.
              cbn [clock network ticks fetched console].
              rewrite <- ?app_assoc. cbn [app].
              repeat split; try lia.
              constructor; [left; now exists e|].
              constructor; [right; now right|constructor].
           ++ exists 1%nat, 0%nat, [error_line e].
              unfold attempt_calls. cbn [seq flat_map]. rewrite Hc.
              repeat split; try lia.
              constructor; [|constructor]. left. now exists e.
    + unfold attempt_call in Hc.
      destruct (buildWooCommerceUrl newURL cfg endpoint params (Z.of_nat i))
        as [url|e] eqn:Hb; [discriminate|].
      rewrite (cascade_unresolved _ cfg _ _ _ _ useMockData r _ w e Hb).
      exists 0%nat, 0%nat, []. cbn [snd attempt_calls seq flat_map].
      rewrite !app_nil_r. repeat split; try lia; [now destruct w|constructor].
Qed.

(** What the loop writes to the console: an error line for each attempt
    that failed, with the error it ended in, and then the line of the
    answer, or the warning about mock data, or nothing. *)
Lemma cascade_console (cfg : Config) (endpoint : string) (params : Obj)
    (method : string) (data useMockData : Val) :
  forall (r i : nat) (w : World),
    exists errors tail,
      console (snd (cascade newURL cfg endpoint params method data useMockData r i w))
      = (console w ++ map error_line errors ++ tail)%list
      /\ (List.length errors <= r)%nat
      /\ (forall m e,
            nth_error errors m = Some e ->
            exists res,
              attempt_result_at newURL cfg endpoint params method data (network w)
                (List.length (fetched w) + m) (i + m) = Some res
              /\ try_outcome res = Throw e)
      /\ (tail = []
          \/ (tail = [mock_line endpoint]
              /\ truthy useMockData = true
              /\ (List.length (endpointFormats cfg) <= i + List.length errors)%nat)
          \/ exists body res,
               tail = [response_line body]
               /\ attempt_result_at newURL cfg endpoint params method data (network w)
                    (List.length (fetched w) + List.length errors)
                    (i + List.length errors) = Some res
               /\ try_outcome res = Normal body
               /\ fst (cascade newURL cfg endpoint params method data useMockData
                         r i w) = Normal body).
Proof.
  induction r as [|r IH]; intros i w.
  - exists [], []. cbn [cascade ret snd map app]. rewrite app_nil_r.
    split; [reflexivity|]. split; [cbn; lia|].
    split; [intros [|m] e H; discriminate|now left].
  - destruct (attempt_call newURL cfg endpoint params method data i) as [c|] eqn:Hc.
    + assert (attempt_result_at newURL cfg endpoint params method data (network w)
                (List.length (fetched w) + 0) (i + 0)
              = Some (network w (List.length (fetched w)) c)) as Hhere.
      { unfold attempt_result_at. now rewrite !Nat.add_0_r, Hc. }
      destruct (try_outcome (network w (List.length (fetched w)) c))
        as [body|e] eqn:Ho.
      * rewrite (cascade_success _ _ _ _ _ _ _ _ _ _ c body Hc Ho).
        exists [], [response_line body]. cbn [snd fst record console map app].
        split; [reflexivity|]. split; [cbn; lia|].
        split; [intros [|m] e H; discriminate|].
        right. right. exists body, (network w (List.length (fetched w)) c).
        cbn [List.length]. now repeat split.
      * rewrite (cascade_failure _ _ _ _ _ _ _ _ _ _ c e Hc Ho).
        destruct (Z.of_nat i <? _) eqn:Hlt.
        -- destruct (IH (S i) (record c (error_line e) w))
             as (errors & tail & Hcon & Hlen & Herr & Htail).
           assert (forall m,
                     attempt_result_at newURL cfg endpoint params method data
                       (network (record c (error_line e) w))
                       (List.length (fetched (record c (error_line e) w)) + m)
                       (S i + m)
                     = attempt_result_at newURL cfg endpoint params method data
                         (network w) (List.length (fetched w) + S m) (i + S m))
             as Hshift.
           { intros m. cbn [record network fetched]. rewrite length_app.
             cbn [List.length].
             replace (List.length (fetched w) + 1 + m)%nat
               with (List.length (fetched w) + S m)%nat by lia.
             replace (S i + m)%nat with (i + S m)%nat by lia. reflexivity. }
           exists (e :: errors), tail. rewrite Hcon.
           cbn [record console map List.length]. rewrite <- app_assoc.
           split; [reflexivity|]. split; [lia|]. split.
           ++ intros [|m] e0 H.
              ** injection H as <-. eexists. split; [exact Hhere|exact Ho].
              ** destruct (Herr m e0 H) as (res & Hres & Hout).
                 exists res. now rewrite <- Hshift.
           ++ destruct Htail as [->|[(-> & Hm & Hn)|(body & res & -> & Hres & Hb & Hf)]].
              ** now left.
              ** right. left. repeat split; [exact Hm|lia].
              ** right. right. exists body, res. rewrite <- Hshift.
                 now repeat split.
        -- apply Z.ltb_ge in Hlt.
           destruct (truthy useMockData) eqn:Hm.
           ++ destruct (generateMockData_effect endpoint params
                          (logged (mock_line endpoint) (record c (error_line e) w)))
                as (k & _ & ->).
              exists [e], [mock_line endpoint].
              cbn [advance logged record console map app List.length].
              rewrite <- app_assoc.
              split; [reflexivity|]. split; [lia|]. split.
              ** intros [|[|m]] e0 H; try discriminate.
                 injection H as <-. eexists. split; [exact Hhere|exact Ho].
              ** right. left. repeat split. lia.
           ++ exists [e], [].
              cbn [snd record console map app List.length].
              split; [reflexivity|]. split; [lia|]. split.
              ** intros [|[|m]] e0 H; try discriminate.
                 injection H as <-. eexists. split; [exact Hhere|exact Ho].
              ** now left.
    + unfold attempt_call in Hc.
      destruct (buildWooCommerceUrl newURL cfg endpoint params (Z.of_nat i))
        as [url|e] eqn:Hb; [discriminate|].
      rewrite (cascade_unresolved _ cfg _ _ _ _ useMockData r _ w e Hb).
      exists [], []. cbn [snd map app]. rewrite app_nil_r.
      split; [reflexivity|]. split; [cbn; lia|].
      split; [intros [|m] e0 H; discriminate|now left].
Qed.

(** Every call of a request is [fetchOptions] of some URL that
    [buildWooCommerceUrl] built. *)
Lemma attempt_calls_shape (cfg : Config) (endpoint : string) (params : Obj)
    (method : string) (data : Val) (i n : nat) (c : FetchCall) :
  In c (attempt_calls newURL cfg endpoint params method data i n) ->
  exists j, (i <= j < i + n)%nat
            /\ buildWooCommerceUrl newURL cfg endpoint params (Z.of_nat j)
               = Normal (call_url c)
            /\ c = fetchOptions (call_url c) method data.
Proof.
  unfold attempt_calls. rewrite in_flat_map.
  intros (j & Hj & Hin). apply in_seq in Hj. exists j. split; [lia|].
  unfold attempt_call in Hin.
  destruct (buildWooCommerceUrl _ _ _ _ _) as [url|]; [|contradiction].
  destruct Hin as [<-|[]]. now split.
Qed.

End Run.
End RunFacts.

(** ** Further properties of the request cascade and of the client *)

Module RequestExtras.
Import Js Effects Mock Client Obs Terms JsFacts MockFacts UrlFacts CascadeFacts RunFacts.

Lemma skipn_length_app (A : Type) (l l' : list A) :
  skipn (List.length l) (l ++ l')%list = l'.
Proof. induction l as [|x l IH]; [reflexivity|exact IH]. Qed.

Section Properties.
Variable newURL : string -> option URL.

(** The world a request leaves behind. *)
Lemma request_shape (cfg : Config) (endpoint : string) (params : Obj)
    (method : string) (data : Val) (options : Obj) (w : World) :
  exists n k lines,
    (n <= List.length (endpointFormats cfg))%nat /\ (k <= 4)%nat
    /\ snd (woocommerceRequest newURL cfg endpoint params method data options w)
       = mkWorld (clock w) (network w) (4 * k + ticks w)
           (fetched w ++ attempt_calls newURL cfg endpoint params method data 0 n)%list
           (console w ++ request_line method endpoint params :: lines)%list
    /\ List.length (attempt_calls newURL cfg endpoint params method data 0 n) = n
    /\ Forall (cascade_line endpoint) lines.
Proof.
  rewrite woocommerceRequest_run.
  destruct (cascade_shape newURL cfg endpoint params method data
              (useMockData_of options) (List.length (endpointFormats cfg)) 0
              (logged (request_line method endpoint params) w))
    as (n & k & lines & Hn & Hk & -> & Hlen & Hlines).
  exists n, k, lines. unfold logged. cbn [clock network ticks fetched console].
  rewrite <- app_assoc. now repeat split.
Qed.

(** X1.  A request makes at most one [fetch] per endpoint format: the
    calls it adds to the trace are those of the templates [0] to [n - 1],
    in that order, for some [n] no larger than the number of formats. *)
Theorem request_calls_in_order (cfg : Config) (endpoint : string) (params : Obj)
    (method : string) (data : Val) (options : Obj) (w : World) :
  exists n,
    (n <= List.length (endpointFormats cfg))%nat
    /\ new_calls w (snd (woocommerceRequest newURL cfg endpoint params method data
                           options w))
       = attempt_calls newURL cfg endpoint params method data 0 n
    /\ List.length (attempt_calls newURL cfg endpoint params method data 0 n) = n
    /\ firstn (List.length (fetched w))
         (fetched (snd (woocommerceRequest newURL cfg endpoint params method data
                          options w)))
       = fetched w.
Proof.
  destruct (request_shape cfg endpoint params method data options w)
    as (n & k & lines & Hn & _ & -> & Hlen & _).
  exists n. unfold new_calls. cbn [fetched].
  split; [exact Hn|]. split; [apply skipn_length_app|]. split; [exact Hlen|].
  rewrite firstn_app, Nat.sub_diag, firstn_all. cbn [firstn]. apply app_nil_r.
Qed.

(** X2.  Through the client, [get] and [delete] never send a body.
    [post] and [put] send the empty object when the data is [undefined],
    the default of their parameter; any other data is the body exactly
    when it is truthy.  They put nothing but the two credentials into
    the query string. *)
Theorem client_calls (cfg : Config) (endpoint : string) (params : Obj)
    (data : Val) (w : World) (c : FetchCall) :
  (In c (new_calls w (snd (api_get newURL cfg endpoint params w))) ->
   call_method c = "GET" /\ call_body c = None)
  /\ (In c (new_calls w (snd (api_delete newURL cfg endpoint params w))) ->
      call_method c = "DELETE" /\ call_body c = None)
  /\ (In c (new_calls w (snd (api_post newURL cfg endpoint data w))) ->
      call_method c = "POST"
      /\ call_body c = match data with
                       | VUndefined => Some (VObj [])
                       | _ => if truthy data then Some data else None
                       end
      /\ exists url,
           call_url c
           = mkURL (hostname url) (href url)
               (searchParams url ++ [("consumer_key", consumerKey cfg);
                                     ("consumer_secret", consumerSecret cfg)])%list)
  /\ (In c (new_calls w (snd (api_put newURL cfg endpoint data w))) ->
      call_method c = "PUT"
      /\ call_body c = match data with
                       | VUndefined => Some (VObj [])
                       | _ => if truthy data then Some data else None
                       end
      /\ exists url,
           call_url c
           = mkURL (hostname url) (href url)
               (searchParams url ++ [("consumer_key", consumerKey cfg);
                                     ("consumer_secret", consumerSecret cfg)])%list).
Proof.
  assert (forall params method data',
            In c (new_calls w (snd (woocommerceRequest newURL cfg endpoint params
                                      method data' [] w))) ->
            exists j,
              buildWooCommerceUrl newURL cfg endpoint params (Z.of_nat j)
              = Normal (call_url c)
              /\ c = fetchOptions (call_url c) method data') as Hshape.
  { intros params' method data' Hin.
    destruct (request_shape cfg endpoint params' method data' [] w)
      as (n & k & lines & _ & _ & Hw & _ & _).
    unfold new_calls in Hin. rewrite Hw in Hin. cbn [fetched] in Hin.
    rewrite skipn_length_app in Hin.
    destruct (attempt_calls_shape newURL _ _ _ _ _ _ _ _ Hin) as (j & _ & Hb & Hc).
    now exists j. }
  assert (forall method data',
            In c (new_calls w (snd (woocommerceRequest newURL cfg endpoint []
                                      method data' [] w))) ->
            exists url,
              call_url c
              = mkURL (hostname url) (href url)
                  (searchParams url ++ [("consumer_key", consumerKey cfg);
                                        ("consumer_secret", consumerSecret cfg)])%list)
    as Hquery.
  { intros method data' Hin.
    destruct (Hshape [] method data' Hin) as (j & Hb & _).
    rewrite buildWooCommerceUrl_run in Hb.
    destruct (newURL _) as [url|]; [|discriminate].
    injection Hb as Hb. exists url. now rewrite <- Hb. }
  split; [|split; [|split]]; intros Hin.
  - destruct (Hshape _ _ _ Hin) as (j & _ & ->). now split.
  - destruct (Hshape _ _ _ Hin) as (j & _ & ->). now split.
  - split; [|split; [|exact (Hquery _ _ Hin)]];
      destruct (Hshape _ _ _ Hin) as (j & _ & ->); [reflexivity|].
    unfold fetchOptions. cbn [call_body].
    change (("POST" =? "POST")%string || ("POST" =? "PUT")%string) with true.
    rewrite andb_true_r. now destruct data.
  - split; [|split; [|exact (Hquery _ _ Hin)]];
      destruct (Hshape _ _ _ Hin) as (j & _ & ->); [reflexivity|].
    unfold fetchOptions. cbn [call_body].
    change (("PUT" =? "POST")%string || ("PUT" =? "PUT")%string) with true.
    rewrite andb_true_r. now destruct data.
Qed.

(** X3.  The URL is built outside the [try]: when the constructor throws
    for a template, the earlier attempts having failed, the request
    rejects with that error, whatever the option [useMockData] says,
    after the calls of the earlier templates and no other. *)
Theorem url_failure_rejects (cfg : Config) (endpoint : string) (params : Obj)
    (method : string) (data : Val) (options : Obj) (w : World)
    (k : nat) (e : Error) :
  (k < List.length (endpointFormats cfg))%nat ->
  (forall j, (j < k)%nat ->
     exists ej, attempt_fails newURL cfg endpoint params method data w j ej) ->
  buildWooCommerceUrl newURL cfg endpoint params (Z.of_nat k) = Throw e ->
  exists w',
    woocommerceRequest newURL cfg endpoint params method data options w
    = (Throw e, w')
    /\ new_calls w w' = attempt_calls newURL cfg endpoint params method data 0 k
    /\ List.length (new_calls w w') = k.
Proof.
  intros Hk Hfail Hb.
  rewrite woocommerceRequest_run.
  replace (List.length (endpointFormats cfg))
    with (k + (List.length (endpointFormats cfg) - k))%nat by lia.
  destruct (cascade_skips_failures newURL cfg endpoint params method data
              (useMockData_of options) (List.length (endpointFormats cfg) - k) k 0
              (logged (request_line method endpoint params) w))
    as (w' & Hlater & Hn & Hrun).
  - intros j Hj. destruct (Hfail j Hj) as (ej & rj & Hrj & He). now exists rj, ej.
  - lia.
  - destruct (List.length (endpointFormats cfg) - k)%nat as [|r] eqn:Hr; [lia|].
    rewrite Hrun. cbn [Nat.add].
    rewrite (cascade_unresolved _ cfg _ _ _ _ (useMockData_of options) r k w' e Hb).
    exists w'. split; [reflexivity|].
    destruct Hlater as (_ & _ & _ & H4). cbn [logged fetched] in H4.
    unfold new_calls. rewrite H4, skipn_length_app. now split.
Qed.

(** The third format of [API_CONFIG] is the first one again. *)
Lemma third_url_is_first (env : ProcessEnv) (endpoint : string) (params : Obj) :
  buildWooCommerceUrl newURL (API_CONFIG newURL env) endpoint params 2
  = buildWooCommerceUrl newURL (API_CONFIG newURL env) endpoint params 0.
Proof. now rewrite !buildWooCommerceUrl_run, !API_CONFIG_template. Qed.

(** X4.  With the configuration of the module, whose third format repeats
    the first, every call of a request is the call against the first
    format or the call against the second: a request that runs out of
    formats has fetched the first URL twice. *)
Theorem request_fetches_two_urls (env : ProcessEnv) (endpoint : string)
    (params : Obj) (method : string) (data : Val) (options : Obj) (w : World)
    (c : FetchCall) :
  In c (new_calls w
          (snd (woocommerceRequest newURL (API_CONFIG newURL env) endpoint params
                  method data options w))) ->
  attempt_call newURL (API_CONFIG newURL env) endpoint params method data 0 = Some c
  \/ attempt_call newURL (API_CONFIG newURL env) endpoint params method data 1
     = Some c.
Proof.
  intros Hin.
  destruct (request_shape (API_CONFIG newURL env) endpoint params method data
              options w) as (n & k & lines & Hn & _ & Hw & _ & _).
  unfold new_calls in Hin. rewrite Hw in Hin. cbn [fetched] in Hin.
  rewrite skipn_length_app in Hin.
  destruct (attempt_calls_shape newURL _ _ _ _ _ _ _ _ Hin) as (j & Hj & Hb & Hc).
  cbn [API_CONFIG endpointFormats List.length] in Hn.
  unfold attempt_call.
  destruct j as [|[|[|j]]]; [left|right|left|lia].
  - now rewrite Hb, <- Hc.
  - now rewrite Hb, <- Hc.
  - change (Z.of_nat 2) with 2 in Hb. rewrite third_url_is_first in Hb.
    change (Z.of_nat 0) with 0. now rewrite Hb, <- Hc.
Qed.


End Properties.
End RequestExtras.

(** ** Further properties of URL resolution and of the configuration *)

Module UrlExtras.
Import Js Effects Mock Client Obs Terms JsFacts MockFacts UrlFacts.

Lemma key_before_plain (k k' : string) :
  array_index k = None -> key_before k k' = false.
Proof. unfold key_before. now intros ->. Qed.

(** A key that is new and no array index goes last. *)
Lemma set_new_key (k : string) (v : Val) (o : Obj) :
  array_index k = None -> ~ In k (map fst o) -> set k v o = (o ++ [(k, v)])%list.
Proof.
  intros Hk. induction o as [|[k0 v0] rest IH]; intros Hnot; [reflexivity|].
  cbn [set app]. cbn [map fst In] in Hnot.
  destruct (String.eqb_spec k k0) as [->|Hne]; [exfalso; apply Hnot; now left|].
  rewrite (key_before_plain k k0 Hk), IH; [reflexivity|].
  intros Hin. apply Hnot. now right.
Qed.

Lemma define_new_keys (defs : list (string * Val)) :
  forall o : Obj,
    NoDup (map fst defs) ->
    (forall k, In k (map fst defs) ->
               array_index k = None /\ ~ In k (map fst o)) ->
    define o defs = (o ++ defs)%list.
Proof.
  unfold define.
  induction defs as [|[k v] defs IH]; intros o Hnd Hkeys;
    [now rewrite app_nil_r|].
  cbn [fold_left fst snd]. cbn [map fst] in Hnd, Hkeys.
  inversion Hnd as [|? ? Hk Hnd']; subst.
  destruct (Hkeys k (or_introl eq_refl)) as [Hidx Hnot].
  rewrite (set_new_key k v o Hidx Hnot), IH.
  - now rewrite <- app_assoc.
  - exact Hnd'.
  - intros k' Hin. split; [apply Hkeys; now right|].
    rewrite map_app, in_app_iff. cbn [map fst In].
    intros [H|[H|[]]].
    + apply (proj2 (Hkeys k' (or_intror Hin))). exact H.
    + subst k'. contradiction.
Qed.

Lemma allParams_plain (cfg : Config) (params : Obj) :
  plain_params params ->
  allParams cfg params
  = (("consumer_key", VStr (consumerKey cfg))
     :: ("consumer_secret", VStr (consumerSecret cfg)) :: params).
Proof.
  intros [Hnd Hkeys]. unfold allParams, literal.
  change (define [] ([("consumer_key", VStr (consumerKey cfg));
                      ("consumer_secret", VStr (consumerSecret cfg))] ++ params)%list)
    with (define [("consumer_key", VStr (consumerKey cfg));
                  ("consumer_secret", VStr (consumerSecret cfg))] params).
  rewrite define_new_keys; [reflexivity|exact Hnd|].
  intros k Hin. destruct (Hkeys k Hin) as (Hidx & Hck & Hcs).
  split; [exact Hidx|]. cbn [map fst In]. intros [H|[H|[]]]; congruence.
Qed.

Section Properties.
Variable newURL : string -> option URL.

(** X6.  For parameters whose keys are distinct, are no array indices and
    do not name a credential, the query entries come in a fixed order:
    [consumer_key], [consumer_secret], then the parameters that are
    neither [undefined] nor [null], in the order the object lists them. *)
Theorem query_order (cfg : Config) (endpoint : string) (params : Obj) (i : Z)
    (u : URL) :
  plain_params params ->
  buildWooCommerceUrl newURL cfg endpoint params i = Normal u ->
  exists url,
    u = mkURL (hostname url) (href url)
          (searchParams url
           ++ ("consumer_key", consumerKey cfg)
              :: ("consumer_secret", consumerSecret cfg)
              :: query_entries params)%list.
Proof.
  intros Hp. rewrite buildWooCommerceUrl_run.
  destruct (newURL _) as [url|]; [|discriminate].
  intros [= <-]. exists url. now rewrite (allParams_plain cfg params Hp).
Qed.

Lemma prefix_scheme_sep (c : ascii) (s : string) :
  is_letter c = true -> String.prefix "://" (String c s) = false.
Proof.
  intros H. cbn [String.prefix].
  destruct (ascii_dec ":" c) as [<-|]; [discriminate|reflexivity].
Qed.

Lemma replace_first_cons (pat by_ : string) (c : ascii) (s : string) :
  replace_first pat by_ (String c s)
  = if String.prefix pat (String c s)
    then by_ ++ drop (String.length pat) (String c s)
    else String c (replace_first pat by_ s).
Proof. reflexivity. Qed.

Lemma prefix_self (a s : string) : String.prefix a (a ++ s) = true.
Proof. apply prefix_app. now exists s. Qed.

Lemma replace_scheme_sep (by_ scheme rest : string) :
  all_letters scheme = true ->
  replace_first "://" by_ (scheme ++ "://" ++ rest) = scheme ++ by_ ++ rest.
Proof.
  induction scheme as [|c scheme IH]; intros H.
  - change ("" ++ "://" ++ rest) with (String ":" ("//" ++ rest)).
    rewrite replace_first_cons.
    change (String ":" ("//" ++ rest)) with ("://" ++ rest).
    now rewrite prefix_self.
  - cbn [all_letters] in H. apply andb_prop in H. destruct H as [Hc Hs].
    change (String c scheme ++ "://" ++ rest)
      with (String c (scheme ++ "://" ++ rest)).
    rewrite replace_first_cons, (prefix_scheme_sep c _ Hc).
    now rewrite IH.
Qed.

Lemma prefix_www_scheme (scheme rest : string) :
  all_letters scheme = true ->
  scheme <> "" ->
  String.prefix "www." (scheme ++ "://www." ++ rest) = false.
Proof.
  intros H Hne.
  destruct scheme as [|c1 s1]; [congruence|].
  cbn [String.append String.prefix].
  destruct (ascii_dec "w" c1) as [<-|]; [|reflexivity].
  destruct s1 as [|c2 s2]; [reflexivity|].
  cbn [String.append String.prefix].
  destruct (ascii_dec "w" c2) as [<-|]; [|reflexivity].
  destruct s2 as [|c3 s3]; [reflexivity|].
  cbn [String.append String.prefix].
  destruct (ascii_dec "w" c3) as [<-|]; [|reflexivity].
  destruct s3 as [|c4 s4]; [reflexivity|].
  cbn [String.append String.prefix].
  destruct (ascii_dec "." c4) as [<-|]; [|reflexivity].
  cbn [all_letters] in H. rewrite !andb_true_iff in H.
  destruct H as (_ & _ & _ & H & _). discriminate.
Qed.

Lemma remove_www_after_scheme (scheme rest : string) :
  all_letters scheme = true ->
  replace_first "www." "" (scheme ++ "://www." ++ rest) = scheme ++ "://" ++ rest.
Proof.
  induction scheme as [|c scheme IH]; intros H.
  - change ("" ++ "://www." ++ rest)
      with (String ":" (String "/" (String "/" (String "w" ("ww." ++ rest))))).
    rewrite !replace_first_cons.
    change (String "w" ("ww." ++ rest)) with ("www." ++ rest).
    rewrite prefix_self.
    reflexivity.
  - change (String c scheme ++ "://www." ++ rest)
      with (String c (scheme ++ "://www." ++ rest)).
    rewrite replace_first_cons.
    change (String c (scheme ++ "://www." ++ rest))
      with (String c scheme ++ "://www." ++ rest) at 1.
    rewrite (prefix_www_scheme (String c scheme) rest H) by discriminate.
    cbn [all_letters] in H. apply andb_prop in H. destruct H as [_ Hs].
    now rewrite (IH Hs).
Qed.

(** X7.  [getAlternativeUrls] edits the string it was given.  For a URL
    made of a scheme of letters, [://] and the rest: when it parses with
    a host that does not begin with [www.], the one alternative is the
    URL with [www.] put right after [://]; and when the URL with [www.]
    there parses with a host that begins with [www.], its one alternative
    is the URL without it.  The two branches undo each other where the
    [www.] put after [://] is the start of the host, which it is not
    when the rest begins with user information. *)
Theorem alternative_url_edits (scheme rest : string) :
  all_letters scheme = true ->
  (forall u,
      newURL (scheme ++ "://" ++ rest) = Some u ->
      startsWith "www." (hostname u) = false ->
      getAlternativeUrls newURL (scheme ++ "://" ++ rest)
      = [scheme ++ "://www." ++ rest])
  /\ (forall u,
         newURL (scheme ++ "://www." ++ rest) = Some u ->
         startsWith "www." (hostname u) = true ->
         getAlternativeUrls newURL (scheme ++ "://www." ++ rest)
         = [scheme ++ "://" ++ rest]).
Proof.
  intros Hs. split; intros u Hu Hh; unfold getAlternativeUrls.
  - replace ((scheme ++ "://" ++ rest =? "")%string) with false
      by (destruct scheme; reflexivity).
    rewrite Hu, Hh, (replace_scheme_sep "://www." scheme rest Hs).
    reflexivity.
  - replace ((scheme ++ "://www." ++ rest =? "")%string) with false
      by (destruct scheme; reflexivity).
    rewrite Hu, Hh, (remove_www_after_scheme scheme rest Hs).
    reflexivity.
Qed.

End Properties.
End UrlExtras.

(** ** Further properties of the mock-data generator *)

Module SynthesisExtras.
Import Js Effects Mock Client Obs Terms JsFacts MockFacts RunFacts.

Lemma get_set (k k' : string) (v : Val) (o : Obj) :
  get k' (set k v o) = if (k' =? k)%string then v else get k' o.
Proof.
  rewrite !get_lookup, lookup_set. now destruct (k' =? k)%string.
Qed.

Lemma toLowerCase_empty (s : string) : toLowerCase s = "" <-> s = "".
Proof. destruct s; cbn; split; congruence. Qed.


(** X9.  Every product [generateMockProduct] returns has the requested id
    and the keys of the template, in the template's order, each once; the
    product of an id without override has one more key, [fallback], at the
    end.  The template has the same 59 keys for every id. *)
Theorem product_keys (productId : Num) (w : World) :
  exists p,
    generateMockProduct productId w = (Normal p, advance 4 w)
    /\ field "id" p = VNum productId
    /\ object_keys p
       = (object_keys (VObj (template NaN "" "" "" ""))
          ++ (if num_eqb productId (Int 101) || num_eqb productId (Int 104)
              then [] else ["fallback"]))%list
    /\ List.length (object_keys (VObj (template NaN "" "" "" ""))) = 59%nat
    /\ NoDup (object_keys p).
Proof.
  eexists. split; [apply generateMockProduct_run|].
  unfold product_at. keep_number_text productId.
  destruct (num_eqb productId (Int 101)); [|destruct (num_eqb productId (Int 104))];
    (split; [vm_compute; reflexivity|]);
    (split; [vm_compute; reflexivity|]);
    (split; [vm_compute; reflexivity|]);
    apply ordered_NoDup, ordered_define, ordered_literal.
Qed.

(** X10.  The search of the collection ignores the case of the search
    term: two terms that lower-case alike give the same collection. *)
Theorem search_term_case_insensitive (endpoint : string) (params : Obj)
    (s s' : string) (w : World) :
  toLowerCase s = toLowerCase s' ->
  generateMockData endpoint (set "search" (VStr s) params) w
  = generateMockData endpoint (set "search" (VStr s') params) w.
Proof.
  intros H. unfold generateMockData.
  destruct (includes "products" endpoint); [|reflexivity].
  destruct (includes "categories" endpoint); [reflexivity|].
  destruct (test_products_id endpoint); [reflexivity|].
  rewrite !generateMockProducts_run, !get_set. cbn [String.eqb Ascii.eqb Bool.eqb].
  assert (forall l, search_filter (VStr s) l = search_filter (VStr s') l) as ->;
    [|reflexivity].
  intros l. unfold search_filter. cbn [truthy]. rewrite H.
  destruct (String.eqb_spec s "") as [->|Hs], (String.eqb_spec s' "") as [->|Hs'];
    cbn [negb]; try reflexivity.
  - symmetry in H. change (toLowerCase "") with "" in H.
    apply (proj1 (toLowerCase_empty s')) in H. contradiction.
  - change (toLowerCase "") with "" in H.
    apply (proj1 (toLowerCase_empty s)) in H. contradiction.
Qed.

End SynthesisExtras.

(** ** Product paths: printing an id and parsing it back *)

Module PathFacts.
Import Js Effects Mock Client Obs Terms JsFacts MockFacts.

Ltac read_digit :=
  cbn [read_digits];
  match goal with
  | |- context [digit_value ?c] =>
      let v := eval vm_compute in (digit_value c) in
      change (digit_value c) with v
  end;
  cbv iota beta;
  match goal with
  | |- context [?k <? 10] => change (k <? 10) with true
  end;
  cbv iota beta.

Lemma read_uint_acc (d : Decimal.uint) :
  forall a : positive,
    read_digits 10 (Some (Z.pos a)) (NilEmpty.string_of_uint d)
    = Some (Z.pos (Pos.of_uint_acc d a)).
Proof.
  induction d; intros a; cbn [NilEmpty.string_of_uint Pos.of_uint_acc];
    [reflexivity|..];
    read_digit; rewrite <- IHd; do 2 f_equal; lia.
Qed.

Lemma read_uint_zero (d : Decimal.uint) :
  read_digits 10 (Some 0) (NilEmpty.string_of_uint d)
  = Some (Z.of_N (Pos.of_uint d)).
Proof.
  induction d; cbn [NilEmpty.string_of_uint Pos.of_uint];
    [reflexivity|read_digit; exact IHd|..];
    read_digit; cbn [Z.of_N]; rewrite <- read_uint_acc; reflexivity.
Qed.

Lemma read_uint (d : Decimal.uint) :
  d <> Decimal.Nil ->
  read_digits 10 None (NilEmpty.string_of_uint d) = Some (Z.of_N (Pos.of_uint d)).
Proof.
  destruct d; intros H; [congruence|..];
    cbn [NilEmpty.string_of_uint Pos.of_uint];
    [read_digit; exact (read_uint_zero d)|..];
    read_digit; cbn [Z.of_N]; rewrite <- read_uint_acc; reflexivity.
Qed.

Lemma uint_digits (d : Decimal.uint) :
  all_digits (NilEmpty.string_of_uint d) = true.
Proof. induction d; cbn [NilEmpty.string_of_uint all_digits]; [reflexivity|..]; exact IHd. Qed.

(** [parseInt] reads back what the decimal printer wrote, as a double. *)
Lemma parseInt_uint (d : Decimal.uint) :
  d <> Decimal.Nil ->
  parseInt_string (NilEmpty.string_of_uint d)
  = to_double (Z.of_N (Pos.of_uint d)).
Proof.
  intros H.
  assert (parseInt_string (NilEmpty.string_of_uint d)
          = match read_digits 10 None (NilEmpty.string_of_uint d) with
            | Some m => to_double (1 * m)
            | None => NaN
            end) as ->.
  { destruct d; [congruence|..]; try reflexivity.
    destruct d; reflexivity. }
  rewrite (read_uint d H). f_equal. lia.
Qed.

Lemma to_double_safe (n : Z) : Z.abs n <= safe_bound -> to_double n = Int n.
Proof.
  intros H. unfold to_double.
  now rewrite (proj2 (Z.leb_le (Z.abs n) safe_bound) H).
Qed.

Lemma parseInt_show_Z (n : Z) : 0 <= n -> parseInt (VStr (show_Z n)) = to_double n.
Proof.
  intros Hn. unfold parseInt, show_Z. cbn [ToString].
  destruct n as [|p|p]; [reflexivity| |lia].
  cbn [Z.to_int NilZero.string_of_int].
  assert (Pos.to_uint p <> Decimal.Nil) as Hnil.
  { intros E. pose proof (DecimalPos.Unsigned.of_to p) as H.
    rewrite E in H. discriminate. }
  replace (NilZero.string_of_uint (Pos.to_uint p))
    with (NilEmpty.string_of_uint (Pos.to_uint p))
    by (destruct (Pos.to_uint p); [congruence|reflexivity ..]).
  now rewrite (parseInt_uint _ Hnil), DecimalPos.Unsigned.of_to.
Qed.

Lemma show_Z_digits (n : Z) :
  0 <= n -> all_digits (show_Z n) = true /\ show_Z n <> "".
Proof.
  intros Hn. unfold show_Z.
  destruct n as [|p|p]; [split; [reflexivity|discriminate]| |lia].
  cbn [Z.to_int NilZero.string_of_int].
  assert (Pos.to_uint p <> Decimal.Nil) as Hnil.
  { intros E. pose proof (DecimalPos.Unsigned.of_to p) as H.
    rewrite E in H. discriminate. }
  destruct (Pos.to_uint p) eqn:E; [congruence|..];
    (split; [apply (uint_digits (_ u))|discriminate]).
Qed.

Lemma digit_not (c d : ascii) : is_digit c = true -> is_digit d = false -> c <> d.
Proof. intros Hc Hd ->. congruence. Qed.

Lemma split_digits (s : string) :
  all_digits s = true -> split_on "/" s = [s].
Proof.
  induction s as [|c s IH]; intros H; [reflexivity|].
  cbn [all_digits] in H. apply andb_prop in H. destruct H as [Hc Hs].
  cbn [split_on].
  destruct (Ascii.eqb_spec c "/") as [->|_]; [discriminate|].
  now rewrite (IH Hs).
Qed.

Lemma no_categories_in_digits (s : string) :
  all_digits s = true -> includes "categories" s = false.
Proof.
  induction s as [|c s IH]; intros H; [reflexivity|].
  cbn [all_digits] in H. apply andb_prop in H. destruct H as [Hc Hs].
  rewrite includes_eq, (IH Hs). cbn [String.prefix].
  destruct (ascii_dec "c" c) as [<-|_]; [discriminate|reflexivity].
Qed.

Lemma includes_cons_false (sub : string) (c : ascii) (s : string) :
  String.prefix sub (String c s) = false ->
  includes sub (String c s) = includes sub s.
Proof. intros H. now rewrite includes_eq, H. Qed.

(** The path ["products/" ++ n], [n] not negative and written in decimal,
    is answered with the product of the double nearest to [n]. *)
Lemma product_path (n : Z) (params : Obj) (w : World) :
  0 <= n ->
  generateMockData ("products/" ++ show_Z n) params w
  = generateMockProduct (to_double n) w.
Proof.
  intros Hn. destruct (show_Z_digits n Hn) as [Hd Hne].
  unfold generateMockData.
  assert (includes "products" ("products/" ++ show_Z n) = true) as ->.
  { apply includes_contains. now exists "", ("/" ++ show_Z n). }
  assert (includes "categories" ("products/" ++ show_Z n) = false) as ->.
  { change ("products/" ++ show_Z n)
      with (String "p" (String "r" (String "o" (String "d" (String "u"
             (String "c" (String "t" (String "s" (String "/" (show_Z n)))))))))).
    do 9 (rewrite includes_cons_false by reflexivity).
    exact (no_categories_in_digits _ Hd). }
  assert (test_products_id ("products/" ++ show_Z n) = true) as ->.
  { destruct (show_Z n) as [|c s] eqn:E; [congruence|].
    cbn [all_digits] in Hd. apply andb_prop in Hd. destruct Hd as [Hc _].
    change ("products/" ++ String c s)
      with (String "p" (String "r" (String "o" (String "d" (String "u"
             (String "c" (String "t" (String "s" (String "/" (String c s)))))))))).
    cbn [test_products_id String.prefix drop]. 
    cbn. rewrite Hc. reflexivity. }
  assert (split_on "/" ("products/" ++ show_Z n) = ["products"; show_Z n]) as ->.
  { change ("products/" ++ show_Z n)
      with (String "p" (String "r" (String "o" (String "d" (String "u"
             (String "c" (String "t" (String "s" (String "/" (show_Z n)))))))))).
    cbn [split_on]. rewrite (split_digits _ Hd). reflexivity. }
  cbn [pop rev app]. now rewrite (parseInt_show_Z n Hn).
Qed.

(** X11.  The path of a product carries its id, as far as integers are
    exact: for every id [n] from 0 to [2^53], the generator answers the
    path ["products/" ++ String(n)] with the product
    [generateMockProduct] makes for [n].  (Past [2^53] the product is
    that of the double nearest to the digits, which need not be [n].) *)
Theorem product_path_round_trip (n : Z) (params : Obj) (w : World) :
  0 <= n <= safe_bound ->
  generateMockData ("products/" ++ ToString (num n)) params w
  = generateMockProduct (Int n) w.
Proof.
  intros [Hn Hb].
  cbn [ToString num show_num].
  rewrite (proj2 (Z.leb_le (Z.abs n) safe_bound) ltac:(lia)).
  rewrite (product_path n params w Hn), to_double_safe; [reflexivity|lia].
Qed.

(** Past [2^53] the id is rounded: the path of [2^53 + 1] is answered
    with the product whose id is [2^53]. *)
Lemma product_path_rounds (params : Obj) (w : World) :
  generateMockData "products/9007199254740993" params w
  = generateMockProduct (Int 9007199254740992) w.
Proof. exact (product_path 9007199254740993 params w ltac:(lia)). Qed.

End PathFacts.

(** ** The calculator component *)

Module CalculatorFacts.
Import Js Effects Mock Client Obs Terms JsFacts MockFacts UrlFacts CascadeFacts.
Import Calculator.

Section Component.
Variable newURL : string -> option URL.
Variable env : ProcessEnv.

(** [loadFenceTypes], case by case. *)
Lemma loadFenceTypes_run (s : State) (w : World) :
  loadFenceTypes newURL env s w
  = match api_get newURL (API_CONFIG newURL env) "products/categories"
            [("parent", num 0); ("per_page", num 20)] w with
    | (Normal categories, w1) =>
        match filter_call isMainFenceType categories with
        | Normal mainFenceTypes =>
            (Normal (setLoading false
                       (setFenceTypes mainFenceTypes
                          (setError VNull (setLoading true s)))), w1)
        | Throw err =>
            (Normal (setLoading false
                       (setError (VStr load_failed)
                          (setError VNull (setLoading true s)))),
             logged (mkLog "error" "Error loading fence types:" (ArgErr err)) w1)
        end
    | (Throw err, w1) =>
        (Normal (setLoading false
                   (setError (VStr load_failed)
                      (setError VNull (setLoading true s)))),
         logged (mkLog "error" "Error loading fence types:" (ArgErr err)) w1)
    end.
Proof.
  unfold loadFenceTypes, bind at 1, try_catch, bind at 1.
  destruct (api_get _ _ _ _ w) as [[categories|err] w1]; [|reflexivity].
  unfold bind at 1, lift.
  destruct (filter_call isMainFenceType categories); reflexivity.
Qed.

Lemma load_outcome_fields (s : State) (w : World) :
  exists s' w',
    loadFenceTypes newURL env s w = (Normal s', w')
    /\ activeStep s' = activeStep s
    /\ selectedFenceType s' = selectedFenceType s.
Proof.
  rewrite loadFenceTypes_run.
  destruct (api_get _ _ _ _ w) as [[categories|err] w1];
    [destruct (filter_call isMainFenceType categories)|];
    do 2 eexists; (split; [reflexivity|]); now split.
Qed.

(** When every attempt fails, the request of the categories falls back
    on the category list. *)
Lemma categories_fallback (w : World) :
  (forall j, (j < 3)%nat ->
     exists e, attempt_fails newURL (API_CONFIG newURL env) "products/categories"
                 [("parent", num 0); ("per_page", num 20)] "GET" VNull w j e) ->
  exists w1,
    api_get newURL (API_CONFIG newURL env) "products/categories"
      [("parent", num 0); ("per_page", num 20)] w
    = (Normal generateMockCategories, w1).
Proof.
  intros Hfail. unfold api_get.
  destruct (Request.request_skips_failures newURL (API_CONFIG newURL env)
              "products/categories" [("parent", num 0); ("per_page", num 20)]
              "GET" VNull [] w 2 1 eq_refl ltac:(lia))
    as (w' & Hlater & Hn & ->).
  - intros j Hj. apply Hfail. lia.
  - destruct (Hfail 2%nat ltac:(lia)) as (e & r & Hr & He).
    unfold attempt_result, attempt_result_at in Hr.
    destruct (attempt_call _ _ _ _ _ _ 2) as [c|] eqn:Hc; [|discriminate].
    injection Hr as <-.
    destruct Hlater as (_ & H2 & _ & _). rewrite <- H2, <- Hn in He.
    rewrite (cascade_failure _ _ _ _ _ _ _ _ _ _ c e Hc He).
    eexists. reflexivity.
Qed.

(** When a template answers, the templates before it having failed, the
    request of the categories returns the answer. *)
Lemma categories_answer (w : World) (i : nat) (categories : Val) :
  (i < 3)%nat ->
  (forall j, (j < i)%nat ->
     exists e, attempt_fails newURL (API_CONFIG newURL env) "products/categories"
                 [("parent", num 0); ("per_page", num 20)] "GET" VNull w j e) ->
  attempt_succeeds newURL (API_CONFIG newURL env) "products/categories"
    [("parent", num 0); ("per_page", num 20)] "GET" VNull w i categories ->
  exists w1,
    api_get newURL (API_CONFIG newURL env) "products/categories"
      [("parent", num 0); ("per_page", num 20)] w
    = (Normal categories, w1).
Proof.
  intros Hi Hfail (ri & Hri & Hbody). unfold api_get.
  destruct (Request.request_skips_failures newURL (API_CONFIG newURL env)
              "products/categories" [("parent", num 0); ("per_page", num 20)]
              "GET" VNull [] w i (3 - i))
    as (w' & Hlater & Hn & ->);
    [cbn [API_CONFIG endpointFormats List.length]; lia|lia|exact Hfail|].
  destruct (3 - i)%nat as [|r] eqn:Hr; [lia|].
  unfold attempt_result, attempt_result_at in Hri.
  destruct (attempt_call _ _ _ _ _ _ i) as [c|] eqn:Hc; [|discriminate].
  injection Hri as <-.
  destruct Hlater as (_ & H2 & _ & _). rewrite <- H2, <- Hn in Hbody.
  rewrite (cascade_success _ _ _ _ _ _ _ _ _ _ c categories Hc Hbody).
  eexists. reflexivity.
Qed.

(** X12.  When the backend answers the request of the categories, one
    template succeeding after those before it failed, the effect ends
    with the spinner off and the step, the selection, the sections and
    the quote as they were.  Where the filter runs through on the answer,
    its result becomes the fence types and no error is shown; where it
    throws, as it does on every answer that is not an array, the fixed
    message is shown, the fence types stay what they were and the failure
    is the last line on the console. *)
Theorem answered_fence_types (s : State) (w : World) (i : nat) (categories : Val) :
  (i < 3)%nat ->
  (forall j, (j < i)%nat ->
     exists e, attempt_fails newURL (API_CONFIG newURL env) "products/categories"
                 [("parent", num 0); ("per_page", num 20)] "GET" VNull w j e) ->
  attempt_succeeds newURL (API_CONFIG newURL env) "products/categories"
    [("parent", num 0); ("per_page", num 20)] "GET" VNull w i categories ->
  exists s' w',
    loadFenceTypes newURL env s w = (Normal s', w')
    /\ loading s' = false
    /\ activeStep s' = activeStep s
    /\ selectedFenceType s' = selectedFenceType s
    /\ fenceSections s' = fenceSections s
    /\ quoteDetails s' = quoteDetails s
    /\ (forall kept,
          filter_call isMainFenceType categories = Normal kept ->
          fenceTypes s' = kept /\ error s' = VNull)
    /\ (forall err,
          filter_call isMainFenceType categories = Throw err ->
          fenceTypes s' = fenceTypes s
          /\ error s' = VStr load_failed
          /\ last (console w') (mkLog "" "" ArgNone)
             = mkLog "error" "Error loading fence types:" (ArgErr err))
    /\ ((forall items, categories <> VArr items) -> error s' = VStr load_failed).
Proof.
  intros Hi Hfail Hok. rewrite loadFenceTypes_run.
  destruct (categories_answer w i categories Hi Hfail Hok) as [w1 ->].
  destruct (filter_call isMainFenceType categories) as [kept|err] eqn:Hf.
  - do 2 eexists. split; [reflexivity|]. do 5 (split; [reflexivity|]).
    split; [|split].
    + intros kept' [= <-]. now split.
    + intros err [=].
    + intros Hn. unfold filter_call in Hf.
      destruct categories as [| | | | |items|]; try discriminate.
      now destruct (Hn items).
  - do 2 eexists. split; [reflexivity|]. do 5 (split; [reflexivity|]).
    split; [|split].
    + intros kept [=].
    + intros err' [= <-]. repeat split. cbn [logged console]. apply last_last.
    + reflexivity.
Qed.

(** X13.  With the backend out of reach, every attempt failing, the
    component still gets its fence types: the four main categories of the
    fallback list, and no error. *)
Theorem offline_fence_types (s : State) (w : World) :
  (forall j, (j < 3)%nat ->
     exists e, attempt_fails newURL (API_CONFIG newURL env) "products/categories"
                 [("parent", num 0); ("per_page", num 20)] "GET" VNull w j e) ->
  exists s' w',
    loadFenceTypes newURL env s w = (Normal s', w')
    /\ fenceTypes s' = VArr main_categories
    /\ error s' = VNull
    /\ loading s' = false.
Proof.
  intros Hfail. rewrite loadFenceTypes_run.
  destruct (categories_fallback w Hfail) as [w1 ->].
  change (filter_call isMainFenceType generateMockCategories)
    with (Normal (VArr main_categories)).
  do 2 eexists. split; [reflexivity|]. now repeat split.
Qed.

(** X14.  Whatever the user does and however the loading goes, the step
    stays one of the three, and the component is past the first step only
    with a fence type selected. *)
Theorem stepper_invariant (s : State) :
  reachable newURL env s ->
  0 <= activeStep s <= 2
  /\ (activeStep s <> 0 -> truthy (selectedFenceType s) = true).
Proof.
  induction 1 as [|s s' ev _ IH Hd| s _ IH |s s' w w' _ IH Hl].
  - cbn. split; [lia|congruence].
  - destruct IH as [Hrange Hsel]. unfold dispatch in Hd.
    destruct (loading s); [discriminate|].
    destruct ev as [| |value].
    + destruct (Z.eqb_spec (activeStep s) 0); [discriminate|].
      injection Hd as <-. cbn. split; [lia|]. intros _. now apply Hsel.
    + destruct (Z.eqb_spec (activeStep s) 0) as [H0|H0]; cbn [andb] in Hd.
      * destruct (truthy (selectedFenceType s)) eqn:Ht; [|discriminate].
        cbn [negb] in Hd. rewrite H0 in Hd. cbn in Hd.
        injection Hd as <-. cbn. split; [lia|]. intros _. exact Ht.
      * change last_step with 2 in Hd.
        destruct (Z.eqb_spec (activeStep s) 2); injection Hd as <-; cbn.
        -- split; [lia|congruence].
        -- split; [lia|]. intros _. now apply Hsel.
    + destruct (Z.eqb_spec (activeStep s) 0) as [H0|]; [|discriminate].
      injection Hd as <-. cbn. split; [lia|]. intros H. contradiction.
  - exact IH.
  - destruct (load_outcome_fields s w) as (s1 & w1 & Hrun & Hstep & Hsel').
    rewrite Hrun in Hl. injection Hl as <- _.
    rewrite Hstep, Hsel'. exact IH.
Qed.

End Component.
End CalculatorFacts.

(** ** The product utilities *)

Module UtilsFacts.
Import Js Effects Mock Client Obs Terms JsFacts MockFacts SynthesisExtras.
Import Calculator ProductUtils.
Local Open Scope js_scope.

Lemma filter_c_true (f : Val -> Completion bool) (items : list Val) :
  (forall x, In x items -> f x = Normal true) -> filter_c f items = Normal items.
Proof.
  induction items as [|x items IH]; intros H; [reflexivity|].
  cbn [filter_c]. rewrite (H x (or_introl eq_refl)). cbn [bind_c].
  rewrite IH; [reflexivity|]. intros y Hy. apply H. now right.
Qed.

Lemma filter_c_ext (f g : Val -> Completion bool) (items : list Val) :
  (forall x, f x = g x) -> filter_c f items = filter_c g items.
Proof.
  intros H. induction items as [|x items IH]; [reflexivity|].
  cbn [filter_c]. now rewrite H, IH.
Qed.

Lemma same_value_zero_string (s : string) (y : Val) :
  same_value_zero (VStr s) y = true <-> y = VStr s.
Proof.
  destruct y; cbn; try (split; [discriminate|congruence]).
  destruct (String.eqb_spec s s0) as [->|H]; split; congruence.
Qed.

Lemma dedupe_strings (values : list Val) :
  Forall (fun v => exists s, v = VStr s) values ->
  (forall v, In v (dedupe values) <-> In v values) /\ NoDup (dedupe values).
Proof.
  induction 1 as [|x values [s ->] _ [IHin IHnd]]; cbn [dedupe].
  - split; [tauto|constructor].
  - split.
    + intros v. cbn [In]. rewrite filter_In, IHin.
      destruct (same_value_zero (VStr s) v) eqn:E.
      * apply same_value_zero_string in E. subst v. cbn. intuition congruence.
      * cbn. intuition.
    + constructor.
      * rewrite filter_In. intros [_ H].
        rewrite (proj2 (same_value_zero_string s (VStr s)) eq_refl) in H.
        discriminate.
      * now apply NoDup_filter.
Qed.

Lemma insert_sorted_In (x v : Val) (l : list Val) :
  In v (insert_sorted x l) <-> v = x \/ In v l.
Proof.
  induction l as [|y l IH]; cbn [insert_sorted In]; [intuition|].
  destruct (sort_before x y); cbn [In]; [intuition|].
  rewrite IH. intuition.
Qed.

Lemma insert_sorted_NoDup (x : Val) (l : list Val) :
  ~ In x l -> NoDup l -> NoDup (insert_sorted x l).
Proof.
  induction l as [|y l IH]; cbn [insert_sorted]; intros Hx Hnd.
  - constructor; [intros []|constructor].
  - destruct (sort_before x y); [now constructor|].
    inversion Hnd as [|? ? Hy Hl]; subst. constructor.
    + rewrite insert_sorted_In. intros [->|H]; [apply Hx; now left|contradiction].
    + apply IH; [|exact Hl]. intros H. apply Hx. now right.
Qed.

Lemma sort_before_total (x y : Val) :
  sort_before x y = false -> sort_before y x = true.
Proof.
  unfold sort_before. intros H.
  destruct (String.leb_total (ToString x) (ToString y)); congruence.
Qed.

Lemma insert_sorted_Sorted (x : Val) (l : list Val) :
  Sorted (fun a b => sort_before a b = true) l ->
  Sorted (fun a b => sort_before a b = true) (insert_sorted x l).
Proof.
  induction l as [|y l IH]; cbn [insert_sorted]; intros Hs.
  - repeat constructor.
  - destruct (sort_before x y) eqn:E.
    + constructor; [exact Hs|now constructor].
    + inversion Hs as [|? ? Hl Hhd]; subst.
      constructor; [now apply IH|].
      destruct l as [|z l]; cbn [insert_sorted].
      * constructor. now apply sort_before_total.
      * destruct (sort_before x z).
        -- constructor. now apply sort_before_total.
        -- inversion Hhd; subst. now constructor.
Qed.

Lemma sort_strings (values : list Val) :
  Forall (fun v => exists s, v = VStr s) values ->
  default_sort values = fold_right insert_sorted [] values.
Proof.
  intros H. unfold default_sort.
  assert (filter (fun v => negb (is_undefined v)) values = values
          /\ filter is_undefined values = []) as [-> ->].
  { induction H as [|x values [s ->] _ [IH1 IH2]]; [now split|].
    cbn [filter is_undefined negb]. now rewrite IH1, IH2. }
  apply app_nil_r.
Qed.

Lemma fold_insert_sorted (values : list Val) :
  NoDup values ->
  (forall v, In v (fold_right insert_sorted [] values) <-> In v values)
  /\ NoDup (fold_right insert_sorted [] values)
  /\ Sorted (fun a b => sort_before a b = true)
            (fold_right insert_sorted [] values).
Proof.
  induction 1 as [|x values Hx _ (IHin & IHnd & IHs)]; cbn [fold_right].
  - repeat split; try tauto; constructor.
  - split; [|split].
    + intros v. rewrite insert_sorted_In, IHin. cbn [In]. intuition.
    + apply insert_sorted_NoDup; [now rewrite IHin|exact IHnd].
    + now apply insert_sorted_Sorted.
Qed.

Lemma strictly_before (a b : string) :
  (a <=? b)%string = true -> a <> b -> (a <? b)%string = true.
Proof.
  unfold String.leb, String.ltb.
  destruct (a ?= b)%string eqn:E; try discriminate; [|reflexivity].
  intros _ H. apply String.compare_eq_iff in E. contradiction.
Qed.

Lemma sorted_strictly (values : list Val) :
  Forall (fun v => exists s, v = VStr s) values ->
  NoDup values ->
  Sorted (fun a b => sort_before a b = true) values ->
  Sorted (fun a b => (ToString a <? ToString b)%string = true) values.
Proof.
  induction 1 as [|x values [s ->] Hall IH]; intros Hnd Hs; [constructor|].
  inversion Hnd as [|? ? Hx Hnd']; subst.
  inversion Hs as [|? ? Hs' Hhd]; subst.
  constructor; [now apply IH|].
  destruct Hhd as [|y l Hxy]; constructor.
  inversion Hall as [|? ? [t ->] _]; subst.
  apply strictly_before; [exact Hxy|].
  cbn [ToString]. intros ->. apply Hx. now left.
Qed.

Section Utils.
Variable price_below : Val -> Val -> bool.
Variable price_above : Val -> Val -> bool.
Variable above_zero : Val -> bool.
Variable numeric_sort : list Val -> Completion (list Val).

(** X15.  Without products there is nothing to do: for anything that is
    not an array, and for the empty array, both utilities return the
    empty array, whatever the filters, the attribute and the options. *)
Theorem utilities_without_products (products : Val) (filters : Obj)
    (attributeName : string) (options : Obj) :
  (forall x items, products <> VArr (x :: items)) ->
  filterProducts price_below price_above above_zero products filters = Normal (VArr [])
  /\ (truthy (get "numericSort" options) = false ->
      getUniqueAttributeValues numeric_sort products attributeName options = Normal (VArr [])).
Proof using Type.
  intros H.
  destruct products as [| | | | |items|]; try (split; reflexivity).
  destruct items as [|x items]; [|now destruct (H x items)].
  split; [reflexivity|]. intros Hn.
  unfold ProductUtils.getUniqueAttributeValues. cbn [flat_map_c bind_c dedupe].
  destruct (get "numericSort" options); try reflexivity; cbn [truthy] in Hn |- *;
    try rewrite Hn; try reflexivity; discriminate.
Qed.

(** X16.  With none of its eight keys set, the filter keeps every
    product, in order, without looking at any: [null] entries included. *)
Theorem no_filter_keeps_all (items : list Val) (filters : Obj) :
  (forall k, In k filter_keys -> get k filters = VUndefined) ->
  filterProducts price_below price_above above_zero (VArr items) filters = Normal (VArr items).
Proof using Type.
  intros H. unfold ProductUtils.filterProducts.
  rewrite filter_c_true; [reflexivity|].
  intros x _. unfold ProductUtils.keeps.
  rewrite (H "type"), (H "minPrice"), (H "maxPrice"), (H "height"), (H "width"),
          (H "material"), (H "search"), (H "inStock")
    by (cbn; repeat (first [left; reflexivity | right])).
  reflexivity.
Qed.

(** X17.  A [type] filter that is set to something other than a string
    makes the filter throw a [TypeError] as soon as there is a product to
    look at. *)
Theorem type_filter_must_be_string (x : Val) (items : list Val) (filters : Obj) :
  get "type" filters <> VUndefined ->
  (forall s, get "type" filters <> VStr s) ->
  exists e,
    filterProducts price_below price_above above_zero (VArr (x :: items)) filters = Throw e
    /\ err_name e = "TypeError".
Proof using Type.
  intros Hset Hstr. unfold ProductUtils.filterProducts. cbn [filter_c].
  assert (exists e, keeps price_below price_above above_zero filters x = Throw e /\ err_name e = "TypeError")
    as (e & -> & He).
  { unfold ProductUtils.keeps. cbn [all_pass]. unfold when_set, type_filter.
    destruct (get "type" filters) as [| |b|n|s|l|o];
      [congruence| | | |now destruct (Hstr s)| |];
      eexists; split; reflexivity. }
  exists e. now split.
Qed.

(** X18.  The [type] and [search] filters ignore the case of their term:
    two terms that lower-case alike keep the same products. *)
Theorem filter_terms_case_insensitive (products : Val) (filters : Obj)
    (k s s' : string) :
  k = "type" \/ k = "search" ->
  toLowerCase s = toLowerCase s' ->
  filterProducts price_below price_above above_zero products (set k (VStr s) filters)
  = filterProducts price_below price_above above_zero products (set k (VStr s') filters).
Proof using Type.
  intros Hk H. unfold ProductUtils.filterProducts.
  destruct products; try reflexivity.
  rewrite (filter_c_ext (keeps price_below price_above above_zero (set k (VStr s) filters))
                        (keeps price_below price_above above_zero (set k (VStr s') filters))); [reflexivity|].
  intros x. unfold ProductUtils.keeps.
  assert (truthy (VStr s) = truthy (VStr s')) as Ht.
  { cbn [truthy].
    destruct (String.eqb_spec s "") as [->|Hs], (String.eqb_spec s' "") as [->|Hs'];
      try reflexivity; exfalso.
    - symmetry in H. change (toLowerCase "") with "" in H.
      apply (proj1 (toLowerCase_empty s')) in H. contradiction.
    - change (toLowerCase "") with "" in H.
      apply (proj1 (toLowerCase_empty s)) in H. contradiction. }
  destruct Hk as [-> | ->]; rewrite !get_set; cbn [String.eqb Ascii.eqb Bool.eqb].
  - unfold when_set at 1 5. cbn [is_undefined].
    unfold type_filter. cbn [toLowerCase_call bind_c]. now rewrite H.
  - unfold when_set at 5 10. cbn [is_undefined].
    unfold search_term_filter. cbn [toLowerCase_call bind_c]. now rewrite H, Ht.
Qed.

(** X19.  The products the generator makes are in stock as far as the
    filter is concerned: whatever [inStock] is set to, a synthesized
    product is kept. *)
Theorem synthesized_products_in_stock (productId : Num) (w : World) (inStock : Val) :
  exists p,
    generateMockProduct productId w = (Normal p, advance 4 w)
    /\ filterProducts price_below price_above above_zero (VArr [p])
         [("inStock", inStock)]
       = Normal (VArr [p]).
Proof using Type.
  eexists. split; [apply generateMockProduct_run|].
  unfold product_at. keep_number_text productId.
  destruct (num_eqb productId (Int 101)); [|destruct (num_eqb productId (Int 104))];
    destruct inStock as [| |[|]|[|[| |]|[|]]|[|]| |]; vm_compute; reflexivity.
Qed.

(** X20.  The attribute values come back unique and sorted: when the
    values collected from the products are strings and no numeric sort is
    asked for, the result holds each collected value once, and nothing
    else, in strictly ascending order of the strings. *)
Theorem unique_values_sorted (items : list Val) (attributeName : string)
    (options : Obj) (allValues : list Val) :
  flat_map_c (attribute_values attributeName) items = Normal allValues ->
  Forall (fun v => exists s, v = VStr s) allValues ->
  truthy (get "numericSort" options) = false ->
  exists out,
    getUniqueAttributeValues numeric_sort (VArr items) attributeName options
    = Normal (VArr out)
    /\ Sorted (fun a b => (ToString a <? ToString b)%string = true) out
    /\ NoDup out
    /\ forall v, In v out <-> In v allValues.
Proof using Type.
  intros Hall Hstr Hn.
  destruct (dedupe_strings allValues Hstr) as [Hin Hnd].
  assert (Forall (fun v => exists s, v = VStr s) (dedupe allValues)) as Hstr'.
  { rewrite Forall_forall in *. intros v Hv. apply Hstr. now apply Hin. }
  destruct (fold_insert_sorted (dedupe allValues) Hnd) as (Hin' & Hnd' & Hs).
  exists (default_sort (dedupe allValues)).
  rewrite (sort_strings _ Hstr').
  split; [|split; [|split]].
  - unfold ProductUtils.getUniqueAttributeValues. rewrite Hall. cbn [bind_c].
    rewrite (sort_strings _ Hstr').
    cbv zeta.
    replace (truthy match get "numericSort" options with
                    | VUndefined => VBool false
                    | v => v
                    end) with false
      by (destruct (get "numericSort" options); first [reflexivity | now rewrite Hn]).
    reflexivity.
  - apply sorted_strictly; [|exact Hnd'|exact Hs].
    rewrite Forall_forall in *. intros v Hv. apply Hstr'. now apply Hin'.
  - exact Hnd'.
  - intros v. now rewrite Hin', Hin.
Qed.

End Utils.
End UtilsFacts.

(** * Sample runs of the further properties *)

Module Samples.
Import Js Effects Mock Client Obs Terms Calculator ProductUtils.

Local Notation "'cfg0'" := (API_CONFIG plain_URL env_unset).
Local Notation "'w_down'" := (world_over net_down).
Local Notation "'w_busy'" :=
  (world_over (net_unavailable_then 1 generateMockCategories)).

(** X2: the one call of a [post] without data that is answered at once:
    its body is the empty object. *)
Lemma client_calls_witness :
  exists c,
    In c (new_calls (world_over (net_unavailable_then 0 VNull))
            (snd (api_post plain_URL cfg0 "orders" VUndefined
                    (world_over (net_unavailable_then 0 VNull)))))
    /\ call_method c = "POST"
    /\ call_body c = Some (VObj []).
Proof.
  eexists. split; [vm_compute; left; reflexivity|].
  match goal with
  | |- call_method ?c = _ /\ _ =>
      destruct (RequestExtras.client_calls plain_URL cfg0 "orders" [] VUndefined
                  (world_over (net_unavailable_then 0 VNull)) c)
        as (_ & _ & Hpost & _)
  end.
  destruct (Hpost ltac:(vm_compute; left; reflexivity)) as (Hm & Hb & _).
  split; [exact Hm|exact Hb].
Defined.

(** X3: a base URL without a scheme; the constructor throws for the first
    template and the request rejects without a call. *)
Lemma url_failure_rejects_witness :
  (0 < List.length (endpointFormats (API_CONFIG plain_URL env_no_scheme)))%nat
  /\ (exists e,
        buildWooCommerceUrl plain_URL (API_CONFIG plain_URL env_no_scheme)
          "products" [] 0 = Throw e
        /\ exists w',
             woocommerceRequest plain_URL (API_CONFIG plain_URL env_no_scheme)
               "products" [] "GET" VNull [] w_down = (Throw e, w')
             /\ List.length (new_calls w_down w') = 0%nat).
Proof.
  split; [vm_compute; lia|].
  eexists. split; [vm_compute; reflexivity|].
  match goal with
  | |- exists w', _ = (Throw ?e, w') /\ _ =>
      destruct (RequestExtras.url_failure_rejects plain_URL
                  (API_CONFIG plain_URL env_no_scheme) "products" [] "GET" VNull []
                  w_down 0 e ltac:(vm_compute; lia)
                  ltac:(intros j Hj; exfalso; lia)
                  ltac:(vm_compute; reflexivity))
        as (w' & Hr & _ & Hlen)
  end.
  exists w'. split; [exact Hr|exact Hlen].
Defined.

(** X4: the backend down, the second call of the request is the call of
    the first format or of the second. *)
Lemma request_fetches_two_urls_witness :
  exists c,
    nth_error (new_calls w_down
                 (snd (woocommerceRequest plain_URL cfg0 "products" [] "GET" VNull []
                         w_down))) 2 = Some c
    /\ (attempt_call plain_URL cfg0 "products" [] "GET" VNull 0 = Some c
        \/ attempt_call plain_URL cfg0 "products" [] "GET" VNull 1 = Some c).
Proof.
  eexists. split; [vm_compute; reflexivity|].
  apply (RequestExtras.request_fetches_two_urls plain_URL env_unset "products" []
           "GET" VNull [] w_down).
  vm_compute. right. right. left. reflexivity.
Defined.

(** X6: three parameters, one of them [null]. *)
Lemma query_order_witness :
  plain_params [("per_page", num 20); ("skip", VNull); ("page", num 2)]
  /\ exists u url,
       buildWooCommerceUrl plain_URL cfg0 "products"
         [("per_page", num 20); ("skip", VNull); ("page", num 2)] 0 = Normal u
       /\ u = mkURL (hostname url) (href url)
                (searchParams url
                 ++ [("consumer_key", consumerKey cfg0);
                     ("consumer_secret", consumerSecret cfg0);
                     ("per_page", "20"); ("page", "2")])%list.
Proof.
  assert (plain_params [("per_page", num 20); ("skip", VNull); ("page", num 2)])
    as Hp.
  { split.
    - repeat constructor; cbn; intuition discriminate.
    - intros k [<- | [<- | [<- | []]]]; repeat split; try discriminate. }
  split; [exact Hp|].
  eexists.
  match goal with
  | |- exists url, _ = Normal ?u /\ _ =>
      destruct (UrlExtras.query_order plain_URL cfg0 "products"
                  [("per_page", num 20); ("skip", VNull); ("page", num 2)] 0 u Hp
                  ltac:(vm_compute; reflexivity))
        as [url Hu]
  end.
  exists url. split; [vm_compute; reflexivity|exact Hu].
Defined.

(** X7: [https://shop.example.org/x] and its [www.] form. *)
Lemma alternative_url_edits_witness :
  all_letters "https" = true
  /\ getAlternativeUrls plain_URL "https://shop.example.org/x"
     = ["https://www.shop.example.org/x"]
  /\ getAlternativeUrls plain_URL "https://www.shop.example.org/x"
     = ["https://shop.example.org/x"].
Proof.
  split; [reflexivity|].
  destruct (UrlExtras.alternative_url_edits plain_URL "https" "shop.example.org/x"
              eq_refl) as [Hadd Hdrop].
  split.
  - exact (Hadd (mkURL "shop.example.org" "https://shop.example.org/x" [])
             eq_refl eq_refl).
  - exact (Hdrop (mkURL "www.shop.example.org" "https://www.shop.example.org/x" [])
             eq_refl eq_refl).
Defined.

(** X10: [VINYL] and [vinyl] find the same products. *)
Lemma search_term_case_insensitive_witness :
  toLowerCase "VINYL" = toLowerCase "vinyl"
  /\ generateMockData "products" (set "search" (VStr "VINYL") []) w_down
     = generateMockData "products" (set "search" (VStr "vinyl") []) w_down.
Proof.
  split; [reflexivity|].
  apply SynthesisExtras.search_term_case_insensitive. reflexivity.
Defined.

(** X11: the path [products/104]. *)
Lemma product_path_round_trip_witness :
  0 <= 104 <= safe_bound
  /\ generateMockData "products/104" [] w_down
     = generateMockProduct (Int 104) w_down.
Proof.
  assert (0 <= 104 <= safe_bound) as H by (unfold safe_bound; lia).
  split; [exact H|].
  exact (PathFacts.product_path_round_trip 104 [] w_down H).
Defined.

(** X12: the first template answers 503, the second answers with the
    list of categories; the component shows the four main ones. *)
Lemma answered_fence_types_witness :
  (1 < 3)%nat
  /\ (forall j, (j < 1)%nat ->
        exists e, attempt_fails plain_URL cfg0 "products/categories"
                    [("parent", num 0); ("per_page", num 20)] "GET" VNull
                    w_busy j e)
  /\ attempt_succeeds plain_URL cfg0 "products/categories"
       [("parent", num 0); ("per_page", num 20)] "GET" VNull w_busy 1
       generateMockCategories
  /\ exists s' w',
       loadFenceTypes plain_URL env_unset initialState w_busy = (Normal s', w')
       /\ loading s' = false
       /\ fenceTypes s' = VArr main_categories
       /\ error s' = VNull.
Proof.
  assert (forall j, (j < 1)%nat ->
            exists e, attempt_fails plain_URL cfg0 "products/categories"
                        [("parent", num 0); ("per_page", num 20)] "GET" VNull
                        w_busy j e) as Hfail.
  { intros j Hj. destruct j as [|j]; [|exfalso; lia].
    eexists. eexists. split; vm_compute; reflexivity. }
  assert (attempt_succeeds plain_URL cfg0 "products/categories"
            [("parent", num 0); ("per_page", num 20)] "GET" VNull w_busy 1
            generateMockCategories) as Hok.
  { eexists. split; vm_compute; reflexivity. }
  split; [lia|]. split; [exact Hfail|]. split; [exact Hok|].
  destruct (CalculatorFacts.answered_fence_types plain_URL env_unset initialState
              w_busy 1 generateMockCategories ltac:(lia) Hfail Hok)
    as (s' & w' & Hrun & Hload & _ & _ & _ & _ & Hkept & _).
  exists s', w'. split; [exact Hrun|]. split; [exact Hload|].
  exact (Hkept (VArr main_categories) eq_refl).
Defined.

(** X13: the component mounted with every [fetch] rejected. *)
Lemma offline_fence_types_witness :
  (forall j, (j < 3)%nat ->
     exists e, attempt_fails plain_URL cfg0 "products/categories"
                 [("parent", num 0); ("per_page", num 20)] "GET" VNull w_down j e)
  /\ exists s' w',
       loadFenceTypes plain_URL env_unset initialState w_down = (Normal s', w')
       /\ fenceTypes s' = VArr main_categories
       /\ error s' = VNull
       /\ loading s' = false.
Proof.
  assert (forall j, (j < 3)%nat ->
            exists e, attempt_fails plain_URL cfg0 "products/categories"
                        [("parent", num 0); ("per_page", num 20)] "GET" VNull
                        w_down j e) as Hall.
  { intros j Hj. exists failed_to_fetch. exists (Rejected failed_to_fetch).
    destruct j as [|[|[|j]]]; [split; vm_compute; reflexivity ..|exfalso; lia]. }
  split; [exact Hall|].
  exact (CalculatorFacts.offline_fence_types plain_URL env_unset initialState
           w_down Hall).
Defined.

(** X14: a fence type picked and the button pressed: step 1. *)
Lemma stepper_invariant_witness :
  reachable plain_URL env_unset
    (handleNext (handleFenceTypeChange (VStr "53") initialState))
  /\ 0 <= activeStep (handleNext (handleFenceTypeChange (VStr "53") initialState))
       <= 2
  /\ (activeStep (handleNext (handleFenceTypeChange (VStr "53") initialState)) <> 0 ->
      truthy (selectedFenceType
                (handleNext (handleFenceTypeChange (VStr "53") initialState)))
      = true).
Proof.
  assert (reachable plain_URL env_unset
            (handleNext (handleFenceTypeChange (VStr "53") initialState))) as Hr.
  { apply (reach_event _ _ (handleFenceTypeChange (VStr "53") initialState) _
             ClickMain); [|reflexivity].
    apply (reach_event _ _ initialState _ (Select (VStr "53")));
      [apply reach_initial|reflexivity]. }
  split; [exact Hr|].
  exact (CalculatorFacts.stepper_invariant plain_URL env_unset _ Hr).
Defined.

(** X15: [null] for the products. *)
Lemma utilities_without_products_witness :
  (forall x items, VNull <> VArr (x :: items))
  /\ filterProducts never never none_above_zero VNull [("type", VStr "53")]
     = Normal (VArr [])
  /\ getUniqueAttributeValues keep_order VNull "Height" [] = Normal (VArr []).
Proof.
  split; [discriminate|].
  destruct (UtilsFacts.utilities_without_products never never none_above_zero
              keep_order VNull [("type", VStr "53")] "Height" []
              ltac:(discriminate)) as [Hf Hu].
  split; [exact Hf|exact (Hu eq_refl)].
Defined.

(** X16: filters that set only a key the filter does not read. *)
Lemma no_filter_keeps_all_witness :
  (forall k, In k filter_keys -> get k [("colour", VStr "white")] = VUndefined)
  /\ filterProducts never never none_above_zero (VArr [VNull; num 3])
       [("colour", VStr "white")]
     = Normal (VArr [VNull; num 3]).
Proof.
  assert (forall k, In k filter_keys -> get k [("colour", VStr "white")] = VUndefined)
    as Hk.
  { intros k Hin. cbn in Hin.
    repeat (destruct Hin as [<- | Hin]; [reflexivity|]). destruct Hin. }
  split; [exact Hk|].
  apply UtilsFacts.no_filter_keeps_all. exact Hk.
Defined.

(** X17: the category given as the number 53. *)
Lemma type_filter_must_be_string_witness :
  get "type" [("type", num 53)] <> VUndefined
  /\ (forall s, get "type" [("type", num 53)] <> VStr s)
  /\ exists e,
       filterProducts never never none_above_zero (VArr [VObj []])
         [("type", num 53)] = Throw e
       /\ err_name e = "TypeError".
Proof.
  split; [discriminate|]. split; [discriminate|].
  apply UtilsFacts.type_filter_must_be_string; discriminate.
Defined.

(** X18: [VINYL] and [vinyl] as the type. *)
Lemma filter_terms_case_insensitive_witness :
  toLowerCase "VINYL" = toLowerCase "vinyl"
  /\ filterProducts never never none_above_zero
       (VArr [product_at (Int 101) "a" "b" "c" "d"]) (set "type" (VStr "VINYL") [])
     = filterProducts never never none_above_zero
         (VArr [product_at (Int 101) "a" "b" "c" "d"])
         (set "type" (VStr "vinyl") []).
Proof.
  split; [reflexivity|].
  apply UtilsFacts.filter_terms_case_insensitive; [left|]; reflexivity.
Defined.

(** X20: the heights of two synthesized products. *)
Lemma unique_values_sorted_witness :
  exists allValues out,
    flat_map_c (attribute_values "Height")
      [product_at (Int 101) "a" "b" "c" "d"; product_at (Int 104) "a" "b" "c" "d"]
    = Normal allValues
    /\ Forall (fun v => exists s, v = VStr s) allValues
    /\ getUniqueAttributeValues keep_order
         (VArr [product_at (Int 101) "a" "b" "c" "d";
                product_at (Int 104) "a" "b" "c" "d"]) "Height" []
       = Normal (VArr out)
    /\ Sorted (fun a b => (ToString a <? ToString b)%string = true) out
    /\ NoDup out
    /\ forall v, In v out <-> In v allValues.
Proof.
  eexists.
  match goal with
  | |- exists out, ?f = Normal ?vals /\ _ =>
      assert (f = Normal vals) as Hall by (vm_compute; reflexivity)
  end.
  match type of Hall with
  | _ = Normal ?vals =>
      assert (Forall (fun v => exists s, v = VStr s) vals) as Hstr
        by (repeat constructor; eexists; reflexivity)
  end.
  destruct (UtilsFacts.unique_values_sorted keep_order
              _ "Height" [] _ Hall Hstr eq_refl) as (out & H).
  exists out. split; [exact Hall|]. split; [exact Hstr|exact H].
Defined.

End Samples.
